(** * esportsearnings-data-scraper: the retrieval core of [main.py]

    A shallow embedding of [src/main.py] and the properties of its
    pagination loops, its HTTP fetcher and its pipeline.

    The program is a sequential Python script over [requests] and [pandas].
    Its own code (the loops, the termination tests, the tagging of rows, the
    order of the pipeline) is embedded as it is written.  What it calls in
    the libraries is modelled as follows.

    - A [DataFrame] is an ordered list of column labels and an ordered list
      of rows; a row maps a label to a cell, and a label without a cell
      reads as NaN (what pandas fills in when frames with different columns
      are concatenated).  The index is not modelled.  Of the dtypes, what
      shows in the cells is: a concatenation that leaves a column of
      integers with the dtype float64 (as pandas does for an int64 column
      that one of the frames lacks) turns every integer of the column into
      its float.
    - The outside world (the configuration module, the network, the JSON
      decoder, the date and float parsers of pandas, its resolution of
      dtypes, the file system) is a class [Env]: every definition and
      theorem is parametric in it.
    - Effects are a trace of events (requests, prints, sleeps, files
      written); a Python exception is the outcome [Raise]; [while] loops
      take fuel and the outcome [OutOfFuel] stands for a loop that is still
      running when the fuel is spent. *)

From Stdlib Require Import ZArith List Bool Lia Ascii.
From Stdlib Require Import Floats.SpecFloat.
From stdpp Require Import base decidable option list gmap strings pretty.

Local Open Scope string_scope.
Local Open Scope list_scope.
Local Open Scope Z_scope.

(** ** Cells *)

(** [datetime.date]: Python orders dates as the triples (year, month, day). *)
Record date := Date { year : Z; month : Z; day : Z }.

Definition date_compare (a b : date) : comparison :=
  match year a ?= year b with
  | Eq => match month a ?= month b with
          | Eq => day a ?= day b
          | c => c
          end
  | c => c
  end.

Definition date_ltb (a b : date) : bool :=
  match date_compare a b with Lt => true | _ => false end.

Definition date_leb (a b : date) : bool := negb (date_ltb b a).

Definition date_min (a b : date) : date := if date_ltb b a then b else a.

(** A binary64 number, as the Standard Library specifies them. *)
Abbreviation float64 := spec_float.

Inductive value :=
| VNaN                                  (* a missing cell, [numpy.nan] *)
| VNaT                                  (* a missing date, [pandas.NaT] *)
| VBool (b : bool)
| VInt (z : Z)
| VFloat (f : float64)
| VStr (s : string)
| VTimestamp (d : date) (nanos : Z)     (* [pandas.Timestamp]: day and time of day *)
| VDate (d : date).                     (* [datetime.date] *)

Global Instance date_eq_dec : EqDecision date.
Proof. solve_decision. Defined.
Global Instance float64_eq_dec : EqDecision float64.
Proof. solve_decision. Defined.
Global Instance value_eq_dec : EqDecision value.
Proof. solve_decision. Defined.

(** ** Exceptions and fallible results *)

Inductive exn :=
| KeyError (labels : list string)
| AttributeError (name : string)
| TypeError
| ValueError
| IndexError
| JSONDecodeError
| RequestException
| OSError
| LibraryError (msg : string).

(** The result of a pure computation that may raise. *)
Inductive res (A : Type) :=
| Val (a : A)
| Exc (e : exn).
Arguments Val {A} a.
Arguments Exc {A} e.

Global Instance res_ret : MRet res := fun A a => Val a.
Global Instance res_bind : MBind res := fun A B f m =>
  match m with
  | Val a => f a
  | Exc e => Exc e
  end.

Fixpoint res_mapM {A B : Type} (f : A -> res B) (l : list A) : res (list B) :=
  match l with
  | [] => Val []
  | a :: l' => b ← f a; bs ← res_mapM f l'; Val (b :: bs)
  end.

(** ** Data frames *)

Abbreviation row := (gmap string value).

Record DataFrame := { columns : list string; rows : list row }.

(** [pd.DataFrame()] *)
Definition pd_DataFrame : DataFrame := {| columns := []; rows := [] |}.

(** [df.shape[0]] and [df.shape[1]] *)
Definition shape0 (df : DataFrame) : Z := Z.of_nat (length (rows df)).
Definition shape1 (df : DataFrame) : Z := Z.of_nat (length (columns df)).

Definition has_column (df : DataFrame) (c : string) : bool :=
  bool_decide (c ∈ columns df).

(** The cell of a row under a label; NaN when the row has none. *)
Definition cell (c : string) (r : row) : value := default VNaN (r !! c).

Definition column_values (df : DataFrame) (c : string) : list value :=
  cell c <$> rows df.

(** [df[c]]: a missing label is a [KeyError]. *)
Definition getitem (df : DataFrame) (c : string) : res (list value) :=
  if has_column df c then Val (column_values df c) else Exc (KeyError [c]).

(** [df.c]: a missing label is an [AttributeError]. *)
Definition getattr (df : DataFrame) (c : string) : res (list value) :=
  if has_column df c then Val (column_values df c) else Exc (AttributeError c).

Definition add_column (cs : list string) (c : string) : list string :=
  if bool_decide (c ∈ cs) then cs else cs ++ [c].

(** [df[c] = v] for a scalar [v]: every row gets [v] under [c], whatever it
    held there; a new label is added last. *)
Definition setitem_scalar (df : DataFrame) (c : string) (v : value) : DataFrame :=
  {| columns := add_column (columns df) c;
     rows := (fun r => <[c := v]> r) <$> rows df |}.

(** [df[c] = s] for a series [s] computed from a column of [df] (one value
    per row, in row order). *)
Definition setitem_series (df : DataFrame) (c : string) (s : list value) : DataFrame :=
  {| columns := add_column (columns df) c;
     rows := zip_with (fun r v => <[c := v]> r) (rows df) s |}.

(** [df.drop(labels, axis=1)]: a label that is not a column is a [KeyError]
    naming the labels not found. *)
Definition drop (df : DataFrame) (labels : list string) : res DataFrame :=
  match filter (fun l => l ∉ columns df) labels with
  | [] => Val {| columns := filter (fun c => c ∉ labels) (columns df);
                 rows := (fun r => foldr delete r labels) <$> rows df |}
  | missing => Exc (KeyError missing)
  end.

(** [df[mask]] for a boolean series [mask]. *)
Definition select_rows (df : DataFrame) (mask : list bool) : DataFrame :=
  {| columns := columns df;
     rows := fst <$> filter (fun rb => snd rb = true) (zip (rows df) mask) |}.

(** [Series.unique()]: the distinct values, in order of first occurrence. *)
Fixpoint unique_from (seen : list value) (l : list value) : list value :=
  match l with
  | [] => []
  | v :: l' => if bool_decide (v ∈ seen) then unique_from seen l'
               else v :: unique_from (v :: seen) l'
  end.
Definition unique (l : list value) : list value := unique_from [] l.

(** [series == z] for an integer literal [z], element by element. *)
Definition float_of_Z (z : Z) : float64 := binary_normalize 53 1024 z 0 false.
Definition eq_int (z : Z) (v : value) : bool :=
  match v with
  | VInt n => n =? z
  | VBool b => (if b then 1 else 0) =? z
  | VFloat f => match SFcompare f (float_of_Z z) with Some Eq => true | _ => false end
  | _ => false
  end.

(** [series.dt.date], element by element: the day of a timestamp; the
    accessor exists on datetime columns only. *)
Definition dt_date (v : value) : res value :=
  match v with
  | VTimestamp d _ => Val (VDate d)
  | VNaT => Val VNaT
  | _ => Exc (AttributeError "dt")
  end.

(** [series.min()] on a column of [datetime.date] objects, the only column
    the program takes a minimum of.  An empty column gives NaN.  A column
    holding a missing value beside dates makes pandas compare a date with
    the float it fills in, a [TypeError]. *)
Fixpoint dates_of (l : list value) : option (list date) :=
  match l with
  | [] => Some []
  | VDate d :: l' => ds ← dates_of l'; Some (d :: ds)
  | _ => None
  end.

Definition Series_min (l : list value) : res value :=
  match dates_of l with
  | Some [] => Val VNaN
  | Some (d :: ds) => Val (VDate (foldl date_min d ds))
  | None => Exc TypeError
  end.

(** [a > b] where [b] is a [datetime.date]. *)
Definition gt_date (a : value) (b : date) : res bool :=
  match a with
  | VDate d => Val (date_ltb b d)
  | _ => Exc TypeError
  end.

(** ** The outside world *)

(** What the program reads of a [requests.Response]. *)
Record response := { status_code : Z; text : string }.

(** A Python [dict] literal with string keys, in the order it is written. *)
Abbreviation dict := (list (string * value)).

(** The collaborators of the program.  [requests_get n url params] is what
    the [n]-th request of the run (counted from 0) gives: a response, or the
    exception [requests.get] raises.  [response_json] is [response.json()],
    [json_normalize] is [pd.json_normalize]; [to_datetime] is
    [pd.to_datetime] on one element and [astype_float] is the conversion
    [astype(float)] applies to one element; both raise as the library
    does.  [concat_upcasts a b c] tells whether [pd.concat([a, b])] gives
    the column [c] the dtype float64 where the frames hold integers under
    it; pandas does so for an int64 column that one of the two frames lacks,
    unless that frame has no row and no column, and for a column that is
    int64 in one frame and float64 in the other.  [to_csv_allowed] tells
    whether a path can be written. *)
Class Env := {
  API_TOKEN : string;
  requests_get : nat -> string -> dict -> res response;
  json : Type;
  response_json : string -> res json;
  json_normalize : json -> res DataFrame;
  to_datetime : value -> res value;
  astype_float : value -> res float64;
  concat_upcasts : DataFrame -> DataFrame -> string -> bool;
  to_csv_allowed : string -> bool
}.

(** The cell of a column that has become float64: the float of an integer,
    any other value as it is. *)
Definition upcast (v : value) : value :=
  match v with
  | VInt z => VFloat (float_of_Z z)
  | _ => v
  end.

(** A row of [a] or [b] in [pd.concat([a, b])]. *)
Definition concat_row `{Env} (a b : DataFrame) (r : row) : row :=
  map_imap (fun c v => Some (if concat_upcasts a b c then upcast v else v)) r.

(** [a.append(b)], which is [pd.concat([a, b])]: the rows of [a], then the
    rows of [b], with the cells of the columns that become float64 upcast;
    the labels of [a], then the new labels of [b]. *)
Definition append `{Env} (a b : DataFrame) : DataFrame :=
  {| columns := columns a ++ filter (fun c => c ∉ columns a) (columns b);
     rows := (concat_row a b <$> rows a) ++ (concat_row a b <$> rows b) |}.

(** ** Effects *)

(** A printed line is the concatenation of its pieces. *)
Inductive piece :=
| PStr (s : string)
| PVal (v : value)
| PVals (l : list value).

Inductive event :=
| EGet (url : string) (params : dict) (result : res response)
| EPrint (line : list piece)
| ESleep (seconds : Z)
| EToCsv (path : string) (df : DataFrame).

Definition is_get (e : event) : bool :=
  match e with EGet _ _ _ => true | _ => false end.

Definition requests_made (t : list event) : nat := length (List.filter is_get t).

Inductive outcome (A : Type) :=
| Ok (a : A)
| Raise (e : exn)
| OutOfFuel.
Arguments Ok {A} a.
Arguments Raise {A} e.
Arguments OutOfFuel {A}.

(** A computation, run when [n] requests have been made so far, gives an
    outcome and the events it caused, oldest first. *)
Definition M (A : Type) : Type := nat -> outcome A * list event.

Global Instance M_ret : MRet M := fun A a _ => (Ok a, []).
Global Instance M_bind : MBind M := fun A B f m n =>
  match m n with
  | (Ok a, t) => let '(o, t') := f a (n + requests_made t)%nat in (o, t ++ t')
  | (Raise e, t) => (Raise e, t)
  | (OutOfFuel, t) => (OutOfFuel, t)
  end.

Definition lift {A : Type} (r : res A) : M A := fun _ =>
  match r with
  | Val a => (Ok a, [])
  | Exc e => (Raise e, [])
  end.

Definition emit (e : event) : M unit := fun _ => (Ok tt, [e]).

(** [print(...)] and [time.sleep(...)] *)
Definition print (line : list piece) : M unit := emit (EPrint line).
Definition time_sleep (seconds : Z) : M unit := emit (ESleep seconds).

(** [requests.get(url, params=params, verify=False)] *)
Definition http_get `{Env} (url : string) (params : dict) : M response := fun n =>
  let r := requests_get n url params in
  (match r with Val x => Ok x | Exc e => Raise e end, [EGet url params r]).

(** [df.to_csv(path, index=False)] *)
Definition to_csv `{Env} (df : DataFrame) (path : string) : M unit := fun _ =>
  if to_csv_allowed path then (Ok tt, [EToCsv path df]) else (Raise OSError, []).

(** [while cond: body], for at most [fuel] evaluations of [cond]. *)
Fixpoint while {St : Type} (fuel : nat) (cond : St -> M bool) (body : St -> M St)
    (s : St) : M St :=
  match fuel with
  | O => fun _ => (OutOfFuel, [])
  | S fuel' => c ← cond s;
               if (c : bool) then s' ← body s; while fuel' cond body s' else mret s
  end.

(** [for x in xs: body] *)
Fixpoint for_each {A St : Type} (xs : list A) (body : A -> St -> M St) (s : St) : M St :=
  match xs with
  | [] => mret s
  | x :: xs' => s' ← body x s; for_each xs' body s'
  end.

(** ** The program *)

Section Program.
Context `{Env}.

(** The module-level settings; [API_TOKEN] comes from the configuration
    module, which is part of the outside world. *)
Definition query_min_date : date := Date 2023 1 1.
Definition wait_time_in_seconds : Z := 1.
Definition verbose : bool := true.

Definition base_url : string := "http://api.esportsearnings.com/v0".
Definition recent_tournaments : string := "/LookupRecentTournaments".
Definition highest_earning_players_by_game : string := "/LookupHighestEarningPlayersByGame".
Definition highest_earning_teams_by_game : string := "/LookupHighestEarningTeamsByGame".
Definition game_by_id : string := "/LookupGameById".
Definition tournament_results_by_tournament_id : string :=
  "/LookupTournamentResultsByTournamentId".
Definition tournament_team_results_by_tournament_id : string :=
  "/LookupTournamentTeamResultsByTournamentId".

(** [get_data(url, params)] (its third parameter is never read). *)
Definition get_data (url : string) (params : dict) : M DataFrame :=
  response ← http_get url params;
  if status_code response =? 200 then
    if bool_decide (text response = "") then mret pd_DataFrame
    else
      data ← lift (response_json (text response));
      df ← lift (json_normalize data);
      mret df
  else
    print [PStr "Error: "; PVal (VInt (status_code response))];;
    mret pd_DataFrame.

(** The body of the loop of [process_tournaments], for one date column. *)
Definition convert_date_column (df : DataFrame) (date_column : string) : res DataFrame :=
  col ← getitem df date_column;
  ts ← res_mapM to_datetime col;
  let df := setitem_series df date_column ts in
  col ← getitem df date_column;
  ds ← res_mapM dt_date col;
  Val (setitem_series df date_column ds).

(** [process_tournaments(df)] *)
Definition process_tournaments (df : DataFrame) : res DataFrame :=
  let date_columns := ["StartDate"; "EndDate"] in
  df ← foldl (fun acc date_column => df ← acc; convert_date_column df date_column)
             (Val df) date_columns;
  col ← getitem df "TotalUSDPrize";
  fs ← res_mapM astype_float col;
  Val (setitem_series df "TotalUSDPrize" (VFloat <$> fs)).

(** The variables of the loop of [get_tournament_data]. *)
Record tournament_vars := {
  t_offset : Z;
  t_first_run : bool;
  t_df_all : DataFrame;
  t_df : DataFrame
}.

(** [first_run or df.shape[0] < limit or df_all.StartDate.min() > query_until_date],
    evaluated left to right as Python does. *)
Definition tournament_continue (query_until_date : date) (limit : Z)
    (s : tournament_vars) : res bool :=
  if t_first_run s then Val true
  else if shape0 (t_df s) <? limit then Val true
  else
    col ← getattr (t_df_all s) "StartDate";
    m ← Series_min col;
    gt_date m query_until_date.

Definition shape_pieces (df : DataFrame) : list piece :=
  [PStr "("; PVal (VInt (shape0 df)); PStr ", "; PVal (VInt (shape1 df)); PStr ")"].

(** One iteration of the loop of [get_tournament_data]. *)
Definition tournament_body (limit : Z) (verbose : bool) (s : tournament_vars)
    : M tournament_vars :=
  let url := base_url +:+ recent_tournaments in
  let params := [("apikey", VStr API_TOKEN); ("offset", VInt (t_offset s))] in
  df ← get_data url params;
  df ← lift (process_tournaments df);
  let df_all := append (t_df_all s) df in
  let offset := t_offset s + limit in
  let first_run := false in
  (if verbose then print (shape_pieces df ++ [PStr " "; PVal (VInt offset)]) else mret tt);;
  time_sleep wait_time_in_seconds;;
  mret {| t_offset := offset; t_first_run := first_run; t_df_all := df_all; t_df := df |}.

(** [get_tournament_data(query_until_date, limit, verbose)] *)
Definition get_tournament_data (fuel : nat) (query_until_date : date) (limit : Z)
    (verbose : bool) : M DataFrame :=
  print [PStr "Getting tournament data"];;
  s ← while fuel (fun s => lift (tournament_continue query_until_date limit s))
        (tournament_body limit verbose)
        {| t_offset := 0; t_first_run := true;
           t_df_all := pd_DataFrame; t_df := pd_DataFrame |};
  mret (t_df_all s).

(** [series.values[0]] *)
Definition values0 (l : list value) : res value :=
  match l with
  | v :: _ => Val v
  | [] => Exc IndexError
  end.

(** One iteration of the loop of [get_games_data] ([tqdm] only draws a
    progress bar around the list it iterates). *)
Definition games_body (verbose : bool) (game_id : value) (df_games : DataFrame)
    : M DataFrame :=
  let url_games := base_url +:+ game_by_id in
  let params := [("apikey", VStr API_TOKEN); ("gameid", game_id)] in
  df_game ← get_data url_games params;
  let df_game := setitem_scalar df_game "GameId" game_id in
  let df_games := append df_games df_game in
  time_sleep wait_time_in_seconds;;
  (if verbose then
     names ← lift (getattr df_game "GameName");
     name ← lift (values0 names);
     print [PStr "Game Name: "; PVal name]
   else mret tt);;
  mret df_games.

(** [get_games_data(game_ids, verbose)] *)
Definition get_games_data (game_ids : list value) (verbose : bool) : M DataFrame :=
  print [PStr "Getting games data for "; PVal (VInt (Z.of_nat (length game_ids)));
         PStr " Games"];;
  for_each game_ids (games_body verbose) pd_DataFrame.

(** The variables of the inner loop of [get_game_earnings]. *)
Record earnings_vars := {
  e_offset : Z;
  e_last_page : bool;
  e_all : DataFrame
}.

(** One iteration of the inner loop of [get_game_earnings] (its assignment
    [first_run = False] binds a name that is never read). *)
Definition earnings_body (url_earnings : string) (game_id : value) (limit : Z)
    (verbose : bool) (s : earnings_vars) : M earnings_vars :=
  let params := [("apikey", VStr API_TOKEN); ("gameid", game_id);
                 ("offset", VInt (e_offset s))] in
  df_game_earnings ← get_data url_earnings params;
  let df_game_earnings := setitem_scalar df_game_earnings "GameId" game_id in
  let df_game_earnings_all := append (e_all s) df_game_earnings in
  let offset := e_offset s + limit in
  let last_page := shape0 df_game_earnings <? limit in
  time_sleep wait_time_in_seconds;;
  (if verbose then
     print [PStr "Game ID: "; PVal game_id; PStr " | offset : "; PVal (VInt offset);
            PStr " | Num Results: "; PVal (VInt (shape0 df_game_earnings))]
   else mret tt);;
  mret {| e_offset := offset; e_last_page := last_page; e_all := df_game_earnings_all |}.

Definition earnings_url (teamplay : bool) : string :=
  if teamplay then base_url +:+ highest_earning_teams_by_game
  else base_url +:+ highest_earning_players_by_game.

(** [get_game_earnings(game_ids, teamplay, limit, verbose)] *)
Definition get_game_earnings (fuel : nat) (game_ids : list value) (teamplay : bool)
    (limit : Z) (verbose : bool) : M DataFrame :=
  (if teamplay then print [PStr "Getting Games Earnings Team Data"]
   else print [PStr "Getting Games Earnings Solo Data"]);;
  let url_earnings := earnings_url teamplay in
  for_each game_ids
    (fun game_id df_game_earnings_all =>
       s ← while fuel (fun s => mret (negb (e_last_page s)))
             (earnings_body url_earnings game_id limit verbose)
             {| e_offset := 0; e_last_page := false; e_all := df_game_earnings_all |};
       mret (e_all s))
    pd_DataFrame.

Definition tournament_earnings_url (teamplay : bool) : string :=
  if teamplay then base_url +:+ tournament_team_results_by_tournament_id
  else base_url +:+ tournament_results_by_tournament_id.

(** One iteration of the loop of [get_tournament_earnings]. *)
Definition tournament_earnings_body (url_earnings : string) (verbose : bool)
    (tournament_id : value) (df_tournament_earnings_all : DataFrame) : M DataFrame :=
  let params := [("apikey", VStr API_TOKEN); ("tournamentid", tournament_id)] in
  df_tournament_earnings ← get_data url_earnings params;
  let df_tournament_earnings :=
    setitem_scalar df_tournament_earnings "TournamentId" tournament_id in
  let df_tournament_earnings_all :=
    append df_tournament_earnings_all df_tournament_earnings in
  time_sleep wait_time_in_seconds;;
  (if verbose then
     ids ← lift (getattr df_tournament_earnings "TournamentId");
     print [PVals ids]
   else mret tt);;
  mret df_tournament_earnings_all.

(** [get_tournament_earnings(tournament_ids, teamplay, verbose)] *)
Definition get_tournament_earnings (tournament_ids : list value) (teamplay : bool)
    (verbose : bool) : M DataFrame :=
  let url_earnings := tournament_earnings_url teamplay in
  for_each tournament_ids (tournament_earnings_body url_earnings verbose) pd_DataFrame.

(** The six tables [main] holds when it reaches its last two sections. *)
Record tables := {
  df_tournaments : DataFrame;
  df_games : DataFrame;
  df_solo_earnings : DataFrame;
  df_team_earnings : DataFrame;
  df_solo_tournament_earnings : DataFrame;
  df_team_tournament_earnings : DataFrame
}.

(** [main], up to the comment [# Final Postprocessing]. *)
Definition extraction (fuel : nat) : M tables :=
  df_tournaments ← get_tournament_data fuel query_min_date 100 verbose;
  print [PStr "Getting Games Data"];;
  game_ids ← lift (col ← getattr df_tournaments "GameId"; Val (unique col));
  df_games ← get_games_data game_ids verbose;
  teamplay ← lift (getitem df_tournaments "Teamplay");
  let solo_tournaments := select_rows df_tournaments (eq_int 0 <$> teamplay) in
  solo_game_ids ← lift (col ← getattr solo_tournaments "GameId"; Val (unique col));
  df_solo_earnings ← get_game_earnings fuel solo_game_ids false 100 true;
  teamplay ← lift (getitem df_tournaments "Teamplay");
  let team_tournaments := select_rows df_tournaments (eq_int 1 <$> teamplay) in
  team_game_ids ← lift (col ← getattr team_tournaments "GameId"; Val (unique col));
  df_team_earnings ← get_game_earnings fuel team_game_ids true 100 true;
  solo_tournament_ids ←
    lift (col ← getattr solo_tournaments "TournamentId"; Val (unique col));
  df_solo_tournament_earnings ← get_tournament_earnings solo_tournament_ids false false;
  team_tournament_ids ←
    lift (col ← getattr team_tournaments "TournamentId"; Val (unique col));
  df_team_tournament_earnings ← get_tournament_earnings team_tournament_ids true false;
  mret {| df_tournaments := df_tournaments;
          df_games := df_games;
          df_solo_earnings := df_solo_earnings;
          df_team_earnings := df_team_earnings;
          df_solo_tournament_earnings := df_solo_tournament_earnings;
          df_team_tournament_earnings := df_team_tournament_earnings |}.

(** [main], from [# Final Postprocessing] to [# Save Data]: two of the six
    variables are bound again. *)
Definition final_postprocessing (t : tables) : M tables :=
  solo_earnings ← lift (drop (df_solo_earnings t) ["NameFirst"; "NameLast"]);
  solo_tournament_earnings ←
    lift (drop (df_solo_tournament_earnings t) ["NameFirst"; "NameLast"]);
  mret {| df_tournaments := df_tournaments t;
          df_games := df_games t;
          df_solo_earnings := solo_earnings;
          df_team_earnings := df_team_earnings t;
          df_solo_tournament_earnings := solo_tournament_earnings;
          df_team_tournament_earnings := df_team_tournament_earnings t |}.

(** [main], from [# Save Data] on. *)
Definition save_data (t : tables) : M unit :=
  to_csv (df_tournaments t) "data/tournaments.csv";;
  to_csv (df_games t) "data/games.csv";;
  to_csv (df_solo_earnings t) "data/solo_earnings.csv";;
  to_csv (df_team_earnings t) "data/team_earnings.csv";;
  to_csv (df_solo_tournament_earnings t) "data/solo_tournament_earnings.csv";;
  to_csv (df_team_tournament_earnings t) "data/team_tournament_earnings.csv".

(** [main()]; each [while] loop it reaches is given [fuel]. *)
Definition main (fuel : nat) : M unit :=
  t ← extraction fuel;
  t ← final_postprocessing t;
  save_data t.

End Program.


(** * Vocabulary of the properties *)

(** The requests of a trace: URL, parameters and what came back. *)
Abbreviation get_event := (string * dict * res response)%type.

Fixpoint gets (t : list event) : list get_event :=
  match t with
  | [] => []
  | EGet url params r :: t' => (url, params, r) :: gets t'
  | _ :: t' => gets t'
  end.

(** The files written by a trace, in order. *)
Fixpoint writes (t : list event) : list (string * DataFrame) :=
  match t with
  | [] => []
  | EToCsv path df :: t' => (path, df) :: writes t'
  | _ :: t' => writes t'
  end.

Definition outcome_of {A : Type} (r : res A) : outcome A :=
  match r with
  | Val a => Ok a
  | Exc e => Raise e
  end.

(** A frame that differs from another at most in the cells of one column. *)
Definition same_except (c : string) (df df' : DataFrame) : Prop :=
  columns df' = columns df /\
  length (rows df') = length (rows df) /\
  forall i (r : row), rows df !! i = Some r ->
    exists r' : row, rows df' !! i = Some r' /\
      forall c', c' <> c -> r' !! c' = r !! c'.

(** A computation that writes no file, whatever its outcome. *)
Definition writes_nothing {A : Type} (m : M A) : Prop :=
  forall n, writes (m n).2 = [].

(** A computation that needs no fuel: it ends, with a value or a fault. *)
Definition ends {A : Type} (m : M A) : Prop :=
  forall n, (m n).1 <> OutOfFuel.

(** [df'] is [df] without the columns NameFirst and NameLast: both were
    columns of [df]; the other labels are kept in their order; the rows are
    the same rows, without a cell under the two labels and with every other
    cell as it was. *)
Definition names_dropped (df df' : DataFrame) : Prop :=
  "NameFirst" ∈ columns df /\ "NameLast" ∈ columns df /\
  columns df' = filter (fun c => c ∉ ["NameFirst"; "NameLast"]) (columns df) /\
  length (rows df') = length (rows df) /\
  forall i (r : row), rows df !! i = Some r ->
    exists r' : row, rows df' !! i = Some r' /\
      r' !! "NameFirst" = None /\ r' !! "NameLast" = None /\
      forall c, c <> "NameFirst" -> c <> "NameLast" -> r' !! c = r !! c.

Section Vocabulary.
Context `{Env}.

(** *** The fetcher *)

(** What [get_data] returns for the result of its request, as a value. *)
Definition fetched (r : res response) : res DataFrame :=
  response ← r;
  if status_code response =? 200 then
    if bool_decide (text response = "") then Val pd_DataFrame
    else data ← response_json (text response); json_normalize data
  else Val pd_DataFrame.

(** What [get_data] prints for the result of its request. *)
Definition fetch_prints (r : res response) : list event :=
  match r with
  | Val response =>
      if status_code response =? 200 then []
      else [EPrint [PStr "Error: "; PVal (VInt (status_code response))]]
  | Exc _ => []
  end.

(** The rows a request brought back; none when [get_data] raised. *)
Definition page (x : get_event) : DataFrame :=
  match fetched x.2 with
  | Val df => df
  | Exc _ => pd_DataFrame
  end.

(** *** The per-identifier strategies *)

(** The rows of a request, tagged as the extractors tag them. *)
Definition tagged (col : string) (id : value) (x : get_event) : list row :=
  rows (setitem_scalar (page x) col id).

(** A row as concatenations leave it: every cell as it was, or upcast. *)
Definition upcasts (r r' : row) : Prop :=
  forall c, r' !! c = r !! c \/ r' !! c = upcast <$> r !! c.

(** A tag as concatenations leave it: the identifier, or its upcast (the
    float of an integer identifier). *)
Definition tag_of (id v : value) : Prop := v = id \/ v = upcast id.

(** The shape of a complete run over [ids]: the requests, in order, fall
    into one group per identifier, each group as [G] says, and the rows
    produced are, one for one and in that order, the rows of the groups,
    each tagged with the identifier of its group, as the concatenations
    leave them. *)
Definition fetch_groups (col : string) (G : value -> list get_event -> Prop)
    (ids : list value) (t : list event) (out : list row) : Prop :=
  exists groups : list (list get_event),
    length groups = length ids /\
    gets t = concat groups /\
    Forall2 G ids groups /\
    Forall2 upcasts
      (concat (zip_with (fun id g => concat (tagged col id <$> g)) ids groups)) out.

(** The same run, read for its tags: the requests fall into one group per
    identifier and so do the rows produced; the group of [id] has a request,
    each of its requests was made with [id] under the parameter [key], it
    contributes as many rows as its pages hold, and each of these rows holds
    [id] under [col]. *)
Definition tagged_groups (col key : string) (ids : list value) (t : list event)
    (out : list row) : Prop :=
  exists (groups : list (list get_event)) (parts : list (list row)),
    gets t = concat groups /\
    out = concat parts /\
    Forall3 (fun id (g : list get_event) (part : list row) =>
               g <> [] /\
               Forall (fun x : get_event => (key, id) ∈ x.1.2) g /\
               length part = length (concat ((fun x => rows (page x)) <$> g)) /\
               Forall (fun r : row => exists v, r !! col = Some v /\ tag_of id v) part)
            ids groups parts.

(** Requests the world answers in order, the first being request number
    [n] of the run. *)
Definition answered (n : nat) (l : list get_event) : Prop :=
  forall i (x : get_event), l !! i = Some x -> x.2 = requests_get (n + i) x.1.1 x.1.2.

(** A group of the single-fetch strategies: one request, the one [request]
    builds for the identifier. *)
Definition single_fetch (request : value -> string * dict) (id : value)
    (g : list get_event) : Prop :=
  exists x, g = [x] /\ x.1 = request id.

(** A group of the paged strategy: requests at the offsets 0, limit,
    2 * limit, ...; every page but the last has at least [limit] rows and
    the last has fewer. *)
Definition paged_fetch (request : value -> nat -> string * dict) (limit : Z)
    (id : value) (g : list get_event) : Prop :=
  fst <$> g = request id <$> seq 0 (length g) /\
  exists init last, g = init ++ [last] /\
    Forall (fun x => limit <= shape0 (page x)) init /\
    shape0 (page last) < limit.

Definition games_request (game_id : value) : string * dict :=
  (base_url +:+ game_by_id, [("apikey", VStr API_TOKEN); ("gameid", game_id)]).

Definition earnings_request (teamplay : bool) (limit : Z) (game_id : value)
    (k : nat) : string * dict :=
  (earnings_url teamplay,
   [("apikey", VStr API_TOKEN); ("gameid", game_id);
    ("offset", VInt (Z.of_nat k * limit))]).

Definition tournament_earnings_request (teamplay : bool) (tournament_id : value)
    : string * dict :=
  (tournament_earnings_url teamplay,
   [("apikey", VStr API_TOKEN); ("tournamentid", tournament_id)]).

(** *** The tournament paginator *)

Definition tournaments_request (offset : Z) : string * dict :=
  (base_url +:+ recent_tournaments,
   [("apikey", VStr API_TOKEN); ("offset", VInt offset)]).

(** The page of a request after [process_tournaments]. *)
Definition processed (x : get_event) : res DataFrame :=
  df ← fetched x.2; process_tournaments df.

Definition tournament_page (x : get_event) : DataFrame :=
  match processed x with
  | Val df => df
  | Exc _ => pd_DataFrame
  end.

(** The variables of the loop before its first iteration, and after an
    iteration that made the request [x]. *)
Definition initial_vars : tournament_vars :=
  {| t_offset := 0; t_first_run := true;
     t_df_all := pd_DataFrame; t_df := pd_DataFrame |}.

Definition vars_after (limit : Z) (s : tournament_vars) (x : get_event)
    : tournament_vars :=
  {| t_offset := t_offset s + limit; t_first_run := false;
     t_df_all := append (t_df_all s) (tournament_page x);
     t_df := tournament_page x |}.

(** The accumulator after the requests [g]. *)
Definition accumulated (g : list get_event) : DataFrame :=
  foldl (fun acc x => append acc (tournament_page x)) pd_DataFrame g.

(** [df.StartDate.min()] when it is a date. *)
Definition min_start_date (df : DataFrame) : option date :=
  match col ← getattr df "StartDate"; Series_min col with
  | Val (VDate d) => Some d
  | _ => None
  end.

(** The stopping test of the specification, after the requests [g]: the
    page fetched last has at least [limit] rows and the least StartDate of
    all the rows accumulated is at most the cutoff. *)
Definition stop_test (query_until_date : date) (limit : Z) (df_all df : DataFrame)
    : Prop :=
  limit <= shape0 df /\
  exists d, min_start_date df_all = Some d /\ date_leb d query_until_date = true.

Definition stops_after (query_until_date : date) (limit : Z) (g : list get_event)
    : Prop :=
  exists x, last g = Some x /\
    stop_test query_until_date limit (accumulated g) (tournament_page x).

(** Its opposite: the page fetched last is short, or the least StartDate
    accumulated is later than the cutoff. *)
Definition continue_test (query_until_date : date) (limit : Z) (df_all df : DataFrame)
    : Prop :=
  shape0 df < limit \/
  exists d, min_start_date df_all = Some d /\ date_ltb query_until_date d = true.

Definition continues_after (query_until_date : date) (limit : Z) (g : list get_event)
    : Prop :=
  exists x, last g = Some x /\
    continue_test query_until_date limit (accumulated g) (tournament_page x).

(** The requests [m] iterations make, the first being request number [n] of
    the run at the offset [offset]. *)
Fixpoint planned (limit : Z) (m n : nat) (offset : Z) : list get_event :=
  match m with
  | O => []
  | S m' =>
      let '(url, params) := tournaments_request offset in
      (url, params, requests_get n url params)
        :: planned limit m' (S n) (offset + limit)
  end.

(** *** The pipeline *)

(** [main] before [# Save Data]. *)
Definition before_save (fuel : nat) : M tables :=
  t ← extraction fuel; final_postprocessing t.

(** The files [save_data] writes, in order. *)
Definition saved (t : tables) : list (string * DataFrame) :=
  [("data/tournaments.csv", df_tournaments t);
   ("data/games.csv", df_games t);
   ("data/solo_earnings.csv", df_solo_earnings t);
   ("data/team_earnings.csv", df_team_earnings t);
   ("data/solo_tournament_earnings.csv", df_solo_tournament_earnings t);
   ("data/team_tournament_earnings.csv", df_team_tournament_earnings t)].

(** A cell [process_tournaments] can turn into a date. *)
Definition date_cell (v : value) : Prop :=
  exists ts d, to_datetime v = Val ts /\ dt_date ts = Val d.

End Vocabulary.

(** * Canned worlds

    Concrete instances of [Env], on which the program runs by computation.
    A canned world answers the requests of a run from a list, in order, and
    decodes a body to the objects listed beside it. *)

(** A decoded JSON array of flat objects. *)
Abbreviation objects := (list (list (string * value))).

Record canned := { c_status : Z; c_body : string; c_objects : objects }.

(** The frame of an array of flat objects: the labels in order of first
    appearance, one row per object. *)
Definition frame_of_objects (objs : objects) : DataFrame :=
  {| columns := foldl add_column [] (objs ≫= fmap fst);
     rows := list_to_map <$> objs |}.

Definition digit (a : ascii) : option Z :=
  let n := Z.of_nat (nat_of_ascii a) in
  if (48 <=? n) && (n <=? 57) then Some (n - 48) else None.

Fixpoint digits_value (acc : Z) (s : string) : option Z :=
  match s with
  | EmptyString => Some acc
  | String a s' => d ← digit a; digits_value (10 * acc + d) s'
  end.

(** Dates written YYYY-MM-DD. *)
Definition iso_date (s : string) : option date :=
  if negb (Nat.eqb (String.length s) 10) then None
  else
    match String.get 4 s, String.get 7 s with
    | Some "-"%char, Some "-"%char =>
        y ← digits_value 0 (String.substring 0 4 s);
        m ← digits_value 0 (String.substring 5 2 s);
        d ← digits_value 0 (String.substring 8 2 s);
        Some (Date y m d)
    | _, _ => None
    end.

Definition canned_to_datetime (v : value) : res value :=
  match v with
  | VStr s => match iso_date s with
              | Some d => Val (VTimestamp d 0)
              | None => Exc ValueError
              end
  | VTimestamp d nanos => Val (VTimestamp d nanos)
  | VDate d => Val (VTimestamp d 0)
  | VNaN | VNaT => Val VNaT
  | _ => Exc TypeError
  end.

(** Decimal numerals: digits with at most one point.  [k] counts the digits
    read after the point. *)
Fixpoint decimal_digits (s : string) (m : Z) (k : option Z) : option (Z * Z) :=
  match s with
  | EmptyString => Some (m, default 0 k)
  | String a s' =>
      if Ascii.eqb a "."
      then match k with
           | None => decimal_digits s' m (Some 0)
           | Some _ => None
           end
      else d ← digit a; decimal_digits s' (10 * m + d) (Z.succ <$> k)
  end.

(** The binary64 number nearest to m / 10^k. *)
Definition float_of_decimal (negative : bool) (m k : Z) : float64 :=
  match m with
  | Zpos p => SFdiv 53 1024 (S754_finite negative p 0)
                (S754_finite false (Z.to_pos (10 ^ k)) 0)
  | _ => S754_zero negative
  end.

Definition float_of_string (s : string) : option float64 :=
  match s with
  | EmptyString => None
  | String "-" s' =>
      match s' with
      | EmptyString => None
      | _ => '(m, k) ← decimal_digits s' 0 None; Some (float_of_decimal true m k)
      end
  | _ => '(m, k) ← decimal_digits s 0 None; Some (float_of_decimal false m k)
  end.

Definition canned_astype_float (v : value) : res float64 :=
  match v with
  | VStr s => match float_of_string s with
              | Some f => Val f
              | None => Exc ValueError
              end
  | VInt z => Val (float_of_Z z)
  | VFloat f => Val f
  | VBool b => Val (float_of_Z (if b then 1 else 0))
  | VNaN => Val S754_nan
  | _ => Exc TypeError
  end.

(** The columns a concatenation leaves as float64: those that hold numbers
    only and that one of the frames lacks or holds a float in; a frame
    without a row and without a column does not take part. *)
Definition no_frame (df : DataFrame) : bool :=
  match columns df, rows df with
  | [], [] => true
  | _, _ => false
  end.

Definition number (v : value) : bool :=
  match v with
  | VInt _ | VFloat _ | VNaN => true
  | _ => false
  end.

Definition integer (v : value) : bool :=
  match v with
  | VInt _ => true
  | _ => false
  end.

Definition canned_concat_upcasts (a b : DataFrame) (c : string) : bool :=
  let cells := column_values a c ++ column_values b c in
  negb (no_frame a) && negb (no_frame b) && forallb number cells
  && (negb (has_column a c) || negb (has_column b c) || negb (forallb integer cells)).

Definition canned_world (answers : list canned) : Env :=
  {| API_TOKEN := "token";
     requests_get := fun n _ _ =>
       match answers !! n with
       | Some c => Val {| status_code := c_status c; text := c_body c |}
       | None => Exc RequestException
       end;
     json := objects;
     response_json := fun body =>
       match List.find (fun c => String.eqb (c_body c) body) answers with
       | Some c => Val (c_objects c)
       | None => Exc JSONDecodeError
       end;
     json_normalize := fun objs => Val (frame_of_objects objs);
     to_datetime := canned_to_datetime;
     astype_float := canned_astype_float;
     concat_upcasts := canned_concat_upcasts;
     to_csv_allowed := fun _ => true |}.

Definition tournament_object (tournament game : Z) (start_date end_date prize : string)
    (teamplay : Z) : list (string * value) :=
  [("TournamentId", VInt tournament); ("GameId", VInt game);
   ("StartDate", VStr start_date); ("EndDate", VStr end_date);
   ("TotalUSDPrize", VStr prize); ("Teamplay", VInt teamplay)].

(** ** The scenario of the specification: a full page, then a short one

    Page 1 has 100 tournaments, the earliest starting on 2023-06-01; page 2
    has 40, the earliest starting on 2022-11-01; the server then answers
    with an empty body. *)
Definition scenario_page1 : objects :=
  ((fun i => tournament_object (1000 + Z.of_nat i) 151 "2023-07-15" "2023-07-16"
               "5000.00" 0) <$> seq 0 99)
  ++ [tournament_object 1099 151 "2023-06-01" "2023-06-02" "1234.50" 1].

Definition scenario_page2 : objects :=
  ((fun i => tournament_object (1100 + Z.of_nat i) 151 "2022-12-20" "2022-12-21"
               "250.00" 0) <$> seq 0 39)
  ++ [tournament_object 1139 151 "2022-11-01" "2022-11-02" "100.00" 1].

Definition scenario_world : Env :=
  canned_world
    [ {| c_status := 200; c_body := "[100 tournaments]"; c_objects := scenario_page1 |};
      {| c_status := 200; c_body := "[40 tournaments]"; c_objects := scenario_page2 |};
      {| c_status := 200; c_body := ""; c_objects := [] |} ].

(** ** A server that fails at once *)
Definition failing_world : Env :=
  canned_world [ {| c_status := 500; c_body := "Internal Server Error";
                    c_objects := [] |} ].

(** ** A server that answers with an empty body *)
Definition silent_world : Env :=
  canned_world [ {| c_status := 200; c_body := ""; c_objects := [] |} ].

(** ** Two pages of two tournaments, page limit 2 *)
Definition two_pages_world : Env :=
  canned_world
    [ {| c_status := 200; c_body := "[recent]";
         c_objects := [tournament_object 1 151 "2023-06-01" "2023-06-02" "10.00" 0;
                       tournament_object 2 151 "2023-05-01" "2023-05-02" "20.00" 1] |};
      {| c_status := 200; c_body := "[older]";
         c_objects := [tournament_object 3 152 "2022-12-01" "2022-12-02" "30.00" 0;
                       tournament_object 4 152 "2022-11-01" "2022-11-02" "40.00" 1] |} ].

(** ** The games 7 and 42

    The first answer echoes another GameId, the second echoes none. *)
Definition games_world : Env :=
  canned_world
    [ {| c_status := 200; c_body := "{game 7}";
         c_objects := [[("GameId", VInt 999); ("GameName", VStr "Seven")]] |};
      {| c_status := 200; c_body := "{game 42}";
         c_objects := [[("GameName", VStr "Forty-two")]] |} ].

(** ** A leaderboard of three players, page limit 2 *)
Definition player_object (player : Z) (first last : string) (prize : string)
    : list (string * value) :=
  [("PlayerId", VInt player); ("NameFirst", VStr first); ("NameLast", VStr last);
   ("TotalUSDPrize", VStr prize)].

Definition leaderboard_world : Env :=
  canned_world
    [ {| c_status := 200; c_body := "[players 1-2]";
         c_objects := [player_object 1 "Ada" "Lovelace" "300.00";
                       player_object 2 "Alan" "Turing" "200.00"] |};
      {| c_status := 200; c_body := "[player 3]";
         c_objects := [player_object 3 "Grace" "Hopper" "100.00"] |} ].

(** ** The results of the tournaments 11 and 12 *)
Definition results_world : Env :=
  canned_world
    [ {| c_status := 200; c_body := "[results 11]";
         c_objects := [[("TournamentId", VInt 11); ("Ranking", VInt 1)];
                       [("TournamentId", VInt 11); ("Ranking", VInt 2)]] |};
      {| c_status := 404; c_body := "Not Found"; c_objects := [] |} ].

(** ** A whole run of the pipeline

    One full page of 100 solo tournaments of the game 151, old enough for
    the cutoff, all under the tournament identifier 1000; then the game, its
    leaderboard and the results of the tournament. *)
Definition pipeline_world : Env :=
  canned_world
    [ {| c_status := 200; c_body := "[100 tournaments]";
         c_objects := (fun _ => tournament_object 1000 151 "2022-12-20" "2022-12-21"
                                  "250.00" 0) <$> seq 0 100 |};
      {| c_status := 200; c_body := "{game 151}";
         c_objects := [[("GameName", VStr "StarCraft II")]] |};
      {| c_status := 200; c_body := "[players]";
         c_objects := [player_object 1 "Ada" "Lovelace" "300.00"] |};
      {| c_status := 200; c_body := "[results]";
         c_objects := [[("Ranking", VInt 1); ("NameFirst", VStr "Ada");
                        ("NameLast", VStr "Lovelace")]] |} ].

(** ** A page to post-process *)
Definition prize_page : DataFrame :=
  frame_of_objects
    [tournament_object 1 151 "2023-06-01" "2023-06-03" "1234.50" 0;
     tournament_object 2 151 "2023-07-01" "2023-07-02" "0.1" 1].

(** ** Tables to post-process *)
Definition some_tables : tables :=
  let solo := frame_of_objects [player_object 1 "Ada" "Lovelace" "300.00"] in
  let team := frame_of_objects [[("TeamId", VInt 5); ("TeamName", VStr "Five")]] in
  {| df_tournaments := pd_DataFrame; df_games := pd_DataFrame;
     df_solo_earnings := solo; df_team_earnings := team;
     df_solo_tournament_earnings := solo; df_team_tournament_earnings := team |}.

(** * Vocabulary of the further properties *)

(** ** Pacing of the requests *)

(** Reading a trace for its pacing: [pending] tells whether a request has
    been made with no sleep of [wait_time_in_seconds] since.  A request made
    while one is pending breaks the pace. *)
Fixpoint pace (pending : bool) (t : list event) : option bool :=
  match t with
  | [] => Some pending
  | EGet _ _ _ :: t' => if pending then None else pace true t'
  | ESleep seconds :: t' =>
      pace (if seconds =? wait_time_in_seconds then false else pending) t'
  | _ :: t' => pace pending t'
  end.

(** A computation that keeps the pace: started with [b], it ends with [b']
    when it returns, and has not broken the pace when it does not. *)
Definition paces {A : Type} (b : bool) (m : M A) (b' : bool) : Prop :=
  forall n,
    match m n with
    | (Ok _, t) => pace b t = Some b'
    | (_, t) => pace b t <> None
    end.

(** Between any two requests of the trace there is a sleep of
    [wait_time_in_seconds]. *)
Definition sleeps_between_requests (t : list event) : Prop :=
  forall t1 e1 t2 e2 t3,
    t = t1 ++ e1 :: t2 ++ e2 :: t3 ->
    is_get e1 = true -> is_get e2 = true ->
    ESleep wait_time_in_seconds ∈ t2.

(** Every request of the trace is followed by such a sleep. *)
Definition sleeps_after_requests (t : list event) : Prop :=
  forall t1 e t2,
    t = t1 ++ e :: t2 -> is_get e = true -> ESleep wait_time_in_seconds ∈ t2.

(** ** Where the requests go *)

(** A computation all of whose requests satisfy [P], whatever its outcome. *)
Definition requests_all {A : Type} (P : get_event -> Prop) (m : M A) : Prop :=
  forall n, Forall P (gets (m n).2).

Section FurtherVocabulary.
Context `{Env}.

(** The endpoint the program declares and never calls. *)
Definition player_tournaments : string := "/LookupPlayerTournaments".

(** The endpoints the program calls. *)
Definition endpoints : list string :=
  [base_url +:+ recent_tournaments;
   base_url +:+ game_by_id;
   base_url +:+ highest_earning_players_by_game;
   base_url +:+ highest_earning_teams_by_game;
   base_url +:+ tournament_results_by_tournament_id;
   base_url +:+ tournament_team_results_by_tournament_id].

(** A request to one of the endpoints, whose first parameter is the key. *)
Definition keyed_request (x : get_event) : Prop :=
  x.1.1 ∈ endpoints /\ head x.1.2 = Some ("apikey", VStr API_TOKEN).

(** The rows [main] selects with [df_tournaments["Teamplay"] == z]. *)
Definition tournaments_with (z : Z) (df : DataFrame) : DataFrame :=
  select_rows df (eq_int z <$> column_values df "Teamplay").

(** The parameters of the requests a trace holds for one URL, in order. *)
Definition requests_to (url : string) (t : list event) : list dict :=
  (fun x : get_event => x.1.2) <$> filter (fun x : get_event => x.1.1 = url) (gets t).

End FurtherVocabulary.

(** ** A full page, a short page and an empty body, page limit 2 *)
Definition short_page_world : Env :=
  canned_world
    [ {| c_status := 200; c_body := "[recent]";
         c_objects := [tournament_object 1 151 "2023-07-15" "2023-07-16" "10.00" 0;
                       tournament_object 2 151 "2023-06-01" "2023-06-02" "20.00" 1] |};
      {| c_status := 200; c_body := "[older]";
         c_objects := [tournament_object 3 152 "2022-11-01" "2022-11-02" "30.00" 0] |};
      {| c_status := 200; c_body := ""; c_objects := [] |} ].

(** ** A leaderboard whose second page fails, page limit 2 *)
Definition broken_leaderboard_world : Env :=
  canned_world
    [ {| c_status := 200; c_body := "[top]";
         c_objects := [player_object 1 "Ada" "Lovelace" "300.00";
                       player_object 2 "Alan" "Turing" "200.00"] |};
      {| c_status := 500; c_body := "Internal Server Error"; c_objects := [] |} ].

(** ** The game 7 is found, the game 42 is not *)
Definition lost_game_world : Env :=
  canned_world
    [ {| c_status := 200; c_body := "{game 7}";
         c_objects := [[("GameId", VInt 7); ("GameName", VStr "Seven")]] |};
      {| c_status := 404; c_body := "Not Found"; c_objects := [] |} ].

(** ** A run of the pipeline over team tournaments only

    One full page of 100 team tournaments of the game 151, old enough for
    the cutoff, all under the tournament identifier 2000; then the game, its
    team leaderboard and the team results of the tournament. *)
Definition team_only_world : Env :=
  canned_world
    [ {| c_status := 200; c_body := "[100 tournaments]";
         c_objects := (fun _ => tournament_object 2000 151 "2022-12-20" "2022-12-21"
                                  "250.00" 1) <$> seq 0 100 |};
      {| c_status := 200; c_body := "{game 151}";
         c_objects := [[("GameName", VStr "StarCraft II")]] |};
      {| c_status := 200; c_body := "[teams]";
         c_objects := [[("TeamId", VInt 5); ("TeamName", VStr "Five")]] |};
      {| c_status := 200; c_body := "[results]";
         c_objects := [[("Ranking", VInt 1); ("TeamName", VStr "Five")]] |} ].

(** ** A leaderboard that echoes another game *)
Definition echoing_leaderboard_world : Env :=
  canned_world
    [ {| c_status := 200; c_body := "[top]";
         c_objects := [[("PlayerId", VInt 1); ("GameId", VInt 999)]] |} ].

(** ** A server that is down

    Every request is answered with status 503. *)
Definition outage_world : Env :=
  {| API_TOKEN := "token";
     requests_get := fun _ _ _ =>
       Val {| status_code := 503; text := "Service Unavailable" |};
     json := objects;
     response_json := fun _ => Exc JSONDecodeError;
     json_normalize := fun objs => Val (frame_of_objects objs);
     to_datetime := canned_to_datetime;
     astype_float := canned_astype_float;
     concat_upcasts := canned_concat_upcasts;
     to_csv_allowed := fun _ => true |}.

(** * Properties *)

(** ** Running computations *)

Ltac unfold_M :=
  unfold mbind, M_bind, mret, M_ret, lift, print, time_sleep, emit in *.

Lemma gets_app t1 t2 : gets (t1 ++ t2) = gets t1 ++ gets t2.
Proof.
  induction t1 as [|e t1 IH]; [done|].
  destruct e; simpl; by rewrite ?IH.
Qed.

Lemma writes_app t1 t2 : writes (t1 ++ t2) = writes t1 ++ writes t2.
Proof.
  induction t1 as [|e t1 IH]; [done|].
  destruct e; simpl; by rewrite ?IH.
Qed.

Lemma requests_made_gets t : requests_made t = length (gets t).
Proof.
  unfold requests_made.
  induction t as [|e t IH]; [done|].
  destruct e; simpl; by rewrite ?IH.
Qed.

Lemma requests_made_app t1 t2 :
  requests_made (t1 ++ t2) = (requests_made t1 + requests_made t2)%nat.
Proof. by rewrite !requests_made_gets, gets_app, length_app. Qed.

Lemma bind_run {A B : Type} (m : M A) (f : A -> M B) (n : nat) :
  (m ≫= f) n =
  match m n with
  | (Ok a, t) => let '(o, t') := f a (n + requests_made t)%nat in (o, t ++ t')
  | (Raise e, t) => (Raise e, t)
  | (OutOfFuel, t) => (OutOfFuel, t)
  end.
Proof. reflexivity. Qed.

Lemma bind_Ok_inv {A B : Type} (m : M A) (f : A -> M B) n b t :
  (m ≫= f) n = (Ok b, t) ->
  exists a t1 t2, m n = (Ok a, t1) /\
    f a (n + requests_made t1)%nat = (Ok b, t2) /\ t = t1 ++ t2.
Proof.
  rewrite bind_run. destruct (m n) as [[a|e|] t1]; [|done..].
  destruct (f a _) as [o t2] eqn:Hf. intros [= -> <-]. by exists a, t1, t2.
Qed.

Lemma bind_Ok {A B : Type} (m : M A) (f : A -> M B) n a t1 o t2 :
  m n = (Ok a, t1) ->
  f a (n + requests_made t1)%nat = (o, t2) ->
  (m ≫= f) n = (o, t1 ++ t2).
Proof. intros Hm Hf. by rewrite bind_run, Hm, Hf. Qed.

Lemma bind_Raise {A B : Type} (m : M A) (f : A -> M B) n e t :
  m n = (Raise e, t) -> (m ≫= f) n = (Raise e, t).
Proof. intros Hm. by rewrite bind_run, Hm. Qed.

Lemma bind_ret {A B : Type} (a : A) (f : A -> M B) n : (mret a ≫= f) n = f a n.
Proof.
  rewrite bind_run. simpl. rewrite Nat.add_0_r. by destruct (f a n).
Qed.

Lemma bind_lift_Val {A B : Type} (r : res A) (a : A) (f : A -> M B) n :
  r = Val a -> (lift r ≫= f) n = f a n.
Proof. intros ->. apply bind_ret. Qed.

Lemma bind_lift_Exc {A B : Type} (r : res A) e (f : A -> M B) n :
  r = Exc e -> (lift r ≫= f) n = (Raise e, []).
Proof. by intros ->. Qed.

Lemma bind_emit {B : Type} (e : event) (f : unit -> M B) n :
  is_get e = false ->
  (emit e ≫= f) n = let '(o, t) := f tt n in (o, e :: t).
Proof.
  intros He. rewrite bind_run. simpl.
  unfold requests_made. simpl. rewrite He. simpl. by rewrite Nat.add_0_r.
Qed.

Lemma bind_assoc {A B C : Type} (m : M A) (f : A -> M B) (g : B -> M C) n :
  ((m ≫= f) ≫= g) n = (m ≫= fun a => f a ≫= g) n.
Proof.
  rewrite !bind_run. destruct (m n) as [[a|e|] t1]; [|done..].
  rewrite bind_run.
  destruct (f a _) as [[b|e|] t2]; [|done..].
  rewrite requests_made_app, Nat.add_assoc.
  destruct (g b _) as [o t3]. by rewrite app_assoc.
Qed.

Lemma while_exit {St : Type} fuel (cond : St -> M bool) body (s : St) n :
  cond s n = (Ok false, []) -> while (S fuel) cond body s n = (Ok s, []).
Proof. intros Hc. simpl. by rewrite bind_run, Hc. Qed.

Lemma while_iterate {St : Type} fuel (cond : St -> M bool) body (s s1 : St) n t1 o t2 :
  cond s n = (Ok true, []) ->
  body s n = (Ok s1, t1) ->
  while fuel cond body s1 (n + requests_made t1)%nat = (o, t2) ->
  while (S fuel) cond body s n = (o, t1 ++ t2).
Proof.
  intros Hc Hb Hw. simpl. rewrite bind_run, Hc. simpl. rewrite Nat.add_0_r.
  by rewrite (bind_Ok _ (fun s' => while fuel cond body s') _ _ _ _ _ Hb Hw).
Qed.

(** A run that is seen to return, by its outcome alone, returns the value
    read off it. *)
Lemma returned_value {A : Type} (r : outcome A * list event) (d : A) :
  (match r.1 with Ok _ => true | _ => false end) = true ->
  r = (Ok (match r.1 with Ok a => a | _ => d end), r.2).
Proof. by destruct r as [[a|e|] t]. Qed.

Lemma ends_ret {A : Type} (a : A) : ends (mret a).
Proof. by intros n. Qed.

Lemma ends_lift {A : Type} (r : res A) : ends (lift r).
Proof. intros n. by destruct r. Qed.

Lemma ends_emit e : ends (emit e).
Proof. by intros n. Qed.

Lemma ends_bind {A B : Type} (m : M A) (f : A -> M B) :
  ends m -> (forall a, ends (f a)) -> ends (m ≫= f).
Proof.
  intros Hm Hf n. rewrite bind_run. specialize (Hm n).
  destruct (m n) as [[a|e|] t1]; [|done..].
  specialize (Hf a (n + requests_made t1)%nat). by destruct (f a _).
Qed.

Lemma ends_for_each {A St : Type} (body : A -> St -> M St) :
  (forall x s, ends (body x s)) -> forall xs s, ends (for_each xs body s).
Proof.
  intros Hb xs. induction xs as [|x xs IH]; intros s.
  - apply ends_ret.
  - cbn [for_each]. by apply ends_bind.
Qed.

Lemma ends_if {A : Type} (b : bool) (m1 m2 : M A) :
  ends m1 -> ends m2 -> ends (if b then m1 else m2).
Proof. by destruct b. Qed.

(** ** The fetcher *)

Section Fetcher.
Context `{Env}.

Lemma get_data_run url params n :
  let r := requests_get n url params in
  get_data url params n = (outcome_of (fetched r), EGet url params r :: fetch_prints r).
Proof.
  intros r. subst r. unfold get_data, http_get, fetched, fetch_prints.
  unfold mbind, M_bind, res_bind, mret, M_ret, lift, print, emit.
  destruct (requests_get n url params) as [resp|e]; simpl; [|done].
  destruct (status_code resp =? 200); simpl; [|done].
  case_bool_decide; simpl; [done|].
  destruct (response_json (text resp)) as [data|e]; simpl; [|done].
  by destruct (json_normalize data).
Qed.

Lemma ends_get_data url params : ends (get_data url params).
Proof. intros n. rewrite get_data_run. simpl. by destruct (fetched _). Qed.

Lemma gets_fetch_prints r : gets (fetch_prints r) = [].
Proof. destruct r as [resp|e]; simpl; [|done]. by destruct (_ =? _). Qed.

Lemma writes_fetch_prints r : writes (fetch_prints r) = [].
Proof. destruct r as [resp|e]; simpl; [|done]. by destruct (_ =? _). Qed.

End Fetcher.

(** ** The per-identifier loops *)

Section PerId.
Context `{Env}.

Lemma shape0_setitem_scalar df c v : shape0 (setitem_scalar df c v) = shape0 df.
Proof. unfold shape0. simpl. by rewrite length_fmap. Qed.

(** *** Rows through concatenations *)

Lemma upcast_idemp v : upcast (upcast v) = upcast v.
Proof. by destruct v. Qed.

Lemma upcasts_refl r : upcasts r r.
Proof. intros c. by left. Qed.

Lemma upcasts_trans r1 r2 r3 : upcasts r1 r2 -> upcasts r2 r3 -> upcasts r1 r3.
Proof.
  intros H12 H23 c. destruct (H12 c) as [E12|E12], (H23 c) as [E23|E23];
    rewrite E23, E12; auto.
  right. rewrite <-option_fmap_compose. apply option_fmap_ext. intros v. apply upcast_idemp.
Qed.

Lemma concat_row_lookup a b (r : row) c :
  concat_row a b r !! c
  = (fun v => if concat_upcasts a b c then upcast v else v) <$> r !! c.
Proof.
  unfold concat_row. rewrite map_lookup_imap. by destruct (r !! c).
Qed.

Lemma concat_row_upcasts a b r : upcasts r (concat_row a b r).
Proof.
  intros c. rewrite concat_row_lookup.
  destruct (concat_upcasts a b c); [by right|left]. by destruct (r !! c).
Qed.

Lemma Forall2_upcasts_refl l : Forall2 upcasts l l.
Proof. induction l; constructor; [apply upcasts_refl|done]. Qed.

Lemma Forall2_upcasts_trans l1 l2 l3 :
  Forall2 upcasts l1 l2 -> Forall2 upcasts l2 l3 -> Forall2 upcasts l1 l3.
Proof. apply Forall2_trans. intros r1 r2 r3. apply upcasts_trans. Qed.

(** The rows of a concatenation are the rows of the two frames, in order,
    as the concatenation leaves them. *)
Lemma rows_append a b : Forall2 upcasts (rows a ++ rows b) (rows (append a b)).
Proof.
  unfold append. cbn [rows]. rewrite <-fmap_app.
  apply Forall2_fmap_r, Forall_Forall2_diag, Forall_forall.
  intros r _. apply concat_row_upcasts.
Qed.

Lemma shape0_append a b : shape0 (append a b) = shape0 a + shape0 b.
Proof.
  unfold shape0, append. cbn [rows]. rewrite length_app, !length_fmap. lia.
Qed.

(** Rows gathered in two steps. *)
Lemma upcasts_step (A B C X Y : list row) :
  Forall2 upcasts (A ++ B) X -> Forall2 upcasts (X ++ C) Y ->
  Forall2 upcasts (A ++ B ++ C) Y.
Proof.
  intros H1 H2. apply Forall2_app_inv_l in H2 as (Y1 & Y2 & HX & HC & ->).
  rewrite app_assoc. apply Forall2_app; [|done].
  by eapply Forall2_upcasts_trans.
Qed.

Lemma for_each_groups col G (body : value -> DataFrame -> M DataFrame) :
  (forall id acc n acc' t, body id acc n = (Ok acc', t) ->
     G id (gets t) /\
     Forall2 upcasts (rows acc ++ concat (tagged col id <$> gets t)) (rows acc')) ->
  forall ids acc n df t, for_each ids body acc n = (Ok df, t) ->
    exists groups : list (list get_event),
      length groups = length ids /\
      gets t = concat groups /\
      Forall2 G ids groups /\
      Forall2 upcasts
        (rows acc
         ++ concat (zip_with (fun id g => concat (tagged col id <$> g)) ids groups))
        (rows df).
Proof.
  intros Hbody ids. induction ids as [|id ids IH]; intros acc n df t Hrun.
  - injection Hrun as <- <-. exists []. split_and!; [done|done|constructor|].
    simpl. rewrite app_nil_r. apply Forall2_upcasts_refl.
  - simpl in Hrun. apply bind_Ok_inv in Hrun as (acc1 & t1 & t2 & Hb & Hrest & ->).
    apply Hbody in Hb as [HG Hrows].
    apply IH in Hrest as (groups & Hlen & Hgets & HF & Hout).
    exists (gets t1 :: groups). split_and!.
    + simpl. by rewrite Hlen.
    + by rewrite gets_app, Hgets.
    + by constructor.
    + cbn [zip_with concat]. by eapply upcasts_step.
Qed.

Lemma games_body_Ok verbose game_id df_games n df_games' t :
  games_body verbose game_id df_games n = (Ok df_games', t) ->
  single_fetch games_request game_id (gets t) /\
  Forall2 upcasts (rows df_games ++ concat (tagged "GameId" game_id <$> gets t))
          (rows df_games').
Proof.
  unfold games_body. rewrite bind_run, get_data_run.
  set (r := requests_get n _ _).
  destruct (fetched r) as [df|e] eqn:Hf; simpl; [|done].
  unfold_M. intros Hrun.
  assert (gets t = [(base_url +:+ game_by_id,
    [("apikey", VStr API_TOKEN); ("gameid", game_id)], r)] /\
    df_games' = append df_games (setitem_scalar df "GameId" game_id)) as [-> ->].
  { revert Hrun. destruct verbose; simpl.
    - destruct (getattr _ _) as [names|e]; simpl; [|done].
      destruct (values0 names) as [name|e]; simpl; [|done].
      intros [= <- <-]. simpl. by rewrite gets_app, gets_fetch_prints.
    - intros [= <- <-]. simpl. by rewrite gets_app, gets_fetch_prints. }
  split; [by eexists|].
  unfold tagged, page. cbn [fmap list_fmap concat snd]. rewrite Hf, app_nil_r.
  apply rows_append.
Qed.

Lemma tournament_earnings_body_Ok teamplay verbose tournament_id acc n acc' t :
  tournament_earnings_body (tournament_earnings_url teamplay) verbose
    tournament_id acc n = (Ok acc', t) ->
  single_fetch (tournament_earnings_request teamplay) tournament_id (gets t) /\
  Forall2 upcasts (rows acc ++ concat (tagged "TournamentId" tournament_id <$> gets t))
          (rows acc').
Proof.
  unfold tournament_earnings_body. rewrite bind_run, get_data_run.
  set (r := requests_get n _ _).
  destruct (fetched r) as [df|e] eqn:Hf; simpl; [|done].
  unfold_M. intros Hrun.
  assert (gets t = [(tournament_earnings_url teamplay,
    [("apikey", VStr API_TOKEN); ("tournamentid", tournament_id)], r)] /\
    acc' = append acc (setitem_scalar df "TournamentId" tournament_id)) as [-> ->].
  { revert Hrun. destruct verbose; simpl.
    - destruct (getattr _ _) as [ids|e]; simpl; [|done].
      intros [= <- <-]. simpl. by rewrite gets_app, gets_fetch_prints.
    - intros [= <- <-]. simpl. by rewrite gets_app, gets_fetch_prints. }
  split; [by eexists|].
  unfold tagged, page. cbn [fmap list_fmap concat snd]. rewrite Hf, app_nil_r.
  apply rows_append.
Qed.

Lemma earnings_body_Ok teamplay game_id limit verbose s n s' t :
  earnings_body (earnings_url teamplay) game_id limit verbose s n = (Ok s', t) ->
  exists x, gets t = [x] /\
    x.1 = (earnings_url teamplay,
           [("apikey", VStr API_TOKEN); ("gameid", game_id);
            ("offset", VInt (e_offset s))]) /\
    e_offset s' = e_offset s + limit /\
    e_last_page s' = (shape0 (page x) <? limit) /\
    Forall2 upcasts (rows (e_all s) ++ tagged "GameId" game_id x) (rows (e_all s')).
Proof.
  unfold earnings_body. rewrite bind_run, get_data_run.
  set (r := requests_get n _ _).
  destruct (fetched r) as [df|e] eqn:Hf; simpl; [|done].
  intros Hrun. eexists (_, _, r).
  unfold tagged, page. cbn [snd]. rewrite Hf.
  revert Hrun. unfold_M.
  destruct verbose; simpl; intros [= <- <-];
    cbn [gets e_offset e_last_page e_all fst snd];
    rewrite gets_app, gets_fetch_prints, shape0_setitem_scalar.
  all: split_and!.
  all: try (by simpl).
  all: exact (rows_append (e_all s) (setitem_scalar df "GameId" game_id)).
Qed.

Lemma earnings_loop_Ok teamplay game_id limit verbose fuel : forall s n s' t,
  while fuel (fun s => mret (negb (e_last_page s)))
    (earnings_body (earnings_url teamplay) game_id limit verbose) s n = (Ok s', t) ->
  fst <$> gets t =
    (fun k => (earnings_url teamplay,
               [("apikey", VStr API_TOKEN); ("gameid", game_id);
                ("offset", VInt (e_offset s + Z.of_nat k * limit))]))
    <$> seq 0 (length (gets t)) /\
  Forall2 upcasts (rows (e_all s) ++ concat (tagged "GameId" game_id <$> gets t))
          (rows (e_all s')) /\
  if e_last_page s then gets t = []
  else exists init last, gets t = init ++ [last] /\
         Forall (fun x => limit <= shape0 (page x)) init /\
         shape0 (page last) < limit.
Proof.
  induction fuel as [|fuel IH]; intros s n s' t Hrun; [done|].
  simpl in Hrun. rewrite bind_ret in Hrun.
  destruct (e_last_page s) eqn:Hlast; simpl in Hrun.
  - injection Hrun as <- <-. simpl. rewrite app_nil_r.
    split_and!; [done|apply Forall2_upcasts_refl|done].
  - apply bind_Ok_inv in Hrun as (s1 & t1 & t2 & Hb & Hrest & ->).
    apply earnings_body_Ok in Hb as (x & Hx & Hreq & Hoff & Hlp & Hrows).
    apply IH in Hrest as (Hreqs & Hrows' & Hshape).
    rewrite gets_app, Hx. cbn [app length seq]. rewrite !fmap_cons. split_and!.
    + rewrite Hreqs, Hreq, Z.add_0_r. f_equal.
      rewrite <-fmap_S_seq, <-list_fmap_compose. apply list_fmap_ext.
      intros _ k _. simpl. rewrite Hoff.
      by replace (e_offset s + limit + Z.of_nat k * limit)
        with (e_offset s + Z.of_nat (S k) * limit) by lia.
    + cbn [concat]. by eapply upcasts_step.
    + rewrite Hlp in Hshape. destruct (shape0 (page x) <? limit) eqn:Hsh.
      * rewrite Hshape. exists [], x. split_and!; [done|done|lia].
      * destruct Hshape as (init & last & -> & Hinit & Hl).
        exists (x :: init), last. split_and!; [done| |done].
        constructor; [lia|done].
Qed.

Lemma tagged_lookup col id x : Forall (fun r : row => r !! col = Some id) (tagged col id x).
Proof.
  unfold tagged. simpl. apply Forall_fmap, Forall_forall. intros r _.
  apply lookup_insert_eq.
Qed.

Lemma earnings_body_fetch url game_id limit verbose s n p :
  let params := [("apikey", VStr API_TOKEN); ("gameid", game_id);
                 ("offset", VInt (e_offset s))] in
  let r := requests_get n url params in
  fetched r = Val p ->
  exists t,
    earnings_body url game_id limit verbose s n =
      (Ok {| e_offset := e_offset s + limit;
             e_last_page := shape0 p <? limit;
             e_all := append (e_all s) (setitem_scalar p "GameId" game_id) |}, t) /\
    gets t = [(url, params, r)].
Proof.
  intros params r Hf. unfold earnings_body. rewrite bind_run, get_data_run.
  fold params r. rewrite Hf. simpl. unfold_M.
  rewrite shape0_setitem_scalar.
  destruct verbose; simpl; eexists; (split; [reflexivity|]);
    simpl; by rewrite gets_app, gets_fetch_prints.
Qed.

Lemma single_fetch_count request ids (groups : list (list get_event)) :
  Forall2 (single_fetch request) ids groups ->
  length (concat groups) = length groups.
Proof.
  induction 1 as [|id g ids groups (x & -> & _) _ IH]; [done|].
  simpl. by rewrite IH.
Qed.

(** The single-fetch extractors have no [while] loop: they end. *)
Lemma ends_get_games_data game_ids verbose : ends (get_games_data game_ids verbose).
Proof.
  unfold get_games_data, games_body, print, time_sleep.
  apply ends_bind; [apply ends_emit|]. intros _.
  apply ends_for_each. intros game_id df_games.
  apply ends_bind; [apply ends_get_data|]. intros df_game.
  apply ends_bind; [apply ends_emit|]. intros _.
  apply ends_bind; [|intros _; apply ends_ret].
  apply ends_if; [|apply ends_ret].
  apply ends_bind; [apply ends_lift|]. intros names.
  apply ends_bind; [apply ends_lift|]. intros name. apply ends_emit.
Qed.

Lemma ends_get_tournament_earnings tournament_ids teamplay verbose :
  ends (get_tournament_earnings tournament_ids teamplay verbose).
Proof.
  unfold get_tournament_earnings, tournament_earnings_body, print, time_sleep.
  apply ends_for_each. intros tournament_id acc.
  apply ends_bind; [apply ends_get_data|]. intros df.
  apply ends_bind; [apply ends_emit|]. intros _.
  apply ends_bind; [|intros _; apply ends_ret].
  apply ends_if; [|apply ends_ret].
  apply ends_bind; [apply ends_lift|]. intros ids. apply ends_emit.
Qed.

(** The three per-identifier extractors, when they return. *)
Lemma get_games_data_groups game_ids verbose n df t :
  get_games_data game_ids verbose n = (Ok df, t) ->
  fetch_groups "GameId" (single_fetch games_request) game_ids t (rows df).
Proof.
  unfold get_games_data, print. rewrite bind_emit by done.
  destruct (for_each _ _ _ _) as [o t'] eqn:Hrun. intros [= -> <-].
  eapply for_each_groups in Hrun as (groups & ? & ? & ? & ?); [|apply games_body_Ok].
  by exists groups.
Qed.

Lemma get_tournament_earnings_groups tournament_ids teamplay verbose n df t :
  get_tournament_earnings tournament_ids teamplay verbose n = (Ok df, t) ->
  fetch_groups "TournamentId" (single_fetch (tournament_earnings_request teamplay))
    tournament_ids t (rows df).
Proof.
  unfold get_tournament_earnings. intros Hrun.
  eapply for_each_groups in Hrun as (groups & ? & ? & ? & ?);
    [|apply tournament_earnings_body_Ok].
  by exists groups.
Qed.

Lemma get_game_earnings_groups fuel game_ids teamplay limit verbose n df t :
  get_game_earnings fuel game_ids teamplay limit verbose n = (Ok df, t) ->
  fetch_groups "GameId" (paged_fetch (earnings_request teamplay limit) limit)
    game_ids t (rows df).
Proof.
  unfold get_game_earnings. intros Hrun.
  assert (exists t', for_each game_ids
    (fun game_id df_game_earnings_all =>
       s ← while fuel (fun s => mret (negb (e_last_page s)))
             (earnings_body (earnings_url teamplay) game_id limit verbose)
             {| e_offset := 0; e_last_page := false; e_all := df_game_earnings_all |};
       mret (e_all s)) pd_DataFrame n = (Ok df, t') /\ gets t = gets t')
    as (t' & Hrun' & Hgets).
  { revert Hrun. unfold print.
    destruct teamplay; rewrite bind_emit by done;
      destruct (for_each _ _ _ _) as [o t'];
      intros [= -> <-]; by exists t'. }
  eapply (for_each_groups "GameId"
            (paged_fetch (earnings_request teamplay limit) limit))
    in Hrun' as (groups & ? & ? & ? & ?).
  - exists groups. by rewrite Hgets.
  - clear. intros id acc n acc' t Hrun.
    apply bind_Ok_inv in Hrun as (s & t1 & t2 & Hloop & Hret & ->).
    injection Hret as <- <-. rewrite app_nil_r.
    apply earnings_loop_Ok in Hloop as (Hreqs & Hrows & Hshape). simpl in *.
    split; [split|done]; [|done].
    rewrite Hreqs. apply list_fmap_ext. intros _ k _.
    unfold earnings_request. by rewrite Z.add_0_l.
Qed.

(** Rows that correspond one for one to the rows of a list of lists fall
    into as many parts. *)
Lemma Forall2_concat_inv_l {A B : Type} (R : A -> B -> Prop) (L : list (list A)) out :
  Forall2 R (concat L) out ->
  exists parts, out = concat parts /\ Forall2 (Forall2 R) L parts.
Proof.
  revert out. induction L as [|l L IH]; intros out Hall.
  - apply Forall2_nil_inv_l in Hall as ->. by exists [].
  - cbn [concat] in Hall. apply Forall2_app_inv_l in Hall as (k1 & k2 & H1 & H2 & ->).
    apply IH in H2 as (parts & -> & Hparts). exists (k1 :: parts). split; [done|].
    by constructor.
Qed.

Lemma length_tagged col id (g : list get_event) :
  length (concat (tagged col id <$> g))
  = length (concat ((fun x => rows (page x)) <$> g)).
Proof.
  induction g as [|x g IH]; [done|].
  rewrite !fmap_cons. cbn [concat]. rewrite !length_app, IH. f_equal.
  unfold tagged. simpl. by rewrite length_fmap.
Qed.

Lemma upcasts_tag col id (r r' : row) :
  r !! col = Some id -> upcasts r r' -> exists v, r' !! col = Some v /\ tag_of id v.
Proof.
  intros Hr Hup. destruct (Hup col) as [Hc|Hc]; rewrite Hr in Hc.
  - exists id. split; [done|by left].
  - exists (upcast id). split; [done|by right].
Qed.

Lemma fetch_groups_tagged col key G ids t out :
  (forall id g, G id g -> g <> [] /\ Forall (fun x : get_event => (key, id) ∈ x.1.2) g) ->
  fetch_groups col G ids t out -> tagged_groups col key ids t out.
Proof.
  intros HG (groups & Hlen & Hgets & HF & Hout).
  apply Forall2_concat_inv_l in Hout as (parts & -> & Hparts).
  exists groups, parts. split_and!; [done..|]. clear Hlen Hgets.
  revert parts Hparts. induction HF as [|id g ids groups Hg _ IH]; intros parts Hparts.
  - apply Forall2_nil_inv_l in Hparts as ->. constructor.
  - cbn [zip_with] in Hparts.
    apply Forall2_cons_inv_l in Hparts as (part & parts' & Hpart & Hparts' & ->).
    constructor; [|by apply IH].
    destruct (HG id g Hg) as [Hne Hkey]. split_and!; [done..| |].
    + rewrite <-(Forall2_length _ _ _ Hpart). apply length_tagged.
    + assert (Forall (fun r : row => r !! col = Some id)
                (concat (tagged col id <$> g))) as Htags.
      { apply Forall_concat, Forall_fmap, Forall_forall. intros x _.
        apply tagged_lookup. }
      clear -Hpart Htags. induction Hpart as [|r r' rs rs' Hr _ IHp]; [constructor|].
      apply Forall_cons in Htags as [Hid Htags].
      constructor; [by eapply upcasts_tag|by apply IHp].
Qed.

Lemma single_fetch_nonempty (request : value -> string * dict) id g :
  single_fetch request id g -> g <> [].
Proof. by intros (x & -> & _). Qed.

Lemma paged_fetch_nonempty (request : value -> nat -> string * dict) limit id g :
  paged_fetch request limit id g -> g <> [].
Proof. intros (_ & init & lst & -> & _). by destruct init. Qed.

Lemma single_fetch_key (request : value -> string * dict) key id g :
  (key, id) ∈ (request id).2 ->
  single_fetch request id g -> Forall (fun x : get_event => (key, id) ∈ x.1.2) g.
Proof. intros Hk (x & -> & Hx). repeat constructor. by rewrite Hx. Qed.

Lemma paged_fetch_key (request : value -> nat -> string * dict) limit key id g :
  (forall k, (key, id) ∈ (request id k).2) ->
  paged_fetch request limit id g -> Forall (fun x : get_event => (key, id) ∈ x.1.2) g.
Proof.
  intros Hk [Hreq _]. apply Forall_forall. intros x Hx.
  assert (x.1 ∈ fst <$> g) as Hin by (by apply list_elem_of_fmap_2).
  rewrite Hreq in Hin. apply list_elem_of_fmap in Hin as (k & -> & _). apply Hk.
Qed.

End PerId.

(** ** The tournament paginator *)

Section Tournaments.
Context `{Env}.

Lemma min_start_date_Some df d :
  min_start_date df = Some d <->
  (col ← getattr df "StartDate"; Series_min col) = Val (VDate d).
Proof.
  unfold min_start_date.
  destruct (_ ≫= _) as [[]|]; split; intros Heq; by simplify_eq.
Qed.

(** The loop test continues when [first_run] is set, and otherwise exactly
    when the specification's [continue_test] holds. *)
Lemma tournament_continue_true query_until_date limit s :
  tournament_continue query_until_date limit s = Val true <->
  t_first_run s = true \/
  continue_test query_until_date limit (t_df_all s) (t_df s).
Proof.
  unfold tournament_continue, continue_test.
  destruct (t_first_run s); [by split; [left|]|].
  destruct (Z.ltb_spec (shape0 (t_df s)) limit) as [Hlt|Hge];
    [by split; [right; left|]|].
  split.
  - intros Hc. right. right.
    destruct (getattr _ _) as [col|] eqn:Hcol; [|done]. simpl in Hc.
    destruct (Series_min col) as [m|] eqn:Hm; [|done]. simpl in Hc.
    destruct m; try done. simpl in Hc. injection Hc as Hc.
    exists d. split; [|done]. apply min_start_date_Some. by rewrite Hcol.
  - intros [|[Hlt|(d & Hd & Hlt)]]; [done|lia|].
    apply min_start_date_Some in Hd.
    destruct (getattr _ _) as [col|]; [|done]. simpl in *.
    rewrite Hd. simpl. by rewrite Hlt.
Qed.

Lemma tournament_continue_false query_until_date limit s :
  tournament_continue query_until_date limit s = Val false <->
  t_first_run s = false /\
  stop_test query_until_date limit (t_df_all s) (t_df s).
Proof.
  unfold tournament_continue, stop_test, date_leb.
  destruct (t_first_run s); [by split; [|intros [? _]]|].
  destruct (Z.ltb_spec (shape0 (t_df s)) limit) as [Hlt|Hge].
  { split; [done|]. intros (_ & ? & _). lia. }
  split.
  - intros Hc. split_and!; [done..|].
    destruct (getattr _ _) as [col|] eqn:Hcol; [|done]. simpl in Hc.
    destruct (Series_min col) as [m|] eqn:Hm; [|done]. simpl in Hc.
    destruct m; try done. simpl in Hc. injection Hc as Hc.
    exists d. split; [|by rewrite Hc]. apply min_start_date_Some. by rewrite Hcol.
  - intros (_ & _ & d & Hd & Hle).
    apply min_start_date_Some in Hd.
    destruct (getattr _ _) as [col|]; [|done]. simpl in *.
    rewrite Hd. simpl. by destruct (date_ltb query_until_date d).
Qed.

Lemma stop_not_continue query_until_date limit df_all df :
  stop_test query_until_date limit df_all df ->
  ~ continue_test query_until_date limit df_all df.
Proof.
  intros (Hge & d & Hd & Hle) [Hlt|(d' & Hd' & Hgt)]; [lia|].
  rewrite Hd in Hd'. injection Hd' as <-.
  unfold date_leb in Hle. by rewrite Hgt in Hle.
Qed.

(** One iteration: the request, then the outcome of decoding and processing
    the page. *)
Lemma tournament_body_run limit verbose s n :
  let url := base_url +:+ recent_tournaments in
  let params := [("apikey", VStr API_TOKEN); ("offset", VInt (t_offset s))] in
  let x := (url, params, requests_get n url params) in
  exists t',
    tournament_body limit verbose s n =
      (match processed x with
       | Val _ => Ok (vars_after limit s x)
       | Exc e => Raise e
       end, EGet url params (requests_get n url params) :: t') /\
    gets t' = [] /\ writes t' = [].
Proof.
  intros url params x. unfold tournament_body. fold url params.
  rewrite bind_run, get_data_run.
  unfold processed, vars_after, tournament_page, processed. simpl.
  set (r := requests_get n url params).
  pose proof (gets_fetch_prints r) as Hg. pose proof (writes_fetch_prints r) as Hw.
  destruct (fetched r) as [df|e]; simpl; [|by eexists].
  unfold_M.
  destruct (process_tournaments df) as [df'|e]; simpl.
  - destruct verbose; simpl; eexists; (split; [reflexivity|]);
      by rewrite gets_app, writes_app, Hg, Hw.
  - eexists. split; [reflexivity|]. by rewrite gets_app, writes_app, Hg, Hw.
Qed.

Lemma tournament_body_Ok limit verbose s n s' t :
  tournament_body limit verbose s n = (Ok s', t) ->
  exists x, gets t = [x] /\ x.1 = tournaments_request (t_offset s) /\
    x.2 = requests_get n x.1.1 x.1.2 /\
    (exists df, processed x = Val df) /\ s' = vars_after limit s x.
Proof.
  destruct (tournament_body_run limit verbose s n) as (t' & -> & Hg & _).
  destruct (processed _) as [df|e] eqn:Hp; [|done].
  intros [= <- <-]. eexists. simpl. rewrite Hg.
  split_and!; [done..| |done]. by eexists.
Qed.

Lemma while_lift_exit {St : Type} fuel (c : St -> res bool) body (s : St) n :
  c s = Val false -> while (S fuel) (fun s => lift (c s)) body s n = (Ok s, []).
Proof. intros Hc. apply while_exit. by rewrite Hc. Qed.

Lemma while_lift_iterate {St : Type} fuel (c : St -> res bool) body (s s1 : St)
    n t1 o t2 :
  c s = Val true ->
  body s n = (Ok s1, t1) ->
  while fuel (fun s => lift (c s)) body s1 (n + requests_made t1)%nat = (o, t2) ->
  while (S fuel) (fun s => lift (c s)) body s n = (o, t1 ++ t2).
Proof. intros Hc. apply while_iterate. by rewrite Hc. Qed.

(** A complete run of the loop from the variables [s]. *)
Lemma tournament_loop_Ok query_until_date limit verbose fuel : forall s n s' t,
  while fuel (fun s => lift (tournament_continue query_until_date limit s))
    (tournament_body limit verbose) s n = (Ok s', t) ->
  s' = foldl (vars_after limit) s (gets t) /\
  gets t = planned limit (length (gets t)) n (t_offset s) /\
  Forall (fun x => exists df, processed x = Val df) (gets t) /\
  tournament_continue query_until_date limit s' = Val false /\
  forall k, (k < length (gets t))%nat ->
    tournament_continue query_until_date limit
      (foldl (vars_after limit) s (take k (gets t))) = Val true.
Proof.
  induction fuel as [|fuel IH]; intros s n s' t Hrun; [done|].
  cbn [while] in Hrun.
  destruct (tournament_continue query_until_date limit s) as [[]|e] eqn:Hc.
  - rewrite (bind_lift_Val _ true) in Hrun by done.
    apply bind_Ok_inv in Hrun as (s1 & t1 & t2 & Hb & Hrest & ->).
    apply tournament_body_Ok in Hb as (x & Hx & Hreq & Hres & Hp & ->).
    rewrite requests_made_gets, Hx in Hrest. simpl in Hrest.
    rewrite Nat.add_1_r in Hrest.
    apply IH in Hrest as (-> & Hplan & Hall & Hstop & Hcont).
    rewrite gets_app, Hx. cbn [app length foldl]. split_and!; [done| |by constructor|done|].
    + simpl in Hplan. cbn [planned]. unfold tournaments_request in *.
      rewrite <-Hplan.
      destruct x as [[url params] r]. simpl in *. injection Hreq as -> ->.
      by rewrite Hres.
    + intros [|k] Hk; [done|]. cbn [take foldl]. apply Hcont. lia.
  - rewrite (bind_lift_Val _ false) in Hrun by done. injection Hrun as <- <-.
    simpl. split_and!; [done..|]. intros k Hk. lia.
  - by rewrite (bind_lift_Exc _ e) in Hrun.
Qed.

(** The loop returns after the [m] planned requests when every page decodes
    and processes, the test continues before each of them and stops after
    the last. *)
Lemma tournament_loop_returns query_until_date limit verbose m :
  forall fuel s n, (m < fuel)%nat ->
  let g := planned limit m n (t_offset s) in
  Forall (fun x => exists df, processed x = Val df) g ->
  (forall k, (k < m)%nat ->
     tournament_continue query_until_date limit
       (foldl (vars_after limit) s (take k g)) = Val true) ->
  tournament_continue query_until_date limit (foldl (vars_after limit) s g) = Val false ->
  exists t,
    while fuel (fun s => lift (tournament_continue query_until_date limit s))
      (tournament_body limit verbose) s n = (Ok (foldl (vars_after limit) s g), t) /\
    gets t = g.
Proof.
  induction m as [|m IH]; intros fuel s n Hfuel g Hall Hcont Hstop.
  - destruct fuel as [|fuel]; [lia|]. exists []. split; [|done].
    by apply while_lift_exit.
  - destruct fuel as [|fuel]; [lia|].
    subst g. cbn [planned] in *. unfold tournaments_request in *.
    apply Forall_cons in Hall as [[df Hp] Hall].
    destruct (tournament_body_run limit verbose s n) as (t' & Hb & Hg & _).
    rewrite Hp in Hb.
    match type of Hp with processed ?x = _ =>
      destruct (IH fuel (vars_after limit s x) (S n)) as (t2 & Hloop & Hg2)
    end; [lia|exact Hall| |exact Hstop|].
    { intros k Hk. apply (Hcont (S k)). lia. }
    eexists. split.
    + eapply while_lift_iterate; [apply (Hcont 0%nat); lia|exact Hb|].
      rewrite requests_made_gets. simpl. rewrite Hg. simpl.
      rewrite Nat.add_1_r. exact Hloop.
    + simpl. by rewrite gets_app, Hg, Hg2.
Qed.

Lemma foldl_vars_after_df_all limit g : forall s,
  t_df_all (foldl (vars_after limit) s g) =
  foldl (fun acc x => append acc (tournament_page x)) (t_df_all s) g.
Proof. induction g as [|x g IH]; intros s; [done|]. simpl. by rewrite IH. Qed.

Lemma foldl_vars_after_last limit g x s :
  last g = Some x ->
  t_first_run (foldl (vars_after limit) s g) = false /\
  t_df (foldl (vars_after limit) s g) = tournament_page x.
Proof.
  intros Hlast. apply last_Some in Hlast as [g' ->]. by rewrite foldl_app.
Qed.

Lemma loop_stops_after query_until_date limit g :
  g <> [] ->
  tournament_continue query_until_date limit (foldl (vars_after limit) initial_vars g)
    = Val false <-> stops_after query_until_date limit g.
Proof.
  intros Hg. rewrite tournament_continue_false, foldl_vars_after_df_all.
  unfold stops_after. fold (accumulated g).
  destruct (last g) as [x|] eqn:Hlast; [|by apply last_None in Hlast].
  destruct (foldl_vars_after_last limit g x initial_vars Hlast) as [Hf ->].
  split.
  - intros [_ Hs]. by exists x.
  - intros (? & [= <-] & Hs). done.
Qed.

Lemma loop_continues_after query_until_date limit g :
  g <> [] ->
  tournament_continue query_until_date limit (foldl (vars_after limit) initial_vars g)
    = Val true <-> continues_after query_until_date limit g.
Proof.
  intros Hg. rewrite tournament_continue_true, foldl_vars_after_df_all.
  unfold continues_after. fold (accumulated g).
  destruct (last g) as [x|] eqn:Hlast; [|by apply last_None in Hlast].
  destruct (foldl_vars_after_last limit g x initial_vars Hlast) as [Hf ->].
  rewrite Hf. split.
  - intros [|Hs]; [done|]. by exists x.
  - intros (? & [= <-] & Hs). by right.
Qed.

Lemma length_planned limit m : forall n offset,
  length (planned limit m n offset) = m.
Proof. induction m as [|m IH]; intros n offset; [done|]. simpl. by rewrite IH. Qed.

Lemma has_column_false df c : c ∉ columns df -> has_column df c = false.
Proof. intros Hc. unfold has_column. by apply bool_decide_eq_false. Qed.

Lemma has_column_true df c : c ∈ columns df -> has_column df c = true.
Proof. intros Hc. unfold has_column. by apply bool_decide_eq_true. Qed.

(** A page without the StartDate column, the empty frame for one, makes
    [process_tournaments] raise at its first column access. *)
Lemma process_tournaments_no_StartDate df :
  "StartDate" ∉ columns df ->
  process_tournaments df = Exc (KeyError ["StartDate"]).
Proof.
  intros Hc. unfold process_tournaments, convert_date_column. simpl.
  assert (getitem df "StartDate" = Exc (KeyError ["StartDate"])) as ->; [|done].
  unfold getitem. by rewrite has_column_false.
Qed.

(** [get_tournament_data] is its loop between a print and a return. *)
Lemma get_tournament_data_run fuel query_until_date limit verbose n :
  get_tournament_data fuel query_until_date limit verbose n =
  let '(o, t) :=
    while fuel (fun s => lift (tournament_continue query_until_date limit s))
      (tournament_body limit verbose) initial_vars n in
  (match o with
   | Ok s => Ok (t_df_all s)
   | Raise e => Raise e
   | OutOfFuel => OutOfFuel
   end, EPrint [PStr "Getting tournament data"] :: t).
Proof.
  unfold get_tournament_data, print. rewrite bind_emit by done.
  rewrite bind_run. fold initial_vars.
  destruct (while _ _ _ _ _) as [[s|e|] t]; [|done..].
  simpl. by rewrite app_nil_r.
Qed.

End Tournaments.

(** ** Post-processing of tournament pages *)

Section Processing.
Context `{Env}.

Lemma res_mapM_Forall2 {A B : Type} (f : A -> res B) l l' :
  Forall2 (fun a b => f a = Val b) l l' -> res_mapM f l = Val l'.
Proof.
  induction 1 as [|a b l l' Hab _ IH]; [done|].
  simpl. rewrite Hab. simpl. by rewrite IH.
Qed.

Lemma Forall_exists_Forall2 {A B : Type} (P : A -> B -> Prop) l :
  Forall (fun a => exists b, P a b) l -> exists l', Forall2 P l l'.
Proof.
  induction 1 as [|a l [b Hb] _ [l' IH]]; [by exists []|].
  exists (b :: l'). by constructor.
Qed.

Lemma add_column_elem cs c : c ∈ cs -> add_column cs c = cs.
Proof. intros Hc. unfold add_column. by rewrite bool_decide_eq_true_2. Qed.

Lemma setitem_series_lookup df c (vs : list value) i (r : row) :
  length vs = length (rows df) ->
  rows df !! i = Some r ->
  exists v, vs !! i = Some v /\
    rows (setitem_series df c vs) !! i = Some (<[c := v]> r).
Proof.
  intros Hlen Hr.
  destruct (lookup_lt_is_Some_2 vs i) as [v Hv].
  { rewrite Hlen. by eapply lookup_lt_Some. }
  exists v. split; [done|]. simpl. apply lookup_zip_with_Some. by exists r, v.
Qed.

Lemma setitem_series_same_except df c (vs : list value) :
  c ∈ columns df -> length vs = length (rows df) ->
  same_except c df (setitem_series df c vs).
Proof.
  intros Hc Hlen. split_and!.
  - simpl. by apply add_column_elem.
  - simpl. by rewrite length_zip_with_l_eq.
  - intros i r Hr.
    destruct (setitem_series_lookup df c vs i r Hlen Hr) as (v & _ & Hv).
    eexists. split; [exact Hv|]. intros c' Hne. by rewrite lookup_insert_ne.
Qed.

Lemma same_except_trans c df1 df2 df3 :
  same_except c df1 df2 -> same_except c df2 df3 -> same_except c df1 df3.
Proof.
  intros (Hc1 & Hl1 & Hr1) (Hc2 & Hl2 & Hr2). split_and!; [congruence..|].
  intros i r Hr. destruct (Hr1 i r Hr) as (r2 & Hr2' & Heq2).
  destruct (Hr2 i r2 Hr2') as (r3 & Hr3 & Heq3).
  exists r3. split; [done|]. intros c' Hne. by rewrite Heq3, Heq2.
Qed.

Lemma column_values_setitem_series df c (vs : list value) :
  length vs = length (rows df) ->
  column_values (setitem_series df c vs) c = vs.
Proof.
  intros Hlen. unfold column_values. simpl. apply fmap_zip_with_r; [|lia].
  intros r v. unfold cell. by rewrite lookup_insert_eq.
Qed.

Lemma getitem_Val df c : c ∈ columns df -> getitem df c = Val (column_values df c).
Proof. intros Hc. unfold getitem. by rewrite has_column_true. Qed.

(** One date column converts when each of its cells does. *)
Lemma convert_date_column_Val df c :
  c ∈ columns df ->
  Forall (fun r => date_cell (cell c r)) (rows df) ->
  exists df', convert_date_column df c = Val df' /\ same_except c df df'.
Proof.
  intros Hc Hall.
  assert (exists tss dss,
    Forall2 (fun r ts => to_datetime (cell c r) = Val ts) (rows df) tss /\
    Forall2 (fun ts d => dt_date ts = Val d) tss dss) as (tss & dss & Hts & Hds).
  { clear Hc. induction Hall as [|r l (ts & d & Hts & Hd) _ (tss & dss & ? & ?)].
    - by exists [], [].
    - exists (ts :: tss), (d :: dss). split; by constructor. }
  pose proof (Forall2_length _ _ _ Hts) as Hlts.
  pose proof (Forall2_length _ _ _ Hds) as Hlds.
  exists (setitem_series (setitem_series df c tss) c dss). split.
  - unfold convert_date_column. rewrite getitem_Val by done. simpl.
    rewrite (res_mapM_Forall2 _ _ tss) by (by apply Forall2_fmap_l). simpl.
    rewrite getitem_Val by (simpl; by rewrite add_column_elem).
    rewrite column_values_setitem_series by done. simpl.
    by rewrite (res_mapM_Forall2 _ _ dss).
  - eapply same_except_trans; apply setitem_series_same_except; try done.
    + simpl. by rewrite add_column_elem.
    + simpl. rewrite length_zip_with_l_eq by done. congruence.
Qed.

Lemma same_except_cell (P : value -> Prop) c c' df df' :
  c' <> c -> same_except c df df' ->
  Forall (fun r => P (cell c' r)) (rows df) -> Forall (fun r => P (cell c' r)) (rows df').
Proof.
  intros Hne (_ & Hlen & Hrows) Hall. apply Forall_lookup. intros i r' Hr'.
  destruct (lookup_lt_is_Some_2 (rows df) i) as [r Hr].
  { rewrite <-Hlen. by eapply lookup_lt_Some. }
  destruct (Hrows i r Hr) as (r'' & Hr'' & Heq).
  rewrite Hr' in Hr''. injection Hr'' as <-.
  unfold cell. rewrite Heq by done. by eapply (Forall_lookup_1 _ _ _ _ Hall).
Qed.

End Processing.

(** ** The pipeline *)

Lemma writes_nothing_ret {A : Type} (a : A) : writes_nothing (mret a).
Proof. by intros n. Qed.

Lemma writes_nothing_lift {A : Type} (r : res A) : writes_nothing (lift r).
Proof. intros n. by destruct r. Qed.

Lemma writes_nothing_print line : writes_nothing (print line).
Proof. by intros n. Qed.

Lemma writes_nothing_sleep seconds : writes_nothing (time_sleep seconds).
Proof. by intros n. Qed.

Lemma writes_nothing_bind {A B : Type} (m : M A) (f : A -> M B) :
  writes_nothing m -> (forall a, writes_nothing (f a)) -> writes_nothing (m ≫= f).
Proof.
  intros Hm Hf n. rewrite bind_run. specialize (Hm n).
  destruct (m n) as [[a|e|] t1]; [|done..].
  specialize (Hf a (n + requests_made t1)%nat).
  destruct (f a _) as [o t2]. simpl in *. by rewrite writes_app, Hm, Hf.
Qed.

Lemma writes_nothing_while {St : Type} (cond : St -> M bool) (body : St -> M St) :
  (forall s, writes_nothing (cond s)) -> (forall s, writes_nothing (body s)) ->
  forall fuel s, writes_nothing (while fuel cond body s).
Proof.
  intros Hc Hb fuel. induction fuel as [|fuel IH]; intros s; [done|].
  cbn [while]. apply writes_nothing_bind; [done|]. intros [].
  - by apply writes_nothing_bind.
  - apply writes_nothing_ret.
Qed.

Lemma writes_nothing_for_each {A St : Type} (body : A -> St -> M St) :
  (forall x s, writes_nothing (body x s)) ->
  forall xs s, writes_nothing (for_each xs body s).
Proof.
  intros Hb xs. induction xs as [|x xs IH]; intros s.
  - apply writes_nothing_ret.
  - cbn [for_each]. by apply writes_nothing_bind.
Qed.

Lemma writes_nothing_if {A : Type} (b : bool) (m1 m2 : M A) :
  writes_nothing m1 -> writes_nothing m2 -> writes_nothing (if b then m1 else m2).
Proof. by destruct b. Qed.

Create HintDb quiet.

Ltac writes_nothing :=
  repeat first
    [ solve [auto 1 with quiet nocore]
    | apply writes_nothing_ret | apply writes_nothing_lift
    | apply writes_nothing_print | apply writes_nothing_sleep
    | apply writes_nothing_if
    | apply writes_nothing_while; intros ?
    | apply writes_nothing_for_each; intros ? ?
    | apply writes_nothing_bind; [|intros ?] ].

Section Pipeline.
Context `{Env}.

Lemma writes_nothing_get_data url params : writes_nothing (get_data url params).
Proof. intros n. rewrite get_data_run. simpl. apply writes_fetch_prints. Qed.
#[local] Hint Resolve writes_nothing_get_data : quiet.

Lemma writes_nothing_get_tournament_data fuel query_until_date limit verbose :
  writes_nothing (get_tournament_data fuel query_until_date limit verbose).
Proof. unfold get_tournament_data, tournament_body. writes_nothing. Qed.

Lemma writes_nothing_get_games_data game_ids verbose :
  writes_nothing (get_games_data game_ids verbose).
Proof. unfold get_games_data, games_body. writes_nothing. Qed.

Lemma writes_nothing_get_game_earnings fuel game_ids teamplay limit verbose :
  writes_nothing (get_game_earnings fuel game_ids teamplay limit verbose).
Proof. unfold get_game_earnings, earnings_body. writes_nothing. Qed.

Lemma writes_nothing_get_tournament_earnings tournament_ids teamplay verbose :
  writes_nothing (get_tournament_earnings tournament_ids teamplay verbose).
Proof. unfold get_tournament_earnings, tournament_earnings_body. writes_nothing. Qed.

#[local] Hint Resolve writes_nothing_get_tournament_data writes_nothing_get_games_data
  writes_nothing_get_game_earnings writes_nothing_get_tournament_earnings : quiet.

Lemma writes_nothing_before_save fuel : writes_nothing (before_save fuel).
Proof. unfold before_save, extraction, final_postprocessing. writes_nothing. Qed.

Lemma writes_nothing_extraction fuel : writes_nothing (extraction fuel).
Proof. unfold extraction. writes_nothing. Qed.

(** A first page that [process_tournaments] rejects ends
    [get_tournament_data] with the fault, after the one request. *)
Lemma get_tournament_data_first_page_fault fuel query_until_date limit verbose n
    page1 e :
  let url := base_url +:+ recent_tournaments in
  let params := [("apikey", VStr API_TOKEN); ("offset", VInt 0)] in
  let r := requests_get n url params in
  fetched r = Val page1 ->
  process_tournaments page1 = Exc e ->
  get_tournament_data (S fuel) query_until_date limit verbose n =
    (Raise e,
     EPrint [PStr "Getting tournament data"] :: EGet url params r :: fetch_prints r).
Proof.
  intros url params r Hf He. rewrite get_tournament_data_run. cbn [while].
  rewrite (bind_lift_Val _ true) by done. rewrite bind_run.
  unfold tournament_body. rewrite bind_run, get_data_run. simpl.
  fold url params r. rewrite Hf. simpl.
  rewrite (bind_lift_Exc _ e) by done.
  by rewrite app_nil_r.
Qed.

Lemma process_tournaments_no_TotalUSDPrize df :
  "StartDate" ∈ columns df ->
  "EndDate" ∈ columns df ->
  Forall (fun r => date_cell (cell "StartDate" r) /\ date_cell (cell "EndDate" r))
         (rows df) ->
  "TotalUSDPrize" ∉ columns df ->
  process_tournaments df = Exc (KeyError ["TotalUSDPrize"]).
Proof.
  intros Hs He Hall Hp. apply Forall_and in Hall as [Hsd Hed].
  destruct (convert_date_column_Val df "StartDate" Hs Hsd) as (df1 & Hc1 & Hx1).
  destruct (convert_date_column_Val df1 "EndDate") as (df2 & Hc2 & Hx2).
  { destruct Hx1 as (-> & _). done. }
  { by apply (same_except_cell date_cell "StartDate" "EndDate" df df1). }
  unfold process_tournaments. simpl. rewrite Hc1. simpl. rewrite Hc2. simpl.
  destruct Hx1 as (Hcol1 & _). destruct Hx2 as (Hcol2 & _).
  unfold getitem. rewrite has_column_false; [done|]. congruence.
Qed.

Lemma main_run fuel n : main fuel n = (before_save fuel ≫= save_data) n.
Proof. unfold main, before_save. by rewrite bind_assoc. Qed.

(** [save_data], when it completes, has written the six files in order. *)
Lemma save_data_Ok t n tr : save_data t n = (Ok tt, tr) -> writes tr = saved t.
Proof.
  unfold save_data, to_csv, saved. unfold_M.
  repeat (destruct (to_csv_allowed _); simpl; [|done]).
  by intros [= <-].
Qed.

Lemma drop_names_Val df df' :
  drop df ["NameFirst"; "NameLast"] = Val df' -> names_dropped df df'.
Proof.
  unfold drop.
  destruct (decide ("NameFirst" ∈ columns df)) as [Hf|Hf];
    [|by rewrite filter_cons_True by done].
  destruct (decide ("NameLast" ∈ columns df)) as [Hl|Hl].
  2:{ rewrite filter_cons_False by (by intros ?).
      by rewrite filter_cons_True by done. }
  rewrite !filter_cons_False by (by intros ?). rewrite filter_nil.
  intros [= <-]. split_and!; [done..| |].
  - simpl. by rewrite length_fmap.
  - intros i r Hr. exists (delete "NameFirst" (delete "NameLast" r)).
    simpl. rewrite list_lookup_fmap, Hr. split_and!; [done| | |].
    + apply lookup_delete_eq.
    + rewrite lookup_delete_ne by done. apply lookup_delete_eq.
    + intros c Hc1 Hc2. by rewrite !lookup_delete_ne.
Qed.

Lemma drop_names_total df :
  "NameFirst" ∈ columns df -> "NameLast" ∈ columns df ->
  exists df', drop df ["NameFirst"; "NameLast"] = Val df'.
Proof.
  intros Hf Hl. unfold drop.
  rewrite !filter_cons_False by (by intros ?). rewrite filter_nil. by eexists.
Qed.

End Pipeline.

(** ** When the per-identifier loops return *)

Section PerIdReturns.
Context `{Env}.

Lemma GameName_setitem_GameId df v :
  has_column (setitem_scalar df "GameId" v) "GameName" = has_column df "GameName".
Proof.
  unfold has_column, setitem_scalar, add_column. simpl.
  destruct (bool_decide ("GameId" ∈ columns df)); [done|].
  apply bool_decide_ext. rewrite elem_of_app, list_elem_of_singleton.
  split; [by intros [?|?]|by left].
Qed.

Lemma has_column_setitem_scalar df c v : has_column (setitem_scalar df c v) c = true.
Proof.
  apply has_column_true. unfold setitem_scalar, add_column. simpl.
  case_bool_decide; [done|]. apply elem_of_app. right. by apply list_elem_of_singleton.
Qed.

(** One iteration completes whenever its fetch does: the verbose print reads
    the column the iteration has just set. *)
Lemma tournament_earnings_body_fetch teamplay verbose tournament_id acc n df :
  let r := requests_get n (tournament_earnings_request teamplay tournament_id).1
                        (tournament_earnings_request teamplay tournament_id).2 in
  fetched r = Val df ->
  exists t,
    tournament_earnings_body (tournament_earnings_url teamplay) verbose
      tournament_id acc n
      = (Ok (append acc (setitem_scalar df "TournamentId" tournament_id)), t) /\
    gets t = [(tournament_earnings_request teamplay tournament_id, r)].
Proof.
  intros r Hf. unfold tournament_earnings_body. rewrite bind_run, get_data_run.
  unfold tournament_earnings_request in r. cbn [fst snd] in r. fold r.
  rewrite Hf. simpl. unfold_M. simpl.
  destruct verbose; simpl.
  - unfold getattr. rewrite has_column_setitem_scalar. simpl.
    eexists. split; [reflexivity|]. simpl. by rewrite gets_app, gets_fetch_prints.
  - eexists. split; [reflexivity|]. simpl. by rewrite gets_app, gets_fetch_prints.
Qed.

(** A lookup completes when its fetch does and, with [verbose] set, the
    page has a GameName column and a row. *)
Lemma games_body_fetch verbose game_id df_games n p :
  let r := requests_get n (games_request game_id).1 (games_request game_id).2 in
  fetched r = Val p ->
  (verbose = true -> "GameName" ∈ columns p /\ rows p <> []) ->
  exists t,
    games_body verbose game_id df_games n
      = (Ok (append df_games (setitem_scalar p "GameId" game_id)), t) /\
    gets t = [(games_request game_id, r)].
Proof.
  intros r Hf Hname. unfold games_body. rewrite bind_run, get_data_run.
  unfold games_request in r. cbn [fst snd] in r. fold r.
  rewrite Hf. simpl. unfold_M. simpl.
  destruct verbose; simpl.
  - destruct Hname as [Hcol Hrows]; [done|].
    unfold getattr. rewrite GameName_setitem_GameId, has_column_true by done. simpl.
    unfold column_values, setitem_scalar. cbn [rows].
    destruct (rows p) as [|r0 rs] eqn:Hp; [done|]. simpl.
    eexists. split; [reflexivity|]. simpl. by rewrite gets_app, gets_fetch_prints.
  - eexists. split; [reflexivity|]. simpl. by rewrite gets_app, gets_fetch_prints.
Qed.

(** The lists of requests the world answers in order, the first being
    request number [n] of the run. *)
Lemma answered_cons n (x : get_event) l :
  answered n (x :: l) <-> x.2 = requests_get n x.1.1 x.1.2 /\ answered (S n) l.
Proof.
  unfold answered. split.
  - intros Hall. split.
    + specialize (Hall 0%nat x eq_refl). by rewrite Nat.add_0_r in Hall.
    + intros i y Hy. specialize (Hall (S i) y Hy).
      by replace (S n + i)%nat with (n + S i)%nat by lia.
  - intros [Hx Hl] [|i] y Hy.
    + injection Hy as <-. by rewrite Nat.add_0_r.
    + specialize (Hl i y Hy). by replace (n + S i)%nat with (S n + i)%nat by lia.
Qed.

Lemma answered_app n (l1 l2 : list get_event) :
  answered n (l1 ++ l2) <-> answered n l1 /\ answered (n + length l1) l2.
Proof.
  revert n. induction l1 as [|x l1 IH]; intros n.
  - cbn [app length]. rewrite Nat.add_0_r. split; [|by intros [_ ?]].
    intros Hl. split; [|done]. by intros i y Hy.
  - cbn [app length]. rewrite !answered_cons, IH.
    replace (S n + length l1)%nat with (n + S (length l1))%nat by lia. tauto.
Qed.

Lemma single_fetch_loop_returns (request : value -> string * dict)
    (body : value -> DataFrame -> M DataFrame) (Q : get_event -> Prop) :
  (forall id acc n (x : get_event),
     x.1 = request id -> x.2 = requests_get n x.1.1 x.1.2 -> Q x ->
     exists acc' t, body id acc n = (Ok acc', t) /\ gets t = [x]) ->
  forall ids groups acc n,
    Forall2 (single_fetch request) ids groups ->
    answered n (concat groups) -> Forall Q (concat groups) ->
    exists df t, for_each ids body acc n = (Ok df, t) /\ gets t = concat groups.
Proof.
  intros Hbody ids groups acc n HF. revert acc n.
  induction HF as [|id g ids groups (x & -> & Hx) _ IH]; intros acc n Hans HQ.
  - by exists acc, [].
  - cbn [concat app] in Hans, HQ. apply answered_cons in Hans as [Hr Hans].
    apply Forall_cons in HQ as [Hq HQ].
    destruct (Hbody id acc n x Hx Hr Hq) as (acc1 & t1 & Hb & Hg1).
    destruct (IH acc1 (S n) Hans HQ) as (df & t2 & Hrest & Hg2).
    exists df, (t1 ++ t2). split.
    + cbn [for_each]. eapply bind_Ok; [exact Hb|].
      by rewrite requests_made_gets, Hg1, Nat.add_1_r.
    + by rewrite gets_app, Hg1, Hg2.
Qed.

(** The inner loop of [get_game_earnings] returns on a group of pages that
    are fetched, all full but the last. *)
Lemma earnings_loop_returns teamplay game_id limit verbose init :
  forall (lst : get_event) fuel s n,
    e_last_page s = false ->
    (length init + 1 < fuel)%nat ->
    fst <$> (init ++ [lst]) =
      (fun k => (earnings_url teamplay,
                 [("apikey", VStr API_TOKEN); ("gameid", game_id);
                  ("offset", VInt (e_offset s + Z.of_nat k * limit))]))
      <$> seq 0 (length (init ++ [lst])) ->
    answered n (init ++ [lst]) ->
    Forall (fun x : get_event => exists p, fetched x.2 = Val p) (init ++ [lst]) ->
    Forall (fun x => limit <= shape0 (page x)) init ->
    shape0 (page lst) < limit ->
    exists s' t,
      while fuel (fun s => mret (negb (e_last_page s)))
        (earnings_body (earnings_url teamplay) game_id limit verbose) s n = (Ok s', t) /\
      gets t = init ++ [lst].
Proof.
  induction init as [|x init IH]; intros lst fuel s n Hlast Hfuel Hreq Hans Hval Hfull Hshort.
  - destruct fuel as [|[|fuel]]; [simpl in Hfuel; lia..|].
    cbn [app length seq] in Hreq. rewrite !fmap_cons in Hreq.
    injection Hreq as Hreq. rewrite Z.add_0_r in Hreq.
    apply answered_cons in Hans as [Hr _]. apply Forall_cons in Hval as [[p Hp] _].
    rewrite Hr, Hreq in Hp. cbn [fst snd] in Hp.
    destruct (earnings_body_fetch (earnings_url teamplay) game_id limit verbose s n p Hp)
      as (t1 & Hb & Hg).
    assert (page lst = p) as Hpage.
    { unfold page. rewrite Hr, Hreq. cbn [fst snd]. by rewrite Hp. }
    eexists _, (t1 ++ []). split.
    + eapply while_iterate; [by unfold_M; rewrite Hlast|exact Hb|].
      apply while_exit. unfold_M. cbn [e_last_page].
      rewrite <-Hpage. by replace (shape0 (page lst) <? limit) with true
        by (symmetry; apply Z.ltb_lt; lia).
    + rewrite app_nil_r, Hg. clear Hb Hg Hpage Hp.
      destruct lst as [[url params] r]. cbn [fst snd] in *. by simplify_eq.
  - destruct fuel as [|fuel]; [simpl in Hfuel; lia|].
    cbn [app length seq] in Hreq. rewrite !fmap_cons in Hreq.
    injection Hreq as Hx Hreq. rewrite Z.add_0_r in Hx.
    cbn [app] in Hans, Hval. apply answered_cons in Hans as [Hr Hans].
    apply Forall_cons in Hval as [[p Hp] Hval].
    apply Forall_cons in Hfull as [Hfullx Hfull].
    rewrite Hr, Hx in Hp. cbn [fst snd] in Hp.
    destruct (earnings_body_fetch (earnings_url teamplay) game_id limit verbose s n p Hp)
      as (t1 & Hb & Hg).
    assert (page x = p) as Hpage.
    { unfold page. rewrite Hr, Hx. cbn [fst snd]. by rewrite Hp. }
    set (s1 := {| e_offset := e_offset s + limit;
                  e_last_page := shape0 p <? limit;
                  e_all := append (e_all s) (setitem_scalar p "GameId" game_id) |})
      in Hb.
    assert (e_last_page s1 = false) as Hlast1.
    { cbn [s1 e_last_page]. apply Z.ltb_ge. rewrite <-Hpage. lia. }
    assert (length init + 1 < fuel)%nat as Hfuel1 by (simpl in Hfuel; lia).
    assert (fst <$> (init ++ [lst]) =
      (fun k => (earnings_url teamplay,
                 [("apikey", VStr API_TOKEN); ("gameid", game_id);
                  ("offset", VInt (e_offset s1 + Z.of_nat k * limit))]))
      <$> seq 0 (length (init ++ [lst]))) as Hreq1.
    { rewrite Hreq, <-fmap_S_seq, <-list_fmap_compose. apply list_fmap_ext.
      intros _ k _. cbn [s1 e_offset compose].
      by replace (e_offset s + limit + Z.of_nat k * limit)
        with (e_offset s + Z.of_nat (S k) * limit) by lia. }
    destruct (IH lst fuel s1 (S n) Hlast1 Hfuel1 Hreq1 Hans Hval Hfull Hshort)
      as (s' & t2 & Hloop & Hg2).
    exists s', (t1 ++ t2). split.
    + eapply while_iterate; [by unfold_M; rewrite Hlast|exact Hb|].
      by rewrite requests_made_gets, Hg, Nat.add_1_r.
    + rewrite gets_app, Hg, Hg2. clear Hb Hg Hpage Hp Hloop.
      destruct x as [[url params] r]. cbn [fst snd] in *. by simplify_eq.
Qed.

(** The three extractors return on groups of requests that the world
    answers in order and that are fetched. *)
Lemma get_games_data_returns game_ids verbose n (groups : list (list get_event)) :
  Forall2 (single_fetch games_request) game_ids groups ->
  answered n (concat groups) ->
  Forall (fun x : get_event =>
            exists p, fetched x.2 = Val p /\
              (verbose = true -> "GameName" ∈ columns p /\ rows p <> []))
         (concat groups) ->
  exists df t, get_games_data game_ids verbose n = (Ok df, t) /\ gets t = concat groups.
Proof.
  intros HF Hans HQ.
  assert (exists df t, for_each game_ids (games_body verbose) pd_DataFrame n = (Ok df, t)
                       /\ gets t = concat groups) as (df & t & Hrun & Hg).
  { eapply (single_fetch_loop_returns games_request); [|exact HF|exact Hans|exact HQ].
    intros id acc n' x Hx Hr (p & Hp & Hname). rewrite Hr, Hx in Hp.
    destruct (games_body_fetch verbose id acc n' p Hp Hname) as (t & Hb & Hg).
    eexists _, t. split; [exact Hb|]. rewrite Hg.
    destruct x as [req r]. cbn [fst snd] in *. by simplify_eq. }
  eexists df, _. unfold get_games_data, print. rewrite bind_emit by done.
  rewrite Hrun. split; [reflexivity|done].
Qed.

Lemma get_tournament_earnings_returns tournament_ids teamplay verbose n
    (groups : list (list get_event)) :
  Forall2 (single_fetch (tournament_earnings_request teamplay)) tournament_ids groups ->
  answered n (concat groups) ->
  Forall (fun x : get_event => exists p, fetched x.2 = Val p) (concat groups) ->
  exists df t,
    get_tournament_earnings tournament_ids teamplay verbose n = (Ok df, t) /\
    gets t = concat groups.
Proof.
  intros HF Hans HQ. unfold get_tournament_earnings.
  eapply (single_fetch_loop_returns (tournament_earnings_request teamplay));
    [|exact HF|exact Hans|exact HQ].
  intros id acc n' x Hx Hr (p & Hp). rewrite Hr, Hx in Hp.
  destruct (tournament_earnings_body_fetch teamplay verbose id acc n' p Hp)
    as (t & Hb & Hg).
  eexists _, t. split; [exact Hb|]. rewrite Hg.
  destruct x as [req r]. cbn [fst snd] in *. by simplify_eq.
Qed.

Lemma get_game_earnings_returns fuel game_ids teamplay limit verbose n
    (groups : list (list get_event)) :
  Forall2 (paged_fetch (earnings_request teamplay limit) limit) game_ids groups ->
  answered n (concat groups) ->
  Forall (fun x : get_event => exists p, fetched x.2 = Val p) (concat groups) ->
  Forall (fun g => (length g < fuel)%nat) groups ->
  exists df t,
    get_game_earnings fuel game_ids teamplay limit verbose n = (Ok df, t) /\
    gets t = concat groups.
Proof.
  intros HF Hans HQ Hfuel.
  assert (forall acc, exists df t,
    for_each game_ids
      (fun game_id df_game_earnings_all =>
         s ← while fuel (fun s => mret (negb (e_last_page s)))
               (earnings_body (earnings_url teamplay) game_id limit verbose)
               {| e_offset := 0; e_last_page := false;
                  e_all := df_game_earnings_all |};
         mret (e_all s)) acc n = (Ok df, t) /\ gets t = concat groups) as Hloop.
  { revert n Hans HQ Hfuel.
    induction HF as [|id g ids groups (Hreq & init & lst & -> & Hfull & Hshort) _ IH];
      intros n Hans HQ Hfuel acc.
    - by exists acc, [].
    - cbn [concat] in Hans, HQ. apply answered_app in Hans as [Hans1 Hans2].
      apply Forall_app in HQ as [HQ1 HQ2]. apply Forall_cons in Hfuel as [Hf1 Hfuel].
      assert (length init + 1 < fuel)%nat as Hf1'.
      { rewrite length_app in Hf1. simpl in Hf1. lia. }
      set (s0 := {| e_offset := 0; e_last_page := false; e_all := acc |}).
      assert (fst <$> (init ++ [lst]) =
        (fun k => (earnings_url teamplay,
                   [("apikey", VStr API_TOKEN); ("gameid", id);
                    ("offset", VInt (e_offset s0 + Z.of_nat k * limit))]))
        <$> seq 0 (length (init ++ [lst]))) as Hreq'.
      { rewrite Hreq. apply list_fmap_ext. intros _ k _.
        unfold earnings_request. cbn [s0 e_offset]. by rewrite Z.add_0_l. }
      destruct (earnings_loop_returns teamplay id limit verbose init lst fuel s0 n
                  eq_refl Hf1' Hreq' Hans1 HQ1 Hfull Hshort)
        as (s' & t1 & Hw & Hg1).
      destruct (IH (n + length (init ++ [lst]))%nat Hans2 HQ2 Hfuel (e_all s'))
        as (df & t2 & Hrest & Hg2).
      exists df, ((t1 ++ []) ++ t2). split.
      + cbn [for_each]. eapply bind_Ok.
        * eapply bind_Ok; [exact Hw|reflexivity].
        * by rewrite app_nil_r, requests_made_gets, Hg1.
      + by rewrite app_nil_r, gets_app, Hg1, Hg2. }
  destruct (Hloop pd_DataFrame) as (df & t & Hrun & Hg).
  exists df,
    (EPrint [PStr (if teamplay then "Getting Games Earnings Team Data"
                   else "Getting Games Earnings Solo Data")] :: t).
  split; [|done].
  unfold get_game_earnings, print.
  destruct teamplay; rewrite bind_emit by done; by rewrite Hrun.
Qed.

End PerIdReturns.

(** * The properties of the specification *)

Section Specification.
Context `{Env}.

(** ** The tournament paginator *)

(** C1.  The loop of [get_tournament_data] leaves at a test exactly when
    [first_run] is no longer set (the test guards an iteration other than
    the first), the page just fetched has at least [limit] rows and the
    least StartDate of all the rows accumulated is at most the cutoff.
    Every run, whatever the pages are, starts with a request at offset 0:
    the first iteration is not guarded by the size and date test.
    A run that returns has made at least one request, returns the
    accumulated rows, passed the stopping test after its last request and
    the continuing test (a short page, or a least StartDate later than the
    cutoff) after each earlier one; and whenever the pages allow such a run
    of m requests, the loop returns after exactly these m requests. *)
Theorem offset_until_date_termination (query_until_date : date) (limit : Z)
    (verbose : bool) :
  (forall s,
     tournament_continue query_until_date limit s = Val false <->
     t_first_run s = false /\
     stop_test query_until_date limit (t_df_all s) (t_df s)) /\
  (forall fuel n, exists t',
     (get_tournament_data (S fuel) query_until_date limit verbose n).2 =
       EPrint [PStr "Getting tournament data"]
       :: EGet (tournaments_request 0).1 (tournaments_request 0).2
            (requests_get n (tournaments_request 0).1 (tournaments_request 0).2)
       :: t') /\
  (forall fuel n df t,
     get_tournament_data fuel query_until_date limit verbose n = (Ok df, t) ->
     (1 <= length (gets t))%nat /\
     gets t = planned limit (length (gets t)) n 0 /\
     df = accumulated (gets t) /\
     stops_after query_until_date limit (gets t) /\
     forall k, (0 < k < length (gets t))%nat ->
       continues_after query_until_date limit (take k (gets t))) /\
  (forall m fuel n, (0 < m < fuel)%nat ->
     let g := planned limit m n 0 in
     Forall (fun x => exists df, processed x = Val df) g ->
     stops_after query_until_date limit g ->
     (forall k, (0 < k < m)%nat ->
        continues_after query_until_date limit (take k g)) ->
     exists t,
       get_tournament_data fuel query_until_date limit verbose n
         = (Ok (accumulated g), t) /\
       gets t = g).
Proof.
  split_and!.
  - apply tournament_continue_false.
  - intros fuel n. rewrite get_tournament_data_run. cbn [while].
    rewrite (bind_lift_Val _ true) by done. rewrite bind_run.
    destruct (tournament_body_run limit verbose initial_vars n) as (t' & -> & _).
    destruct (processed _) as [df|e]; [|by eexists].
    destruct (while _ _ _ _ _) as [[s|e|] t2]; by eexists.
  - intros fuel n df t. rewrite get_tournament_data_run.
    destruct (while _ _ _ _ _) as [[s|e|] t1] eqn:Hloop; [|done..].
    intros [= <- <-]. cbn [gets].
    apply tournament_loop_Ok in Hloop as (-> & Hplan & _ & Hstop & Hcont).
    assert (gets t1 <> []) as Hne.
    { intros Hnil. by rewrite Hnil in Hstop. }
    split_and!.
    + destruct (gets t1); [done|simpl; lia].
    + exact Hplan.
    + by rewrite foldl_vars_after_df_all.
    + by apply loop_stops_after.
    + intros k Hk. apply loop_continues_after.
      * intros Hnil. apply (f_equal length) in Hnil.
        rewrite length_take in Hnil. simpl in Hnil. lia.
      * apply Hcont. lia.
  - intros m fuel n Hm g Hall Hstop Hcont.
    assert (length g = m) as Hlen by apply length_planned.
    assert (g <> []) as Hne by (intros Hnil; rewrite Hnil in Hlen; simpl in Hlen; lia).
    destruct (tournament_loop_returns query_until_date limit verbose m fuel
                initial_vars n) as (t & Hloop & Hg); [lia|exact Hall| | |].
    + intros [|k] Hk; [done|]. apply loop_continues_after.
      * intros Hnil. apply (f_equal length) in Hnil.
        rewrite length_take, length_planned in Hnil.
        change (length (@nil get_event)) with 0%nat in Hnil. lia.
      * apply Hcont. lia.
    + by apply loop_stops_after.
    + exists (EPrint [PStr "Getting tournament data"] :: t).
      rewrite get_tournament_data_run, Hloop. split; [|done].
      by rewrite foldl_vars_after_df_all.
Qed.

(** C3, as the program behaves.  When the first page comes back without
    the StartDate column (the empty frame [get_data] returns for a failed
    request or an empty body is such a page), [process_tournaments] raises a
    [KeyError] for that column and [get_tournament_data] ends with this
    fault after its single request: the loop test is not reached. *)
Theorem first_page_without_dates_faults (fuel : nat) (query_until_date : date)
    (limit : Z) (verbose : bool) (n : nat) (page1 : DataFrame) :
  let url := base_url +:+ recent_tournaments in
  let params := [("apikey", VStr API_TOKEN); ("offset", VInt 0)] in
  let r := requests_get n url params in
  fetched r = Val page1 ->
  "StartDate" ∉ columns page1 ->
  get_tournament_data (S fuel) query_until_date limit verbose n =
    (Raise (KeyError ["StartDate"]),
     EPrint [PStr "Getting tournament data"] :: EGet url params r :: fetch_prints r).
Proof.
  intros url params r Hf Hc.
  apply (get_tournament_data_first_page_fault _ _ _ _ _ page1); [done|].
  by apply process_tournaments_no_StartDate.
Qed.

(** C8.  On a page that has the three columns and whose date cells
    convert, [process_tournaments] returns a frame with the same number of
    rows in which the TotalUSDPrize cell of every row is the floating-point
    number that [astype(float)] gives for the cell it held; in particular a
    cell holding a numeric string becomes the float the string denotes. *)
Theorem prize_column_becomes_float (df : DataFrame) :
  "StartDate" ∈ columns df ->
  "EndDate" ∈ columns df ->
  "TotalUSDPrize" ∈ columns df ->
  Forall (fun r => date_cell (cell "StartDate" r) /\
                   date_cell (cell "EndDate" r) /\
                   exists f, astype_float (cell "TotalUSDPrize" r) = Val f) (rows df) ->
  exists df',
    process_tournaments df = Val df' /\
    length (rows df') = length (rows df) /\
    forall i (r : row) s f,
      rows df !! i = Some r ->
      r !! "TotalUSDPrize" = Some (VStr s) ->
      astype_float (VStr s) = Val f ->
      exists r' : row,
        rows df' !! i = Some r' /\ r' !! "TotalUSDPrize" = Some (VFloat f).
Proof.
  intros Hs He Hp Hall.
  apply Forall_and in Hall as [Hsd Hall]. apply Forall_and in Hall as [Hed Hfl].
  destruct (convert_date_column_Val df "StartDate" Hs Hsd) as (df1 & Hc1 & Hx1).
  destruct (convert_date_column_Val df1 "EndDate") as (df2 & Hc2 & Hx2).
  { destruct Hx1 as (-> & _). done. }
  { by apply (same_except_cell date_cell "StartDate" "EndDate" df df1). }
  assert (Forall (fun r => exists f, astype_float (cell "TotalUSDPrize" r) = Val f)
            (rows df2)) as Hfl2.
  { set (P := fun v => exists f, astype_float v = Val f).
    apply (same_except_cell P "EndDate" "TotalUSDPrize" df1 df2); [done..|].
    by apply (same_except_cell P "StartDate" "TotalUSDPrize" df df1). }
  apply Forall_exists_Forall2 in Hfl2 as [fs Hfs].
  pose proof (Forall2_length _ _ _ Hfs) as Hlen.
  destruct Hx1 as (Hcol1 & Hl1 & Hr1). destruct Hx2 as (Hcol2 & Hl2 & Hr2).
  exists (setitem_series df2 "TotalUSDPrize" (VFloat <$> fs)). split_and!.
  - unfold process_tournaments. simpl. rewrite Hc1. simpl. rewrite Hc2. simpl.
    rewrite getitem_Val by congruence. simpl.
    by rewrite (res_mapM_Forall2 _ _ fs) by (by apply Forall2_fmap_l).
  - simpl. rewrite length_zip_with_l_eq by (by rewrite length_fmap). congruence.
  - intros i r s f Hr Hcell Hf.
    destruct (Hr1 i r Hr) as (r1 & Hr1' & Heq1).
    destruct (Hr2 i r1 Hr1') as (r2 & Hr2' & Heq2).
    destruct (Forall2_lookup_l _ _ _ i r2 Hfs Hr2') as (f' & Hf' & Hconv).
    assert (cell "TotalUSDPrize" r2 = VStr s) as Hc.
    { unfold cell. by rewrite Heq2, Heq1, Hcell. }
    rewrite Hc, Hf in Hconv. injection Hconv as <-.
    exists (<["TotalUSDPrize" := VFloat f]> r2). split; [|apply lookup_insert_eq].
    simpl. apply lookup_zip_with_Some. exists r2, (VFloat f).
    split_and!; [done..|]. by rewrite list_lookup_fmap, Hf'.
Qed.

(** ** Per-identifier strategies *)


(** C5.  In [get_game_earnings] with page limit [limit], when the first
    page of an identifier has exactly [limit] rows and the second has fewer,
    the run for that identifier makes exactly the two requests at the offsets
    0 and [limit] and returns the concatenation of the two pages, each with
    the identifier written under GameId: its rows are, one for one, the rows
    of page 1 followed by the rows of page 2 as the concatenation leaves
    them (a cell as it was, or the float of the integer it was), so there
    are exactly |page 1| + |page 2| of them.  In general, in a complete run
    every page of a group but the last has at least [limit] rows and the
    last has fewer: the inner loop stops exactly at the first short page. *)
Theorem short_page_ends_pagination (fuel : nat) (game_id : value)
    (teamplay verbose : bool) (limit : Z) (n : nat) (page1 page2 : DataFrame) :
  let url := earnings_url teamplay in
  let params1 := [("apikey", VStr API_TOKEN); ("gameid", game_id); ("offset", VInt 0)] in
  let params2 := [("apikey", VStr API_TOKEN); ("gameid", game_id);
                  ("offset", VInt limit)] in
  let r1 := requests_get n url params1 in
  let r2 := requests_get (S n) url params2 in
  fetched r1 = Val page1 ->
  fetched r2 = Val page2 ->
  shape0 page1 = limit ->
  shape0 page2 < limit ->
  (3 <= fuel)%nat ->
  (exists df t,
     get_game_earnings fuel [game_id] teamplay limit verbose n = (Ok df, t) /\
     gets t = [(url, params1, r1); (url, params2, r2)] /\
     df = append (append pd_DataFrame (setitem_scalar page1 "GameId" game_id))
                 (setitem_scalar page2 "GameId" game_id) /\
     Forall2 upcasts
       ((fun r : row => <["GameId" := game_id]> r) <$> (rows page1 ++ rows page2))
       (rows df) /\
     length (rows df) = (length (rows page1) + length (rows page2))%nat) /\
  (forall ids df t,
     get_game_earnings fuel ids teamplay limit verbose n = (Ok df, t) ->
     fetch_groups "GameId"
       (paged_fetch (earnings_request teamplay limit) limit) ids t (rows df)).
Proof.
  intros url params1 params2 r1 r2 Hf1 Hf2 Hfull Hshort Hfuel.
  split; [|intros ids df t; apply get_game_earnings_groups].
  destruct fuel as [|[|[|fuel]]]; [lia..|].
  set (s0 := {| e_offset := 0; e_last_page := false; e_all := pd_DataFrame |}).
  destruct (earnings_body_fetch url game_id limit verbose s0 n page1 Hf1)
    as (t1 & Hb1 & Hg1).
  set (s1 := {| e_offset := e_offset s0 + limit;
                e_last_page := shape0 page1 <? limit;
                e_all := append (e_all s0) (setitem_scalar page1 "GameId" game_id) |})
    in Hb1.
  assert (requests_made t1 = 1%nat) as Hn1 by (by rewrite requests_made_gets, Hg1).
  assert (e_last_page s1 = false) as Hl1 by (simpl; lia).
  destruct (earnings_body_fetch url game_id limit verbose s1 (S n) page2 Hf2)
    as (t2 & Hb2 & Hg2).
  set (s2 := {| e_offset := e_offset s1 + limit;
                e_last_page := shape0 page2 <? limit;
                e_all := append (e_all s1) (setitem_scalar page2 "GameId" game_id) |})
    in Hb2.
  assert (e_last_page s2 = true) as Hl2 by (simpl; lia).
  assert (while (S (S (S fuel))) (fun s => mret (negb (e_last_page s)))
            (earnings_body url game_id limit verbose) s0 n = (Ok s2, t1 ++ t2 ++ []))
    as Hloop.
  { eapply while_iterate; [done|exact Hb1|].
    rewrite Hn1, Nat.add_1_r.
    eapply while_iterate; [by unfold_M; rewrite Hl1|exact Hb2|].
    apply while_exit. unfold_M. by rewrite Hl2. }
  assert (Forall2 upcasts
            ((fun r : row => <["GameId" := game_id]> r) <$> (rows page1 ++ rows page2))
            (rows (e_all s2))) as Hrows.
  { rewrite fmap_app.
    apply (upcasts_step [] _ _ _ _
             (rows_append pd_DataFrame (setitem_scalar page1 "GameId" game_id))
             (rows_append (e_all s1) (setitem_scalar page2 "GameId" game_id))). }
  exists (e_all s2).
  exists (EPrint [PStr (if teamplay then "Getting Games Earnings Team Data"
                        else "Getting Games Earnings Solo Data")]
            :: ((t1 ++ t2 ++ []) ++ []) ++ []).
  split_and!.
  - unfold get_game_earnings, print.
    assert (forall line, (emit (EPrint line);;
        for_each [game_id]
          (fun game_id df_game_earnings_all =>
             s ← while (S (S (S fuel))) (fun s => mret (negb (e_last_page s)))
                   (earnings_body url game_id limit verbose)
                   {| e_offset := 0; e_last_page := false;
                      e_all := df_game_earnings_all |};
             mret (e_all s)) pd_DataFrame) n
        = (Ok (e_all s2), EPrint line :: ((t1 ++ t2 ++ []) ++ []) ++ [])) as Hrun.
    { intros line. rewrite bind_emit by done. cbn [for_each].
      erewrite bind_Ok; [reflexivity| |reflexivity].
      eapply bind_Ok; [exact Hloop|reflexivity]. }
    destruct teamplay; apply Hrun.
  - simpl. rewrite !app_nil_r, gets_app, Hg1, Hg2. done.
  - done.
  - apply Hrows.
  - rewrite <-(Forall2_length _ _ _ Hrows). by rewrite length_fmap, length_app.
Qed.


(** ** The fetcher *)

(** C6.  On a response whose status is not 200, [get_data] prints the
    status code and returns the empty frame; on a response with status 200
    and an empty body it returns the empty frame; neither raises.  The two
    return values are the same frame, [pd.DataFrame()], which is also what a
    successful request with no rows gives: the return value does not tell a
    failed request from an empty result. *)
Theorem get_data_degrades_silently (url : string) (params : dict) (n : nat)
    (response : response) :
  requests_get n url params = Val response ->
  (status_code response <> 200 ->
     get_data url params n =
       (Ok pd_DataFrame,
        [EGet url params (Val response);
         EPrint [PStr "Error: "; PVal (VInt (status_code response))]])) /\
  (status_code response = 200 -> text response = "" ->
     get_data url params n = (Ok pd_DataFrame, [EGet url params (Val response)])).
Proof.
  intros Hr. rewrite get_data_run, Hr. unfold fetched, fetch_prints. simpl. split.
  - intros Hne. apply Z.eqb_neq in Hne. by rewrite Hne.
  - intros -> ->. done.
Qed.

(** ** The pipeline *)

(** C7.  No fault is caught: when [main] faults before its save section,
    it ends with that fault and has written no file; a file is written only
    when everything before the save section has completed.  A fault of
    [process_tournaments] on the first page is such a fault, and a page
    without the StartDate column, or without the TotalUSDPrize column,
    makes [process_tournaments] raise a [KeyError] for it. *)
Theorem faults_abort_without_output (fuel : nat) (n : nat) :
  (forall e tr, before_save fuel n = (Raise e, tr) ->
     main fuel n = (Raise e, tr) /\ writes tr = []) /\
  (writes (main fuel n).2 <> [] -> exists t tr, before_save fuel n = (Ok t, tr)) /\
  (forall page1 e,
     fetched (requests_get n (tournaments_request 0).1 (tournaments_request 0).2)
       = Val page1 ->
     process_tournaments page1 = Exc e ->
     exists tr, main (S fuel) n = (Raise e, tr) /\ writes tr = []) /\
  (forall df, "StartDate" ∉ columns df ->
     process_tournaments df = Exc (KeyError ["StartDate"])) /\
  (forall df,
     "StartDate" ∈ columns df -> "EndDate" ∈ columns df ->
     Forall (fun r => date_cell (cell "StartDate" r) /\ date_cell (cell "EndDate" r))
            (rows df) ->
     "TotalUSDPrize" ∉ columns df ->
     process_tournaments df = Exc (KeyError ["TotalUSDPrize"])).
Proof.
  assert (forall fuel e tr, before_save fuel n = (Raise e, tr) ->
            main fuel n = (Raise e, tr) /\ writes tr = []) as Habort.
  { intros fuel' e tr Hb. split.
    - rewrite main_run. by apply bind_Raise.
    - pose proof (writes_nothing_before_save fuel' n) as Hq. by rewrite Hb in Hq. }
  split_and!.
  - apply Habort.
  - intros Hw. rewrite main_run, bind_run in Hw.
    pose proof (writes_nothing_before_save fuel n) as Hq.
    destruct (before_save fuel n) as [[t|e|] tr]; [by exists t, tr|done..].
  - intros page1 e Hf He. eexists. apply Habort.
    unfold before_save, extraction. do 2 apply bind_Raise.
    by apply (get_tournament_data_first_page_fault _ _ _ _ _ page1).
  - apply process_tournaments_no_StartDate.
  - apply process_tournaments_no_TotalUSDPrize.
Qed.

(** C9.  The final post-processing of [main], when it completes, has
    removed exactly the columns NameFirst and NameLast from the solo
    earnings and the solo tournament results, every other label and cell of
    those tables being as before, and has left the team tables (and the
    tournaments and games) as they were; it completes when the two solo
    tables have both columns; and a complete run of [main] writes the tables
    it yields. *)
Theorem final_postprocessing_drops_names (t : tables) (n : nat) :
  (forall t' tr, final_postprocessing t n = (Ok t', tr) ->
     tr = [] /\
     names_dropped (df_solo_earnings t) (df_solo_earnings t') /\
     names_dropped (df_solo_tournament_earnings t) (df_solo_tournament_earnings t') /\
     df_team_earnings t' = df_team_earnings t /\
     df_team_tournament_earnings t' = df_team_tournament_earnings t /\
     df_tournaments t' = df_tournaments t /\
     df_games t' = df_games t) /\
  ("NameFirst" ∈ columns (df_solo_earnings t) ->
   "NameLast" ∈ columns (df_solo_earnings t) ->
   "NameFirst" ∈ columns (df_solo_tournament_earnings t) ->
   "NameLast" ∈ columns (df_solo_tournament_earnings t) ->
   exists t', final_postprocessing t n = (Ok t', [])) /\
  (forall fuel tr, main fuel n = (Ok tt, tr) ->
     exists t0 tr0 t',
       extraction fuel n = (Ok t0, tr0) /\
       final_postprocessing t0 (n + requests_made tr0)%nat = (Ok t', []) /\
       writes tr = saved t').
Proof.
  assert (forall t n t' tr, final_postprocessing t n = (Ok t', tr) ->
     tr = [] /\
     names_dropped (df_solo_earnings t) (df_solo_earnings t') /\
     names_dropped (df_solo_tournament_earnings t) (df_solo_tournament_earnings t') /\
     df_team_earnings t' = df_team_earnings t /\
     df_team_tournament_earnings t' = df_team_tournament_earnings t /\
     df_tournaments t' = df_tournaments t /\
     df_games t' = df_games t) as Hpost.
  { clear. intros t n t' tr. unfold final_postprocessing. unfold_M.
    destruct (drop (df_solo_earnings t) _) as [se|e] eqn:Hse; simpl; [|done].
    destruct (drop (df_solo_tournament_earnings t) _) as [ste|e] eqn:Hste;
      simpl; [|done].
    intros [= <- <-]. simpl. split_and!; try done; by apply drop_names_Val. }
  split_and!.
  - apply Hpost.
  - intros Hf Hl Hf' Hl'. unfold final_postprocessing. unfold_M.
    destruct (drop_names_total _ Hf Hl) as [se ->].
    destruct (drop_names_total _ Hf' Hl') as [ste ->]. simpl. by eexists.
  - intros fuel tr Hmain. unfold main in Hmain.
    apply bind_Ok_inv in Hmain as (t0 & tr0 & tr1 & Hex & Hrest & ->).
    apply bind_Ok_inv in Hrest as (t' & tr2 & tr3 & Hpp & Hsave & ->).
    destruct (Hpost _ _ _ _ Hpp) as (-> & _).
    exists t0, tr0, t'. split_and!; [done..|].
    pose proof (writes_nothing_extraction fuel n) as Hq. rewrite Hex in Hq.
    simpl in Hq. rewrite writes_app, Hq. simpl. by apply save_data_Ok in Hsave.
Qed.

End Specification.

(** * The properties on the canned worlds *)

(** C1 on two pages of two tournaments with page limit 2 and cutoff
    2023-01-01: the first page is full but too recent, the second is full
    and old enough, and the loop returns after these two requests. *)
Lemma offset_until_date_termination_witness :
  exists t,
    @get_tournament_data two_pages_world 3 (Date 2023 1 1) 2 false 0%nat
      = (Ok (@accumulated two_pages_world (@planned two_pages_world 2 2 0 0)), t) /\
    gets t = @planned two_pages_world 2 2 0 0.
Proof.
  destruct (@offset_until_date_termination two_pages_world (Date 2023 1 1) 2 false)
    as (_ & _ & _ & Hreturns).
  apply (Hreturns 2%nat 3%nat 0%nat).
  - lia.
  - repeat constructor; eexists; vm_compute; reflexivity.
  - eexists. split; [vm_compute; reflexivity|]. split; [by vm_compute|].
    eexists. split; vm_compute; reflexivity.
  - intros k Hk. assert (k = 1%nat) as -> by lia.
    eexists. split; [vm_compute; reflexivity|]. right.
    eexists. split; vm_compute; reflexivity.
Defined.

(** C2 on the scenario of the specification (cutoff 2023-01-01, limit
    100).  Page 1 has 100 rows, the earliest of 2023-06-01; page 2 has 40
    rows and the 140 rows accumulated have their earliest date on
    2022-11-01, at most the cutoff.  The loop test still continues after
    page 2, because the page is short: a third request is made at offset
    200, and the empty page it brings makes the run end with a fault, not
    with the 140 rows. *)
Lemma scenario_short_second_page_continues :
  let g := @planned scenario_world 100 2 0 0 in
  let s2 := foldl (@vars_after scenario_world 100) initial_vars g in
  (shape0 <$> (@tournament_page scenario_world <$> g) = [100; 40]) /\
  @min_start_date (@accumulated scenario_world (take 1 g)) = Some (Date 2023 6 1) /\
  @min_start_date (@accumulated scenario_world g) = Some (Date 2022 11 1) /\
  length (rows (@accumulated scenario_world g)) = 140%nat /\
  tournament_continue (Date 2023 1 1) 100 s2 = Val true /\
  let '(o, t) := @get_tournament_data scenario_world 10 (Date 2023 1 1) 100 false 0%nat in
  o = Raise (KeyError ["StartDate"]) /\
  fst <$> gets t = @tournaments_request scenario_world <$> [0; 100; 200].
Proof. vm_compute. by repeat split. Qed.

(** C3, as stated, fails on a server that answers the first request with
    status 500: the first page is empty, and the run does not return, it
    ends with the [KeyError] for StartDate. *)
Lemma empty_first_page_does_not_return :
  let run := @get_tournament_data failing_world 10 query_min_date 100 false 0%nat in
  shape0 (@page failing_world
            (@tournaments_request failing_world 0,
             @requests_get failing_world 0%nat
               (@tournaments_request failing_world 0).1
               (@tournaments_request failing_world 0).2)) = 0 /\
  run.1 = Raise (KeyError ["StartDate"]) /\
  ~ exists df t, run = (Ok df, t).
Proof.
  split_and!; [by vm_compute..|].
  intros (df & t & Hrun). vm_compute in Hrun. discriminate Hrun.
Qed.

(** The amended C3 on a server that answers with an empty body. *)
Lemma first_page_without_dates_faults_witness :
  @get_tournament_data silent_world 5 query_min_date 100 false 0%nat =
    (Raise (KeyError ["StartDate"]),
     [EPrint [PStr "Getting tournament data"];
      EGet "http://api.esportsearnings.com/v0/LookupRecentTournaments"
        [("apikey", VStr "token"); ("offset", VInt 0)]
        (Val {| status_code := 200; text := "" |})]).
Proof.
  apply (@first_page_without_dates_faults silent_world 4 query_min_date 100 false
           0%nat pd_DataFrame).
  - vm_compute. reflexivity.
  - apply not_elem_of_nil.
Defined.



(** C5 on the leaderboard of three players, read with page limit 2; and on
    the leaderboard whose second page is answered with status 500, where
    the concatenation with the empty page leaves the PlayerIds 1 and 2 of
    the first as floats. *)
Lemma short_page_ends_pagination_witness :
  let page1 := frame_of_objects [player_object 1 "Ada" "Lovelace" "300.00";
                                 player_object 2 "Alan" "Turing" "200.00"] in
  let page2 := frame_of_objects [player_object 3 "Grace" "Hopper" "100.00"] in
  (exists df t,
     @get_game_earnings leaderboard_world 3 [VInt 7] false 2 false 0%nat = (Ok df, t) /\
     fst <$> gets t = @earnings_request leaderboard_world false 2 (VInt 7) <$> [0; 1]%nat /\
     rows df = (fun r : row => <["GameId" := VInt 7]> r) <$> (rows page1 ++ rows page2) /\
     length (rows df) = 3%nat) /\
  (exists df t,
     @get_game_earnings broken_leaderboard_world 3 [VInt 7] false 2 false 0%nat
       = (Ok df, t) /\
     length (rows df) = 2%nat /\
     (fun r : row => r !! "PlayerId") <$> rows df
       = [Some (VFloat (float_of_Z 1)); Some (VFloat (float_of_Z 2))] /\
     (fun r : row => r !! "GameId") <$> rows df = [Some (VInt 7); Some (VInt 7)]).
Proof.
  intros page1 page2. split.
  - destruct (@short_page_ends_pagination leaderboard_world 3 (VInt 7) false false 2
                0%nat page1 page2)
      as [(df & t & Hrun & Hgets & Hdf & Hrows & Hlen) _].
    + vm_compute. reflexivity.
    + vm_compute. reflexivity.
    + vm_compute. reflexivity.
    + vm_compute. reflexivity.
    + lia.
    + exists df, t. split; [exact Hrun|]. split; [|split; [|exact Hlen]].
      * rewrite Hgets. vm_compute. reflexivity.
      * rewrite Hdf. vm_compute. reflexivity.
  - destruct (@short_page_ends_pagination broken_leaderboard_world 3 (VInt 7) false
                false 2 0%nat page1 pd_DataFrame)
      as [(df & t & Hrun & Hgets & Hdf & Hrows & Hlen) _].
    + vm_compute. reflexivity.
    + vm_compute. reflexivity.
    + vm_compute. reflexivity.
    + vm_compute. reflexivity.
    + lia.
    + exists df, t. split; [exact Hrun|]. split; [exact Hlen|].
      rewrite Hdf. split; vm_compute; reflexivity.
Defined.

(** C6 on a server answering with status 500 and on one answering with an
    empty body: the same empty frame comes back. *)
Lemma get_data_degrades_silently_witness :
  @get_data failing_world "http://api.esportsearnings.com/v0/LookupGameById"
    [("apikey", VStr "token"); ("gameid", VInt 7)] 0%nat =
    (Ok pd_DataFrame,
     [EGet "http://api.esportsearnings.com/v0/LookupGameById"
        [("apikey", VStr "token"); ("gameid", VInt 7)]
        (Val {| status_code := 500; text := "Internal Server Error" |});
      EPrint [PStr "Error: "; PVal (VInt 500)]]) /\
  @get_data silent_world "http://api.esportsearnings.com/v0/LookupGameById"
    [("apikey", VStr "token"); ("gameid", VInt 7)] 0%nat =
    (Ok pd_DataFrame,
     [EGet "http://api.esportsearnings.com/v0/LookupGameById"
        [("apikey", VStr "token"); ("gameid", VInt 7)]
        (Val {| status_code := 200; text := "" |})]).
Proof.
  split.
  - apply (@get_data_degrades_silently failing_world _ _ 0%nat
             {| status_code := 500; text := "Internal Server Error" |});
      [reflexivity|]. simpl. lia.
  - apply (@get_data_degrades_silently silent_world _ _ 0%nat
             {| status_code := 200; text := "" |}); reflexivity.
Defined.

(** C7 on a server that fails at once (the run faults and writes nothing)
    and on a whole run of the pipeline (files are written, so everything
    before the save section completed). *)
Lemma faults_abort_without_output_witness :
  (exists tr, @main failing_world 5 0%nat = (Raise (KeyError ["StartDate"]), tr) /\
              writes tr = []) /\
  (exists t tr, @before_save pipeline_world 5 0%nat = (Ok t, tr)) /\
  (exists tr, @main silent_world 1 0%nat = (Raise (KeyError ["StartDate"]), tr) /\
              writes tr = []) /\
  @process_tournaments failing_world pd_DataFrame = Exc (KeyError ["StartDate"]) /\
  @process_tournaments failing_world
    (frame_of_objects [[("StartDate", VStr "2023-06-01");
                        ("EndDate", VStr "2023-06-02")]])
    = Exc (KeyError ["TotalUSDPrize"]).
Proof.
  split_and!.
  - eexists.
    apply (@faults_abort_without_output failing_world 5 0%nat).
    vm_compute. reflexivity.
  - apply (@faults_abort_without_output pipeline_world 5 0%nat).
    vm_compute. discriminate.
  - destruct (@faults_abort_without_output silent_world 0 0%nat)
      as (_ & _ & Hfirst & _).
    apply (Hfirst pd_DataFrame); vm_compute; reflexivity.
  - apply (@faults_abort_without_output failing_world 5 0%nat).
    apply not_elem_of_nil.
  - destruct (@faults_abort_without_output failing_world 5 0%nat)
      as (_ & _ & _ & _ & Hprize).
    apply Hprize; [compute_done..| |compute_done].
    repeat constructor; eexists _, _; split; vm_compute; reflexivity.
Defined.

(** C8 on a page whose first prize is the string 1234.50: the cell becomes
    the binary64 number 1234.5, that is 5429388417957888 * 2^-42. *)
Lemma prize_column_becomes_float_witness :
  exists df' (r' : row),
    @process_tournaments scenario_world prize_page = Val df' /\
    length (rows df') = 2%nat /\
    rows df' !! 0%nat = Some r' /\
    r' !! "TotalUSDPrize" = Some (VFloat (S754_finite false 5429388417957888 (-42))).
Proof.
  destruct (@prize_column_becomes_float scenario_world prize_page)
    as (df' & Hrun & Hlen & Hrows).
  - compute_done.
  - compute_done.
  - compute_done.
  - repeat constructor; eexists; try eexists; try split; vm_compute; reflexivity.
  - destruct (Hrows 0%nat
                (list_to_map (tournament_object 1 151 "2023-06-01" "2023-06-03"
                                "1234.50" 0))
                "1234.50" (S754_finite false 5429388417957888 (-42)))
      as (r' & Hr' & Hcell); [vm_compute; reflexivity..|].
    exists df', r'. by split_and!.
Defined.

(** C9 on two solo tables holding the two name columns, and on a whole run
    of the pipeline. *)
Lemma final_postprocessing_drops_names_witness :
  (exists t', final_postprocessing some_tables 0%nat = (Ok t', []) /\
     columns (df_solo_earnings t') = ["PlayerId"; "TotalUSDPrize"] /\
     names_dropped (df_solo_earnings some_tables) (df_solo_earnings t') /\
     df_team_earnings t' = df_team_earnings some_tables) /\
  (exists t0 tr0 t' tr,
     @main pipeline_world 5 0%nat = (Ok tt, tr) /\
     @extraction pipeline_world 5 0%nat = (Ok t0, tr0) /\
     final_postprocessing t0 (0 + requests_made tr0)%nat = (Ok t', []) /\
     writes tr = saved t').
Proof.
  split.
  - destruct (@final_postprocessing_drops_names scenario_world some_tables 0%nat)
      as (Hpost & Htotal & _).
    destruct Htotal as [t' Hrun]; [compute_done..|].
    destruct (Hpost t' [] Hrun) as (_ & Hsolo & _ & Hteam & _).
    exists t'. split_and!; [done| |done..].
    destruct Hsolo as (_ & _ & -> & _). reflexivity.
  - destruct (@final_postprocessing_drops_names pipeline_world some_tables 0%nat)
      as (_ & _ & Hmain).
    destruct (Hmain 5%nat (@main pipeline_world 5 0%nat).2)
      as (t0 & tr0 & t' & Hex & Hpp & Hw); [vm_compute; reflexivity|].
    exists t0, tr0, t', (@main pipeline_world 5 0%nat).2.
    split_and!; [vm_compute; reflexivity|done..].
Defined.


(** * Lemmas for the further properties *)

(** ** Pacing *)

Lemma pace_app b t1 t2 : pace b (t1 ++ t2) = b' ← pace b t1; pace b' t2.
Proof.
  revert b. induction t1 as [|e t1 IH]; intros b; [done|].
  destruct e; simpl; try apply IH. by destruct b.
Qed.

Lemma pace_pending_sleep t2 e2 t3 :
  pace true (t2 ++ e2 :: t3) <> None -> is_get e2 = true ->
  ESleep wait_time_in_seconds ∈ t2.
Proof.
  induction t2 as [|e t2 IH]; intros Hp He2.
  - destruct e2; done.
  - destruct e as [| |seconds|]; simpl in Hp; try done;
      try (apply list_elem_of_further; by apply IH).
    destruct (Z.eqb_spec seconds wait_time_in_seconds) as [->|Hne].
    + apply list_elem_of_here.
    + apply list_elem_of_further. by apply IH.
Qed.

Lemma pace_sleeps_between b t :
  pace b t <> None -> sleeps_between_requests t.
Proof.
  revert b. induction t as [|e t IH]; intros b Hp t1 e1 t2 e2 t3 Heq He1 He2.
  - by destruct t1.
  - destruct t1 as [|e' t1]; simplify_eq/=.
    + destruct e1; try done. simpl in Hp. destruct b; [done|].
      by eapply pace_pending_sleep.
    + destruct e'; simpl in Hp; try (by eapply IH);
        destruct b; try done; by eapply IH.
Qed.

Lemma pace_sleeps_after b t :
  pace b t = Some false -> sleeps_after_requests t.
Proof.
  revert b. induction t as [|e t IH]; intros b Hp t1 e1 t2 Heq He1.
  - by destruct t1.
  - destruct t1 as [|e' t1]; simplify_eq/=.
    + destruct e1; try done. simpl in Hp. destruct b; [done|].
      clear IH. induction t2 as [|e t2 IH]; [done|].
      destruct e as [| |seconds|]; simpl in Hp; try done;
        try (apply list_elem_of_further; by apply IH).
      destruct (Z.eqb_spec seconds wait_time_in_seconds) as [->|Hne].
      * apply list_elem_of_here.
      * apply list_elem_of_further. by apply IH.
    + destruct e'; simpl in Hp; try (by eapply IH);
        destruct b; try done; by eapply IH.
Qed.

Lemma paces_ret {A : Type} b (a : A) : paces b (mret a) b.
Proof. by intros n. Qed.

Lemma paces_lift {A : Type} b (r : res A) : paces b (lift r) b.
Proof. intros n. by destruct r. Qed.

Lemma paces_print b line : paces b (print line) b.
Proof. by intros n. Qed.

Lemma paces_sleep b : paces b (time_sleep wait_time_in_seconds) false.
Proof. by intros n. Qed.

Lemma paces_bind {A B : Type} b b1 b2 (m : M A) (f : A -> M B) :
  paces b m b1 -> (forall a, paces b1 (f a) b2) -> paces b (m ≫= f) b2.
Proof.
  intros Hm Hf n. rewrite bind_run. specialize (Hm n).
  destruct (m n) as [[a|e|] t1]; [|done..].
  specialize (Hf a (n + requests_made t1)%nat).
  destruct (f a _) as [[c|e|] t2]; rewrite pace_app, Hm; done.
Qed.

Lemma paces_if {A : Type} b b' (c : bool) (m1 m2 : M A) :
  paces b m1 b' -> paces b m2 b' -> paces b (if c then m1 else m2) b'.
Proof. by destruct c. Qed.

Lemma paces_while {St : Type} b (cond : St -> M bool) (body : St -> M St) :
  (forall s, paces b (cond s) b) -> (forall s, paces b (body s) b) ->
  forall fuel s, paces b (while fuel cond body s) b.
Proof.
  intros Hc Hb fuel. induction fuel as [|fuel IH]; intros s.
  - intros n. by destruct b.
  - cbn [while]. eapply paces_bind; [done|]. intros [].
    + by eapply paces_bind.
    + apply paces_ret.
Qed.

Lemma paces_for_each {A St : Type} b (body : A -> St -> M St) :
  (forall x s, paces b (body x s) b) ->
  forall xs s, paces b (for_each xs body s) b.
Proof.
  intros Hb xs. induction xs as [|x xs IH]; intros s.
  - apply paces_ret.
  - cbn [for_each]. by eapply paces_bind.
Qed.

Section Pacing.
Context `{Env}.

Lemma pace_fetch_prints b r : pace b (fetch_prints r) = Some b.
Proof. destruct r as [resp|e]; simpl; [|done]. by destruct (_ =? _). Qed.

Lemma paces_get_data url params : paces false (get_data url params) true.
Proof.
  intros n. rewrite get_data_run. simpl.
  rewrite pace_fetch_prints. by destruct (fetched _).
Qed.

Lemma paces_to_csv b df path : paces b (to_csv df path) b.
Proof. intros n. unfold to_csv. by destruct (to_csv_allowed path). Qed.

Ltac paces :=
  repeat first
    [ apply paces_ret | apply paces_lift | apply paces_print | apply paces_sleep
    | apply paces_get_data | apply paces_to_csv
    | apply paces_if
    | apply paces_while; intros ?
    | apply paces_for_each; intros ? ?
    | eapply paces_bind; [|intros ?] ].

Lemma paces_get_tournament_data fuel query_until_date limit verbose :
  paces false (get_tournament_data fuel query_until_date limit verbose) false.
Proof. unfold get_tournament_data, tournament_body. paces. Qed.

Lemma paces_get_games_data game_ids verbose :
  paces false (get_games_data game_ids verbose) false.
Proof. unfold get_games_data, games_body. paces. Qed.

Lemma paces_get_game_earnings fuel game_ids teamplay limit verbose :
  paces false (get_game_earnings fuel game_ids teamplay limit verbose) false.
Proof. unfold get_game_earnings, earnings_body. paces. Qed.

Lemma paces_get_tournament_earnings tournament_ids teamplay verbose :
  paces false (get_tournament_earnings tournament_ids teamplay verbose) false.
Proof. unfold get_tournament_earnings, tournament_earnings_body. paces. Qed.

Lemma paces_main fuel : paces false (main fuel) false.
Proof.
  unfold main, extraction, final_postprocessing, save_data.
  repeat first
    [ apply paces_get_tournament_data | apply paces_get_games_data
    | apply paces_get_game_earnings | apply paces_get_tournament_earnings
    | apply paces_ret | apply paces_lift | apply paces_print | apply paces_to_csv
    | eapply paces_bind; [|intros ?] ].
Qed.

Lemma paces_sleeps {A : Type} (m : M A) n :
  paces false m false ->
  sleeps_between_requests (m n).2 /\
  (forall a, (m n).1 = Ok a -> sleeps_after_requests (m n).2).
Proof.
  intros Hm. specialize (Hm n). destruct (m n) as [[a|e|] t]; simpl; split;
    try (intros ? [=]); try (by eapply pace_sleeps_between).
  - eapply pace_sleeps_between. by rewrite Hm.
  - by eapply pace_sleeps_after.
Qed.

End Pacing.

(** ** Where the requests go *)

Lemma requests_all_ret {A : Type} P (a : A) : requests_all P (mret a).
Proof. intros n. constructor. Qed.

Lemma requests_all_lift {A : Type} P (r : res A) : requests_all P (lift r).
Proof. intros n. destruct r; constructor. Qed.

Lemma requests_all_print P line : requests_all P (print line).
Proof. intros n. constructor. Qed.

Lemma requests_all_sleep P seconds : requests_all P (time_sleep seconds).
Proof. intros n. constructor. Qed.

Lemma requests_all_bind {A B : Type} P (m : M A) (f : A -> M B) :
  requests_all P m -> (forall a, requests_all P (f a)) -> requests_all P (m ≫= f).
Proof.
  intros Hm Hf n. rewrite bind_run. specialize (Hm n).
  destruct (m n) as [[a|e|] t1]; [|done..].
  specialize (Hf a (n + requests_made t1)%nat).
  destruct (f a _) as [o t2]. simpl in *. rewrite gets_app. by apply Forall_app.
Qed.

Lemma requests_all_if {A : Type} P (c : bool) (m1 m2 : M A) :
  requests_all P m1 -> requests_all P m2 -> requests_all P (if c then m1 else m2).
Proof. by destruct c. Qed.

Lemma requests_all_while {St : Type} P (cond : St -> M bool) (body : St -> M St) :
  (forall s, requests_all P (cond s)) -> (forall s, requests_all P (body s)) ->
  forall fuel s, requests_all P (while fuel cond body s).
Proof.
  intros Hc Hb fuel. induction fuel as [|fuel IH]; intros s.
  - intros n. constructor.
  - cbn [while]. apply requests_all_bind; [done|]. intros [].
    + by apply requests_all_bind.
    + apply requests_all_ret.
Qed.

Lemma requests_all_for_each {A St : Type} P (body : A -> St -> M St) :
  (forall x s, requests_all P (body x s)) ->
  forall xs s, requests_all P (for_each xs body s).
Proof.
  intros Hb xs. induction xs as [|x xs IH]; intros s.
  - apply requests_all_ret.
  - cbn [for_each]. by apply requests_all_bind.
Qed.

Section Endpoints.
Context `{Env}.

Lemma requests_all_get_data (P : get_event -> Prop) url params :
  (forall r, P (url, params, r)) -> requests_all P (get_data url params).
Proof.
  intros HP n. rewrite get_data_run. simpl. rewrite gets_fetch_prints.
  by repeat constructor.
Qed.

Lemma requests_all_to_csv P df path : requests_all P (to_csv df path).
Proof. intros n. unfold to_csv. destruct (to_csv_allowed path); constructor. Qed.

Ltac keyed :=
  repeat first
    [ apply requests_all_ret | apply requests_all_lift | apply requests_all_print
    | apply requests_all_sleep | apply requests_all_to_csv
    | apply requests_all_get_data;
        intros ?; split; [unfold endpoints; set_solver|reflexivity]
    | apply requests_all_if
    | apply requests_all_while; intros ?
    | apply requests_all_for_each; intros ? ?
    | apply requests_all_bind; [|intros ?] ].

Lemma keyed_get_tournament_data fuel query_until_date limit verbose :
  requests_all keyed_request (get_tournament_data fuel query_until_date limit verbose).
Proof. unfold get_tournament_data, tournament_body. keyed. Qed.

Lemma keyed_get_games_data game_ids verbose :
  requests_all keyed_request (get_games_data game_ids verbose).
Proof. unfold get_games_data, games_body. keyed. Qed.

Lemma keyed_get_game_earnings fuel game_ids teamplay limit verbose :
  requests_all keyed_request (get_game_earnings fuel game_ids teamplay limit verbose).
Proof.
  unfold get_game_earnings, earnings_body, earnings_url. destruct teamplay; keyed.
Qed.

Lemma keyed_get_tournament_earnings tournament_ids teamplay verbose :
  requests_all keyed_request (get_tournament_earnings tournament_ids teamplay verbose).
Proof.
  unfold get_tournament_earnings, tournament_earnings_body, tournament_earnings_url.
  destruct teamplay; keyed.
Qed.

Lemma keyed_main fuel : requests_all keyed_request (main fuel).
Proof.
  unfold main, extraction, final_postprocessing, save_data.
  repeat first
    [ apply keyed_get_tournament_data | apply keyed_get_games_data
    | apply keyed_get_game_earnings | apply keyed_get_tournament_earnings
    | apply requests_all_ret | apply requests_all_lift | apply requests_all_print
    | apply requests_all_to_csv
    | apply requests_all_bind; [|intros ?] ].
Qed.

End Endpoints.

(** ** Post-processing, read backwards *)

Section ProcessingInversion.
Context `{Env}.

Lemma res_mapM_inv {A B : Type} (f : A -> res B) l l' :
  res_mapM f l = Val l' -> Forall2 (fun a b => f a = Val b) l l'.
Proof.
  revert l'. induction l as [|a l IH]; intros l' Hm; simpl in Hm.
  - injection Hm as <-. constructor.
  - destruct (f a) as [b|e] eqn:Hb; [|done]. simpl in Hm.
    destruct (res_mapM f l) as [bs|e]; [|done]. injection Hm as <-.
    constructor; [done|]. by apply IH.
Qed.

Lemma getitem_inv df c col :
  getitem df c = Val col -> c ∈ columns df /\ col = column_values df c.
Proof.
  unfold getitem, has_column. case_bool_decide; [|done]. by intros [= <-].
Qed.

Lemma dt_date_Val ts d :
  dt_date ts = Val d -> (exists day, d = VDate day) \/ d = VNaT.
Proof. destruct ts; intros [= <-]; eauto. Qed.

(** What a converted date column tells of the frame it came from. *)
Lemma convert_date_column_inv df c df' :
  convert_date_column df c = Val df' ->
  c ∈ columns df /\ same_except c df df' /\
  forall i (r : row), rows df !! i = Some r ->
    exists (r' : row) ts d,
      rows df' !! i = Some r' /\
      to_datetime (cell c r) = Val ts /\ dt_date ts = Val d /\ r' !! c = Some d.
Proof.
  unfold convert_date_column. intros Hc.
  destruct (getitem df c) as [col|] eqn:Hcol; [|done].
  apply getitem_inv in Hcol as [Hin ->]. simpl in Hc.
  destruct (res_mapM to_datetime _) as [tss|] eqn:Hts; [|done]. simpl in Hc.
  apply res_mapM_inv, Forall2_fmap_l in Hts.
  pose proof (Forall2_length _ _ _ Hts) as Hlts.
  rewrite getitem_Val in Hc by (simpl; by rewrite add_column_elem). simpl in Hc.
  rewrite column_values_setitem_series in Hc by done.
  destruct (res_mapM dt_date tss) as [dss|] eqn:Hds; [|done]. simpl in Hc.
  apply res_mapM_inv in Hds. injection Hc as <-.
  pose proof (Forall2_length _ _ _ Hds) as Hlds.
  split_and!; [done| |].
  - eapply same_except_trans; apply setitem_series_same_except; try done.
    + simpl. by rewrite add_column_elem.
    + simpl. rewrite length_zip_with_l_eq by done. congruence.
  - intros i r Hr.
    destruct (Forall2_lookup_l _ _ _ i r Hts Hr) as (ts & Hts' & Hconv).
    destruct (Forall2_lookup_l _ _ _ i ts Hds Hts') as (d & Hd' & Hdate).
    exists (<[c := d]> (<[c := ts]> r)), ts, d.
    split_and!; [|done..|apply lookup_insert_eq].
    simpl. apply lookup_zip_with_Some. eexists _, d. split_and!; [done| |done].
    apply lookup_zip_with_Some. by exists r, ts.
Qed.

(** [process_tournaments] returns on a frame that has the three columns and
    whose cells all convert. *)
Lemma process_tournaments_returns df :
  "StartDate" ∈ columns df -> "EndDate" ∈ columns df ->
  "TotalUSDPrize" ∈ columns df ->
  Forall (fun r => date_cell (cell "StartDate" r) /\
                   date_cell (cell "EndDate" r) /\
                   exists f, astype_float (cell "TotalUSDPrize" r) = Val f) (rows df) ->
  exists df', process_tournaments df = Val df'.
Proof.
  intros Hs He Hp Hall.
  apply Forall_and in Hall as [Hsd Hall]. apply Forall_and in Hall as [Hed Hfl].
  destruct (convert_date_column_Val df "StartDate" Hs Hsd) as (df1 & Hc1 & Hx1).
  destruct (convert_date_column_Val df1 "EndDate") as (df2 & Hc2 & Hx2).
  { destruct Hx1 as (-> & _). done. }
  { by apply (same_except_cell date_cell "StartDate" "EndDate" df df1). }
  assert (Forall (fun r => exists f, astype_float (cell "TotalUSDPrize" r) = Val f)
            (rows df2)) as Hfl2.
  { set (P := fun v => exists f, astype_float v = Val f).
    apply (same_except_cell P "EndDate" "TotalUSDPrize" df1 df2); [done..|].
    by apply (same_except_cell P "StartDate" "TotalUSDPrize" df df1). }
  apply Forall_exists_Forall2 in Hfl2 as [fs Hfs].
  destruct Hx1 as (Hcol1 & _). destruct Hx2 as (Hcol2 & _).
  eexists. unfold process_tournaments. simpl. rewrite Hc1. simpl. rewrite Hc2. simpl.
  rewrite getitem_Val by congruence. simpl.
  by rewrite (res_mapM_Forall2 _ _ fs) by (by apply Forall2_fmap_l).
Qed.

(** What a processed page tells of the page it came from. *)
Lemma process_tournaments_inv df df' :
  process_tournaments df = Val df' ->
  ("StartDate" ∈ columns df /\ "EndDate" ∈ columns df /\
   "TotalUSDPrize" ∈ columns df) /\
  columns df' = columns df /\
  length (rows df') = length (rows df) /\
  forall i (r : row), rows df !! i = Some r ->
    exists (r' : row) ts1 d1 ts2 d2 f,
      rows df' !! i = Some r' /\
      to_datetime (cell "StartDate" r) = Val ts1 /\ dt_date ts1 = Val d1 /\
      to_datetime (cell "EndDate" r) = Val ts2 /\ dt_date ts2 = Val d2 /\
      astype_float (cell "TotalUSDPrize" r) = Val f /\
      r' !! "StartDate" = Some d1 /\ r' !! "EndDate" = Some d2 /\
      r' !! "TotalUSDPrize" = Some (VFloat f) /\
      forall c, c <> "StartDate" -> c <> "EndDate" -> c <> "TotalUSDPrize" ->
        r' !! c = r !! c.
Proof.
  unfold process_tournaments. simpl. intros Hp.
  destruct (convert_date_column df "StartDate") as [df1|] eqn:Hc1; [|done].
  simpl in Hp.
  destruct (convert_date_column df1 "EndDate") as [df2|] eqn:Hc2; [|done].
  simpl in Hp.
  apply convert_date_column_inv in Hc1 as (Hs & (Hcol1 & Hl1 & Hr1) & Hd1).
  apply convert_date_column_inv in Hc2 as (He & (Hcol2 & Hl2 & Hr2) & Hd2).
  destruct (getitem df2 "TotalUSDPrize") as [col|] eqn:Hcol; [|done].
  apply getitem_inv in Hcol as [Hpz ->]. simpl in Hp.
  destruct (res_mapM astype_float _) as [fs|] eqn:Hfs; [|done]. simpl in Hp.
  apply res_mapM_inv, Forall2_fmap_l in Hfs. injection Hp as <-.
  pose proof (Forall2_length _ _ _ Hfs) as Hlfs.
  split_and!; [done|congruence|congruence| | |].
  - simpl. rewrite add_column_elem by done. congruence.
  - simpl. rewrite length_zip_with_l_eq by (by rewrite length_fmap). congruence.
  - intros i r Hr.
    destruct (Hd1 i r Hr) as (r1 & ts1 & d1 & Hr1' & Hts1 & Hdt1 & Hcell1).
    destruct (Hr1 i r Hr) as (r1' & Hr1'' & Heq1).
    rewrite Hr1' in Hr1''. injection Hr1'' as <-.
    destruct (Hd2 i r1 Hr1') as (r2 & ts2 & d2 & Hr2' & Hts2 & Hdt2 & Hcell2).
    destruct (Hr2 i r1 Hr1') as (r2' & Hr2'' & Heq2).
    rewrite Hr2' in Hr2''. injection Hr2'' as <-.
    destruct (Forall2_lookup_l _ _ _ i r2 Hfs Hr2') as (f & Hf & Hconv).
    assert (cell "EndDate" r1 = cell "EndDate" r) as HcE
      by (unfold cell; by rewrite Heq1).
    assert (cell "TotalUSDPrize" r2 = cell "TotalUSDPrize" r) as HcP
      by (unfold cell; by rewrite Heq2, Heq1).
    simpl in Hconv. rewrite HcE in Hts2. rewrite HcP in Hconv.
    exists (<["TotalUSDPrize" := VFloat f]> r2), ts1, d1, ts2, d2, f.
    split_and!; try done.
    + simpl. apply lookup_zip_with_Some. exists r2, (VFloat f).
      split_and!; [done..|]. by rewrite list_lookup_fmap, Hf.
    + rewrite lookup_insert_ne by done. by rewrite Heq2, Hcell1.
    + by rewrite lookup_insert_ne.
    + apply lookup_insert_eq.
    + intros c Hc1 Hc2 Hc3. rewrite lookup_insert_ne by done.
      by rewrite Heq2, Heq1.
Qed.

End ProcessingInversion.

(** ** Faults of the tournament paginator *)

Lemma while_body_raise {St : Type} fuel (c : St -> res bool) (body : St -> M St)
    (s : St) n e t :
  c s = Val true -> body s n = (Raise e, t) ->
  while (S fuel) (fun s => lift (c s)) body s n = (Raise e, t).
Proof.
  intros Hc Hb. cbn [while]. rewrite (bind_lift_Val _ true) by done.
  by apply bind_Raise.
Qed.

Section TournamentFaults.
Context `{Env}.

(** A request that failed, or came back with an empty body, gives a page
    that [process_tournaments] rejects. *)
Lemma processed_failed (x : get_event) response :
  x.2 = Val response ->
  status_code response <> 200 \/ text response = "" ->
  processed x = Exc (KeyError ["StartDate"]).
Proof.
  intros Hx Hfail. unfold processed, fetched. rewrite Hx. simpl.
  assert (forall df, df = pd_DataFrame ->
            (Val df ≫= process_tournaments) = Exc (KeyError ["StartDate"])) as Hpd.
  { intros df ->. simpl. apply process_tournaments_no_StartDate, not_elem_of_nil. }
  destruct (Z.eqb_spec (status_code response) 200) as [Hs|Hs]; [|by apply Hpd].
  destruct Hfail as [|Ht]; [done|].
  rewrite bool_decide_eq_true_2 by done. by apply Hpd.
Qed.

Lemma processed_Val_answered (x : get_event) df :
  processed x = Val df ->
  exists response,
    x.2 = Val response /\ status_code response = 200 /\ text response <> "".
Proof.
  intros Hp. destruct (x.2) as [response|e] eqn:Hx.
  - exists response. split; [done|].
    destruct (Z.eq_dec (status_code response) 200) as [Hs|Hs].
    + split; [done|]. intros Ht.
      rewrite (processed_failed x response) in Hp; [done..|by right].
    + rewrite (processed_failed x response) in Hp; [done..|by left].
  - unfold processed, fetched in Hp. by rewrite Hx in Hp.
Qed.

(** The loop ends with the fault of the first page that does not process,
    after the requests made so far. *)
Lemma tournament_loop_faults query_until_date limit verbose m :
  forall fuel s n e, (m < fuel)%nat ->
  let g := planned limit (S m) n (t_offset s) in
  Forall (fun x => exists df, processed x = Val df) (take m g) ->
  (forall k, (k <= m)%nat ->
     tournament_continue query_until_date limit
       (foldl (vars_after limit) s (take k g)) = Val true) ->
  (exists x, g !! m = Some x /\ processed x = Exc e) ->
  exists t,
    while fuel (fun s => lift (tournament_continue query_until_date limit s))
      (tournament_body limit verbose) s n = (Raise e, t) /\
    gets t = g.
Proof.
  induction m as [|m IH]; intros fuel s n e Hfuel g Hall Hcont (x & Hx & He);
    (destruct fuel as [|fuel]; [lia|]);
    subst g; cbn [planned] in *; unfold tournaments_request in *;
    destruct (tournament_body_run limit verbose s n) as (t' & Hb & Hg & _).
  - simpl in Hx. injection Hx as <-. rewrite He in Hb.
    eexists. split.
    + apply while_body_raise; [apply (Hcont 0%nat); lia|exact Hb].
    + simpl. by rewrite Hg.
  - cbn [take] in Hall. apply Forall_cons in Hall as [[df Hp] Hall].
    rewrite Hp in Hb.
    match type of Hp with processed ?x0 = _ =>
      destruct (IH fuel (vars_after limit s x0) (S n) e) as (t2 & Hloop & Hg2)
    end; [lia|exact Hall| |by exists x|].
    { intros k Hk. apply (Hcont (S k)). lia. }
    eexists. split.
    + eapply while_lift_iterate; [apply (Hcont 0%nat); lia|exact Hb|].
      rewrite requests_made_gets. simpl. rewrite Hg. simpl.
      rewrite Nat.add_1_r. exact Hloop.
    + simpl. by rewrite gets_app, Hg, Hg2.
Qed.

End TournamentFaults.

(** ** The order of dates and the minimum of a column *)

Lemma date_ltb_spec a b :
  date_ltb a b = true <->
  year a < year b \/
  (year a = year b /\
   (month a < month b \/ (month a = month b /\ day a < day b))).
Proof.
  unfold date_ltb, date_compare.
  destruct (Z.compare_spec (year a) (year b));
    destruct (Z.compare_spec (month a) (month b));
    destruct (Z.compare_spec (day a) (day b)); split; (done || lia).
Qed.

Lemma date_leb_spec a b :
  date_leb a b = true <-> ~ (date_ltb b a = true).
Proof. unfold date_leb. destruct (date_ltb b a); naive_solver. Qed.

Lemma date_leb_refl a : date_leb a a = true.
Proof. apply date_leb_spec. rewrite date_ltb_spec. lia. Qed.

Lemma date_leb_trans a b c :
  date_leb a b = true -> date_leb b c = true -> date_leb a c = true.
Proof. rewrite !date_leb_spec, !date_ltb_spec. lia. Qed.

Lemma date_min_le_l a b : date_leb (date_min a b) a = true.
Proof.
  unfold date_min. destruct (date_ltb b a) eqn:Hlt.
  - apply date_leb_spec. apply date_ltb_spec in Hlt. rewrite date_ltb_spec. lia.
  - apply date_leb_refl.
Qed.

Lemma date_min_le_r a b : date_leb (date_min a b) b = true.
Proof.
  unfold date_min. destruct (date_ltb b a) eqn:Hlt.
  - apply date_leb_refl.
  - apply date_leb_spec. by rewrite Hlt.
Qed.

Lemma foldl_date_min d ds :
  foldl date_min d ds ∈ d :: ds /\
  Forall (fun d' => date_leb (foldl date_min d ds) d' = true) (d :: ds).
Proof.
  revert d. induction ds as [|d1 ds IH]; intros d; simpl.
  - split; [apply list_elem_of_here|]. repeat constructor. apply date_leb_refl.
  - destruct (IH (date_min d d1)) as [Hin Hall].
    apply Forall_cons in Hall as [Hm Hall]. split.
    + apply elem_of_cons in Hin as [->|Hin].
      * unfold date_min.
        destruct (date_ltb d1 d); [apply list_elem_of_further|]; apply list_elem_of_here.
      * by do 2 apply list_elem_of_further.
    + repeat constructor; [| |done].
      * eapply date_leb_trans; [exact Hm|apply date_min_le_l].
      * eapply date_leb_trans; [exact Hm|apply date_min_le_r].
Qed.

Lemma dates_of_Some l ds : dates_of l = Some ds -> l = VDate <$> ds.
Proof.
  revert ds. induction l as [|v l IH]; intros ds Hd; simpl in Hd.
  - by injection Hd as <-.
  - destruct v; try done. destruct (dates_of l) as [ds'|]; [|done].
    injection Hd as <-. simpl. f_equal. by apply IH.
Qed.

(** The minimum of a column of dates is one of its dates and is at most
    each of them; the column holds nothing but dates. *)
Lemma Series_min_date l d :
  Series_min l = Val (VDate d) ->
  VDate d ∈ l /\
  Forall (fun v => exists d', v = VDate d' /\ date_leb d d' = true) l.
Proof.
  unfold Series_min. destruct (dates_of l) as [[|d0 ds]|] eqn:Hd; try done.
  intros [= <-]. apply dates_of_Some in Hd as ->.
  destruct (foldl_date_min d0 ds) as [Hin Hall]. split.
  - by apply list_elem_of_fmap_2.
  - apply Forall_fmap. eapply Forall_impl; [exact Hall|]. intros d' Hle. by exists d'.
Qed.

Section Accumulator.
Context `{Env}.

Lemma foldl_vars_after_shape limit g s :
  g <> [] ->
  shape0 (t_df (foldl (vars_after limit) s g))
  <= shape0 (t_df_all (foldl (vars_after limit) s g)).
Proof.
  intros Hg. destruct (last g) as [x|] eqn:Hlast; [|by apply last_None in Hlast].
  apply last_Some in Hlast as [g' ->]. rewrite foldl_app. simpl.
  rewrite shape0_append. unfold shape0. lia.
Qed.

End Accumulator.

(** ** Failed requests in the leaderboards *)

Section EarningsFaults.
Context `{Env}.

Lemma fetched_failed response :
  status_code response <> 200 \/ text response = "" ->
  fetched (Val response) = Val pd_DataFrame.
Proof.
  intros Hfail. unfold fetched. simpl.
  destruct (Z.eqb_spec (status_code response) 200) as [Hs|Hs]; [|done].
  destruct Hfail as [|Ht]; [done|]. by rewrite bool_decide_eq_true_2.
Qed.

Lemma page_failed (x : get_event) response :
  x.2 = Val response ->
  status_code response <> 200 \/ text response = "" ->
  page x = pd_DataFrame.
Proof. intros Hx Hfail. unfold page. by rewrite Hx, fetched_failed. Qed.

(** On a server whose every answer is a failure, one identifier costs one
    request and adds no row. *)
Lemma earnings_group_on_outage fuel teamplay game_id limit verbose acc n :
  (forall n' url params, exists response,
     requests_get n' url params = Val response /\
     (status_code response <> 200 \/ text response = "")) ->
  0 < limit -> (2 <= fuel)%nat ->
  exists s t,
    while fuel (fun s => mret (negb (e_last_page s)))
      (earnings_body (earnings_url teamplay) game_id limit verbose)
      {| e_offset := 0; e_last_page := false; e_all := acc |} n = (Ok s, t) /\
    (rows acc = [] -> rows (e_all s) = []) /\
    fst <$> gets t = [earnings_request teamplay limit game_id 0].
Proof.
  intros Hdown Hlimit Hfuel. destruct fuel as [|[|fuel]]; [lia..|].
  set (s0 := {| e_offset := 0; e_last_page := false; e_all := acc |}).
  destruct (Hdown n (earnings_url teamplay)
              [("apikey", VStr API_TOKEN); ("gameid", game_id);
               ("offset", VInt (e_offset s0))]) as (response & Hr & Hfail).
  destruct (earnings_body_fetch (earnings_url teamplay) game_id limit verbose s0 n
              pd_DataFrame) as (t1 & Hb & Hg).
  { rewrite Hr. by apply fetched_failed. }
  eexists _, (t1 ++ []). split_and!.
  - eapply while_iterate; [done|exact Hb|].
    apply while_exit. unfold_M. simpl.
    by replace (shape0 pd_DataFrame <? limit) with true
      by (symmetry; apply Z.ltb_lt; unfold shape0; simpl; lia).
  - simpl. by intros ->.
  - by rewrite app_nil_r, Hg.
Qed.

End EarningsFaults.

(** ** Loops over a list, piecewise *)

Lemma for_each_app {A St : Type} (l1 l2 : list A) (body : A -> St -> M St) s n :
  for_each (l1 ++ l2) body s n = (for_each l1 body s ≫= for_each l2 body) n.
Proof.
  revert s n. induction l1 as [|x l1 IH]; intros s n.
  - cbn [app for_each]. by rewrite bind_ret.
  - cbn [app for_each]. rewrite bind_assoc, !bind_run.
    destruct (body x s n) as [[s'|e|] t1]; [|done..]. by rewrite IH.
Qed.

Lemma for_each_gets {A St : Type} (P : get_event -> Prop) (body : A -> St -> M St) :
  (forall x s n s' t, body x s n = (Ok s', t) -> Forall P (gets t)) ->
  forall xs s n s' t, for_each xs body s n = (Ok s', t) -> Forall P (gets t).
Proof.
  intros Hbody xs. induction xs as [|x xs IH]; intros s n s' t Hrun.
  - injection Hrun as <- <-. constructor.
  - cbn [for_each] in Hrun.
    apply bind_Ok_inv in Hrun as (s1 & t1 & t2 & Hb & Hrest & ->).
    rewrite gets_app. apply Forall_app. split; [by eapply Hbody|by eapply IH].
Qed.

(** ** The game lookups *)

Section GameLookups.
Context `{Env}.

(** A verbose lookup that completes brought a page with a GameName column
    and a row. *)
Lemma games_body_named game_id df_games n df_games' t :
  games_body true game_id df_games n = (Ok df_games', t) ->
  Forall (fun x => "GameName" ∈ columns (page x) /\ rows (page x) <> []) (gets t).
Proof.
  unfold games_body. rewrite bind_run, get_data_run.
  set (r := requests_get n _ _).
  destruct (fetched r) as [df|e] eqn:Hf; simpl; [|done].
  unfold_M. simpl. unfold getattr. rewrite GameName_setitem_GameId.
  unfold has_column. case_bool_decide as Hname; simpl; [|done].
  unfold column_values, setitem_scalar. cbn [rows].
  destruct (rows df) as [|r0 rs] eqn:Hrows; simpl; [done|].
  intros [= <- <-]. simpl. rewrite gets_app, gets_fetch_prints. simpl.
  repeat constructor; unfold page; simpl; fold r; rewrite Hf; [done|by rewrite Hrows].
Qed.

(** A verbose lookup whose page has no GameName column raises. *)
Lemma games_body_unnamed game_id df_games n df :
  let url := base_url +:+ game_by_id in
  let params := [("apikey", VStr API_TOKEN); ("gameid", game_id)] in
  let r := requests_get n url params in
  fetched r = Val df -> "GameName" ∉ columns df ->
  exists t,
    games_body true game_id df_games n = (Raise (AttributeError "GameName"), t) /\
    gets t = [(url, params, r)].
Proof.
  intros url params r Hf Hname.
  unfold games_body. rewrite bind_run, get_data_run. fold url params r.
  rewrite Hf. simpl. unfold_M. simpl. unfold getattr.
  rewrite GameName_setitem_GameId, has_column_false by done. simpl.
  eexists. split; [reflexivity|].
  simpl. by rewrite gets_app, gets_fetch_prints.
Qed.

End GameLookups.

(** ** The tournament results *)

Section TournamentResults.
Context `{Env}.

(** A fetch that raises ends the iteration with its exception. *)
Lemma tournament_earnings_body_raise teamplay verbose tournament_id acc n e :
  let r := requests_get n (tournament_earnings_request teamplay tournament_id).1
                        (tournament_earnings_request teamplay tournament_id).2 in
  fetched r = Exc e ->
  exists t,
    tournament_earnings_body (tournament_earnings_url teamplay) verbose
      tournament_id acc n = (Raise e, t) /\
    gets t = [(tournament_earnings_request teamplay tournament_id, r)].
Proof.
  intros r Hf. unfold tournament_earnings_body. rewrite bind_run, get_data_run.
  unfold tournament_earnings_request in r. cbn [fst snd] in r. fold r.
  rewrite Hf. simpl. eexists. split; [reflexivity|].
  simpl. by rewrite gets_fetch_prints.
Qed.

Lemma tournament_results_loop teamplay verbose ids :
  forall acc n,
  (forall k id, ids !! k = Some id ->
     exists df, fetched (requests_get (n + k)%nat
                           (tournament_earnings_request teamplay id).1
                           (tournament_earnings_request teamplay id).2) = Val df) ->
  exists df t,
    for_each ids (tournament_earnings_body (tournament_earnings_url teamplay) verbose)
      acc n = (Ok df, t) /\
    fst <$> gets t = tournament_earnings_request teamplay <$> ids.
Proof.
  induction ids as [|id ids IH]; intros acc n Hall.
  - by exists acc, [].
  - destruct (Hall 0%nat id eq_refl) as [df0 Hf]. rewrite Nat.add_0_r in Hf.
    destruct (tournament_earnings_body_fetch teamplay verbose id acc n df0 Hf)
      as (t1 & Hb & Hg1).
    assert (requests_made t1 = 1%nat) as Hmade by (by rewrite requests_made_gets, Hg1).
    destruct (IH (append acc (setitem_scalar df0 "TournamentId" id)) (n + 1)%nat)
      as (df & t2 & Hrest & Hg2).
    { intros k id' Hk. specialize (Hall (S k) id' Hk).
      by replace (n + 1 + k)%nat with (n + S k)%nat by lia. }
    exists df, (t1 ++ t2). split.
    + cbn [for_each]. eapply bind_Ok; [exact Hb|]. by rewrite Hmade.
    + by rewrite gets_app, fmap_app, Hg1, Hg2.
Qed.

End TournamentResults.

(** ** The extraction, step by step *)

Section Extraction.
Context `{Env}.

Lemma bind_lift_Ok_inv {A B : Type} (r : res A) (f : A -> M B) n b t :
  (lift r ≫= f) n = (Ok b, t) -> exists a, r = Val a /\ f a n = (Ok b, t).
Proof.
  destruct r as [a|e]; [|done].
  rewrite (bind_lift_Val (Val a) a f n eq_refl). by exists a.
Qed.

Lemma unique_column_inv df c ids :
  (col ← getattr df c; Val (unique col)) = Val ids ->
  c ∈ columns df /\ ids = unique (column_values df c).
Proof.
  unfold getattr, has_column. case_bool_decide; simpl; [|done].
  by intros [= <-].
Qed.

Lemma columns_tournaments_with z df : columns (tournaments_with z df) = columns df.
Proof. done. Qed.

(** What a complete extraction is made of. *)
Lemma extraction_Ok_inv fuel n tb t :
  extraction fuel n = (Ok tb, t) ->
  let df := df_tournaments tb in
  let solo := tournaments_with 0 df in
  let team := tournaments_with 1 df in
  exists t1 t2 t3 t4 t5 t6 n2 n3 n4 n5 n6,
    t = t1 ++ EPrint [PStr "Getting Games Data"] :: t2 ++ t3 ++ t4 ++ t5 ++ t6 /\
    get_tournament_data fuel query_min_date 100 verbose n = (Ok df, t1) /\
    get_games_data (unique (column_values df "GameId")) verbose n2
      = (Ok (df_games tb), t2) /\
    get_game_earnings fuel (unique (column_values solo "GameId")) false 100 true n3
      = (Ok (df_solo_earnings tb), t3) /\
    get_game_earnings fuel (unique (column_values team "GameId")) true 100 true n4
      = (Ok (df_team_earnings tb), t4) /\
    get_tournament_earnings (unique (column_values solo "TournamentId")) false false n5
      = (Ok (df_solo_tournament_earnings tb), t5) /\
    get_tournament_earnings (unique (column_values team "TournamentId")) true false n6
      = (Ok (df_team_tournament_earnings tb), t6).
Proof.
  unfold extraction. intros Hrun.
  apply bind_Ok_inv in Hrun as (df & t1 & r1 & Ht & Hrun & ->).
  unfold print in Hrun. rewrite bind_emit in Hrun by done.
  destruct (_ ≫= _) as [o r2] eqn:Hrest in Hrun. injection Hrun as -> <-.
  apply bind_lift_Ok_inv in Hrest as (game_ids & Hids & Hrest).
  apply unique_column_inv in Hids as [_ ->].
  apply bind_Ok_inv in Hrest as (dfg & t2 & r3 & Hg & Hrest & ->).
  apply bind_lift_Ok_inv in Hrest as (teamplay & Htp & Hrest).
  apply getitem_inv in Htp as [_ ->].
  apply bind_lift_Ok_inv in Hrest as (solo_ids & Hids & Hrest).
  apply unique_column_inv in Hids as [_ ->].
  apply bind_Ok_inv in Hrest as (dfs & t3 & r4 & Hs & Hrest & ->).
  apply bind_lift_Ok_inv in Hrest as (teamplay' & Htp & Hrest).
  apply getitem_inv in Htp as [_ ->].
  apply bind_lift_Ok_inv in Hrest as (team_ids & Hids & Hrest).
  apply unique_column_inv in Hids as [_ ->].
  apply bind_Ok_inv in Hrest as (dft & t4 & r5 & Hte & Hrest & ->).
  apply bind_lift_Ok_inv in Hrest as (solo_tids & Hids & Hrest).
  apply unique_column_inv in Hids as [_ ->].
  apply bind_Ok_inv in Hrest as (dfst & t5 & r6 & Hst & Hrest & ->).
  apply bind_lift_Ok_inv in Hrest as (team_tids & Hids & Hrest).
  apply unique_column_inv in Hids as [_ ->].
  apply bind_Ok_inv in Hrest as (dftt & t6 & r7 & Htt & Hrest & ->).
  injection Hrest as <- <-. simpl.
  eexists t1, t2, t3, t4, t5, t6, _, _, _, _, _.
  split_and!; [|done|exact Hg|exact Hs|exact Hte|exact Hst|exact Htt].
  by rewrite app_nil_r.
Qed.

End Extraction.

(** ** The tournaments of one kind *)

Section Kinds.
Context `{Env}.

Lemma rows_tournaments_with z df :
  rows (tournaments_with z df)
  = filter (fun r => eq_int z (cell "Teamplay" r) = true) (rows df).
Proof.
  unfold tournaments_with, select_rows, column_values. cbn [rows].
  induction (rows df) as [|r rs IH]; [done|].
  rewrite !fmap_cons. cbn [zip zip_with].
  destruct (eq_int z (cell "Teamplay" r)) eqn:Hr.
  - rewrite filter_cons_True by done. rewrite (filter_cons_True _ r) by done.
    rewrite fmap_cons. cbn [fst]. by f_equal.
  - rewrite filter_cons_False by (cbn [snd]; congruence).
    by rewrite (filter_cons_False _ r) by congruence.
Qed.

Lemma rows_tournaments_with_none z df :
  Forall (fun r => eq_int z (cell "Teamplay" r) = false) (rows df) ->
  rows (tournaments_with z df) = [].
Proof.
  intros Hall. rewrite rows_tournaments_with.
  induction Hall as [|r rs Hr _ IH]; [done|].
  by rewrite filter_cons_False by congruence.
Qed.

End Kinds.

(** ** Which requests go where *)

Lemma unique_from_spec seen l x :
  x ∈ unique_from seen l <-> x ∈ l /\ x ∉ seen.
Proof.
  revert seen. induction l as [|v l IH]; intros seen; cbn [unique_from].
  - split; [by intros ?%elem_of_nil|by intros [?%elem_of_nil _]].
  - case_bool_decide as Hv.
    + rewrite IH, elem_of_cons. split; [by intros [? ?]; split; [right|]|].
      intros [[->|Hx] Hs]; [done|by split].
    + rewrite !elem_of_cons, IH, elem_of_cons. split.
      * intros [->|[Hx Hs]]; [by split; [left|]|]. split; [by right|]. tauto.
      * intros [[->|Hx] Hs]; [by left|].
        destruct (decide (x = v)) as [->|Hne]; [by left|]. right. split; [done|].
        by intros [?|?].
Qed.

Lemma NoDup_unique_from seen l : NoDup (unique_from seen l).
Proof.
  revert seen. induction l as [|v l IH]; intros seen; cbn [unique_from].
  - constructor.
  - case_bool_decide as Hv; [apply IH|].
    constructor; [|apply IH].
    rewrite unique_from_spec, elem_of_cons. intros [_ Hs]. apply Hs. by left.
Qed.

Lemma elem_of_unique l x : x ∈ unique l <-> x ∈ l.
Proof.
  unfold unique. rewrite unique_from_spec. split; [by intros [? _]|].
  intros Hx. split; [done|]. by intros ?%elem_of_nil.
Qed.

Section DataFlow.
Context `{Env}.

Lemma requests_to_app url t1 t2 :
  requests_to url (t1 ++ t2) = requests_to url t1 ++ requests_to url t2.
Proof. unfold requests_to. by rewrite gets_app, filter_app, fmap_app. Qed.

Lemma requests_to_elsewhere url url' t :
  Forall (fun x : get_event => x.1.1 = url') (gets t) -> url' <> url ->
  requests_to url t = [].
Proof.
  intros Hall Hne. unfold requests_to.
  induction Hall as [|x l Hx _ IH]; [done|].
  by rewrite filter_cons_False by congruence.
Qed.

Lemma requests_to_here url t :
  Forall (fun x : get_event => x.1.1 = url) (gets t) ->
  requests_to url t = snd <$> (fst <$> gets t).
Proof.
  intros Hall. unfold requests_to.
  induction Hall as [|x l Hx _ IH]; [done|].
  rewrite filter_cons_True by done. rewrite !fmap_cons. by f_equal.
Qed.

Lemma single_fetch_fst request ids (groups : list (list get_event)) :
  Forall2 (single_fetch request) ids groups ->
  fst <$> concat groups = request <$> ids.
Proof.
  induction 1 as [|id g ids groups (x & -> & Hx) _ IH]; [done|].
  cbn [concat app]. rewrite !fmap_cons, IH. by f_equal.
Qed.

Lemma paged_fetch_fst request limit ids (groups : list (list get_event)) :
  Forall2 (paged_fetch request limit) ids groups ->
  fst <$> concat groups
  = concat (zip_with (fun id c => request id <$> seq 0 c) ids (length <$> groups)) /\
  Forall (fun c => (0 < c)%nat) (length <$> groups).
Proof.
  induction 1 as [|id g ids groups (Hg & init & lst & Hsplit & _) _ [IH1 IH2]];
    [by split; [|constructor]|].
  rewrite !fmap_cons. cbn [concat zip_with]. split.
  - by rewrite fmap_app, Hg, IH1.
  - constructor; [|done]. rewrite Hsplit, length_app. simpl. lia.
Qed.

Ltac located :=
  repeat first
    [ apply requests_all_ret | apply requests_all_lift | apply requests_all_print
    | apply requests_all_sleep
    | apply requests_all_get_data; intros ?; reflexivity
    | apply requests_all_if
    | apply requests_all_while; intros ?
    | apply requests_all_for_each; intros ? ?
    | apply requests_all_bind; [|intros ?] ].

Lemma located_get_tournament_data fuel query_until_date limit verbose :
  requests_all (fun x => x.1.1 = base_url +:+ recent_tournaments)
    (get_tournament_data fuel query_until_date limit verbose).
Proof. unfold get_tournament_data, tournament_body. located. Qed.

Lemma located_get_games_data game_ids verbose :
  requests_all (fun x => x.1.1 = base_url +:+ game_by_id)
    (get_games_data game_ids verbose).
Proof. unfold get_games_data, games_body. located. Qed.

Lemma located_get_game_earnings fuel game_ids teamplay limit verbose :
  requests_all (fun x => x.1.1 = earnings_url teamplay)
    (get_game_earnings fuel game_ids teamplay limit verbose).
Proof. unfold get_game_earnings, earnings_body. destruct teamplay; located. Qed.

Lemma located_get_tournament_earnings tournament_ids teamplay verbose :
  requests_all (fun x => x.1.1 = tournament_earnings_url teamplay)
    (get_tournament_earnings tournament_ids teamplay verbose).
Proof. unfold get_tournament_earnings, tournament_earnings_body. located. Qed.

End DataFlow.

Lemma fmap_concat_zip_with_seq {A B C : Type} (f : A -> nat -> B) (g : B -> C)
    (ids : list A) (counts : list nat) :
  g <$> concat (zip_with (fun id c => f id <$> seq 0 c) ids counts)
  = concat (zip_with (fun id c => (fun k => g (f id k)) <$> seq 0 c) ids counts).
Proof.
  revert counts. induction ids as [|id ids IH]; intros [|c counts]; try done.
  cbn [zip_with concat]. rewrite fmap_app, IH. f_equal.
  by rewrite <-list_fmap_compose.
Qed.

(** * The further properties *)

Section Further.
Context `{Env}.

(** X1.  The program never makes two requests without sleeping
    [wait_time_in_seconds] in between: in every run of [main] and of each
    extractor, whatever the server answers and however the run ends, a sleep
    of [wait_time_in_seconds] lies between any two requests; and in a run
    that returns, every request is followed by such a sleep. *)
Theorem requests_are_paced (fuel : nat) (n : nat) :
  (sleeps_between_requests (main fuel n).2 /\
   (forall a, (main fuel n).1 = Ok a -> sleeps_after_requests (main fuel n).2)) /\
  (forall query_until_date limit verbose,
     let run := get_tournament_data fuel query_until_date limit verbose n in
     sleeps_between_requests run.2 /\
     (forall df, run.1 = Ok df -> sleeps_after_requests run.2)) /\
  (forall game_ids verbose,
     let run := get_games_data game_ids verbose n in
     sleeps_between_requests run.2 /\
     (forall df, run.1 = Ok df -> sleeps_after_requests run.2)) /\
  (forall game_ids teamplay limit verbose,
     let run := get_game_earnings fuel game_ids teamplay limit verbose n in
     sleeps_between_requests run.2 /\
     (forall df, run.1 = Ok df -> sleeps_after_requests run.2)) /\
  (forall tournament_ids teamplay verbose,
     let run := get_tournament_earnings tournament_ids teamplay verbose n in
     sleeps_between_requests run.2 /\
     (forall df, run.1 = Ok df -> sleeps_after_requests run.2)).
Proof.
  split; [|split; [|split; [|split]]]; intros; try subst run; apply paces_sleeps.
  - apply paces_main.
  - apply paces_get_tournament_data.
  - apply paces_get_games_data.
  - apply paces_get_game_earnings.
  - apply paces_get_tournament_earnings.
Qed.

(** X2.  Every request of a run of [main], whatever its outcome, goes to
    one of the six endpoints the program builds from [base_url], with the
    API key as its first parameter; none goes to the declared endpoint
    [player_tournaments]. *)
Theorem requests_go_to_the_endpoints (fuel : nat) (n : nat) :
  Forall (fun x : get_event =>
            x.1.1 ∈ endpoints /\
            head x.1.2 = Some ("apikey", VStr API_TOKEN) /\
            x.1.1 <> base_url +:+ player_tournaments)
         (gets (main fuel n).2).
Proof.
  eapply Forall_impl; [apply keyed_main|].
  intros x [Hurl Hkey]. split_and!; [done..|].
  intros Heq. rewrite Heq in Hurl. revert Hurl. compute_done.
Qed.

(** X3.  [process_tournaments] returns exactly on the frames that have the
    three columns StartDate, EndDate and TotalUSDPrize and in which every
    date cell converts with [pd.to_datetime] and [.dt.date] and every prize
    cell converts with [astype(float)]; on every other frame it raises. *)
Theorem process_tournaments_returns_exactly (df : DataFrame) :
  (exists df', process_tournaments df = Val df') <->
  "StartDate" ∈ columns df /\ "EndDate" ∈ columns df /\
  "TotalUSDPrize" ∈ columns df /\
  Forall (fun r => date_cell (cell "StartDate" r) /\
                   date_cell (cell "EndDate" r) /\
                   exists f, astype_float (cell "TotalUSDPrize" r) = Val f) (rows df).
Proof.
  split.
  - intros [df' Hp].
    apply process_tournaments_inv in Hp as ((Hs & He & Hz) & _ & _ & Hrows).
    split_and!; [done..|]. apply Forall_lookup. intros i r Hr.
    destruct (Hrows i r Hr)
      as (r' & ts1 & d1 & ts2 & d2 & f & _ & ? & ? & ? & ? & ? & _).
    split_and!; [by exists ts1, d1|by exists ts2, d2|by exists f].
  - intros (Hs & He & Hz & Hall). by apply process_tournaments_returns.
Qed.

(** X4.  When [process_tournaments] returns, the frame has the same
    labels in the same order and the same number of rows; in every row the
    StartDate and EndDate cells are a [datetime.date] or NaT, the
    TotalUSDPrize cell is the float of the cell it replaces, and every other
    cell is unchanged. *)
Theorem process_tournaments_frame (df df' : DataFrame) :
  process_tournaments df = Val df' ->
  columns df' = columns df /\
  length (rows df') = length (rows df) /\
  forall i (r : row), rows df !! i = Some r ->
    exists r' : row,
      rows df' !! i = Some r' /\
      ((exists d, r' !! "StartDate" = Some (VDate d)) \/
       r' !! "StartDate" = Some VNaT) /\
      ((exists d, r' !! "EndDate" = Some (VDate d)) \/
       r' !! "EndDate" = Some VNaT) /\
      (exists f, astype_float (cell "TotalUSDPrize" r) = Val f /\
                 r' !! "TotalUSDPrize" = Some (VFloat f)) /\
      forall c, c <> "StartDate" -> c <> "EndDate" -> c <> "TotalUSDPrize" ->
        r' !! c = r !! c.
Proof.
  intros Hp. apply process_tournaments_inv in Hp as (_ & Hcol & Hlen & Hrows).
  split_and!; [done..|]. intros i r Hr.
  destruct (Hrows i r Hr)
    as (r' & ts1 & d1 & ts2 & d2 & f & Hr' & _ & Hd1 & _ & Hd2 & Hf & Hs & He & Hz & Hrest).
  exists r'. split_and!; [done| | |by exists f|done].
  - rewrite Hs. apply dt_date_Val in Hd1 as [[d ->]| ->]; eauto.
  - rewrite He. apply dt_date_Val in Hd2 as [[d ->]| ->]; eauto.
Qed.

(** X5.  [get_tournament_data] gives no partial result.  It returns only
    when every request it made was answered with status 200 and a body that
    is not empty; a request that fails, or brings an empty body, gives a
    page that [process_tournaments] rejects with a [KeyError] for StartDate;
    and when the page of a later request does not process, the run ends with
    that fault after the requests made so far, the rows accumulated being
    lost. *)
Theorem tournaments_give_no_partial_result (query_until_date : date) (limit : Z)
    (verbose : bool) :
  (forall fuel n df t,
     get_tournament_data fuel query_until_date limit verbose n = (Ok df, t) ->
     Forall (fun x : get_event =>
               exists response, x.2 = Val response /\
                 status_code response = 200 /\ text response <> "") (gets t)) /\
  (forall (x : get_event) response,
     x.2 = Val response ->
     status_code response <> 200 \/ text response = "" ->
     processed x = Exc (KeyError ["StartDate"])) /\
  (forall m fuel n e, (m < fuel)%nat ->
     let g := planned limit (S m) n 0 in
     Forall (fun x => exists df, processed x = Val df) (take m g) ->
     (forall k, (0 < k <= m)%nat ->
        continues_after query_until_date limit (take k g)) ->
     (exists x, g !! m = Some x /\ processed x = Exc e) ->
     exists t,
       get_tournament_data fuel query_until_date limit verbose n = (Raise e, t) /\
       gets t = g).
Proof.
  split_and!.
  - intros fuel n df t. rewrite get_tournament_data_run.
    destruct (while _ _ _ _ _) as [[s|e|] t1] eqn:Hloop; [|done..].
    intros [= <- <-]. cbn [gets].
    apply tournament_loop_Ok in Hloop as (_ & _ & Hall & _).
    eapply Forall_impl; [exact Hall|]. intros x [df Hp].
    by eapply processed_Val_answered.
  - apply processed_failed.
  - intros m fuel n e Hfuel g Hall Hcont Hlast.
    destruct (tournament_loop_faults query_until_date limit verbose m fuel
                initial_vars n e) as (t & Hloop & Hg); [done|exact Hall| |done|].
    + intros [|k] Hk; [done|]. apply loop_continues_after.
      * intros Hnil. apply (f_equal length) in Hnil.
        rewrite length_take, length_planned in Hnil.
        change (length (@nil get_event)) with 0%nat in Hnil. lia.
      * apply Hcont. lia.
    + exists (EPrint [PStr "Getting tournament data"] :: t).
      by rewrite get_tournament_data_run, Hloop.
Qed.

(** X6.  What [get_tournament_data] returns reaches back to the cutoff:
    the frame has at least [limit] rows, every StartDate in it is a date,
    and one of its rows has the least of them, a date at most
    [query_until_date].  Rows older than the cutoff are not removed. *)
Theorem returned_tournaments_reach_the_cutoff (fuel : nat) (query_until_date : date)
    (limit : Z) (verbose : bool) (n : nat) (df : DataFrame) (t : list event) :
  get_tournament_data fuel query_until_date limit verbose n = (Ok df, t) ->
  limit <= shape0 df /\
  exists d,
    date_leb d query_until_date = true /\
    (exists r, r ∈ rows df /\ cell "StartDate" r = VDate d) /\
    Forall (fun r => exists d', cell "StartDate" r = VDate d' /\ date_leb d d' = true)
           (rows df).
Proof.
  rewrite get_tournament_data_run.
  destruct (while _ _ _ _ _) as [[s|e|] t1] eqn:Hloop; [|done..].
  intros [= <- <-].
  apply tournament_loop_Ok in Hloop as (-> & _ & _ & Hstop & _).
  assert (gets t1 <> []) as Hne by (intros Hnil; by rewrite Hnil in Hstop).
  apply tournament_continue_false in Hstop as (_ & Hshape & d & Hmin & Hle).
  split.
  - pose proof (foldl_vars_after_shape limit (gets t1) initial_vars Hne). lia.
  - exists d. split; [done|]. apply min_start_date_Some in Hmin.
    unfold getattr, column_values in Hmin.
    destruct (has_column _ _); [|done]. simpl in Hmin.
    apply Series_min_date in Hmin as [Hin Hall]. split.
    + apply list_elem_of_fmap in Hin as (r & Hr & Hin). exists r. by split.
    + apply Forall_forall. intros r Hr.
      apply (proj1 (Forall_forall _ _) Hall (cell "StartDate" r)).
      by apply list_elem_of_fmap_2.
Qed.


(** X8.  On a server that answers every request with a failure,
    [get_game_earnings] with a positive page limit still returns: it makes
    exactly one request per identifier, at offset 0 and in the order of the
    list, and returns a frame without rows. *)
Theorem leaderboards_on_outage (fuel : nat) (game_ids : list value) (teamplay : bool)
    (limit : Z) (verbose : bool) (n : nat) :
  (forall n' url params, exists response,
     requests_get n' url params = Val response /\
     (status_code response <> 200 \/ text response = "")) ->
  0 < limit -> (2 <= fuel)%nat ->
  exists df t,
    get_game_earnings fuel game_ids teamplay limit verbose n = (Ok df, t) /\
    rows df = [] /\
    fst <$> gets t = (fun id => earnings_request teamplay limit id 0) <$> game_ids.
Proof.
  intros Hdown Hlimit Hfuel.
  assert (forall ids acc n, rows acc = [] ->
    exists df t,
      for_each ids
        (fun game_id df_game_earnings_all =>
           s ← while fuel (fun s => mret (negb (e_last_page s)))
                 (earnings_body (earnings_url teamplay) game_id limit verbose)
                 {| e_offset := 0; e_last_page := false;
                    e_all := df_game_earnings_all |};
           mret (e_all s)) acc n = (Ok df, t) /\
      rows df = [] /\
      fst <$> gets t = (fun id => earnings_request teamplay limit id 0) <$> ids)
    as Hloop.
  { clear n. intros ids. induction ids as [|id ids IH]; intros acc n Hacc.
    - by exists acc, [].
    - destruct (earnings_group_on_outage fuel teamplay id limit verbose acc n
                  Hdown Hlimit Hfuel) as (s & t1 & Hw & Hrows & Hg1).
      destruct (IH (e_all s) (n + requests_made (t1 ++ []))%nat) as (df & t2 & Hrest & Hdf & Hg2);
        [by apply Hrows|].
      exists df, ((t1 ++ []) ++ t2). split_and!; [|done|].
      + cbn [for_each]. eapply bind_Ok; [|exact Hrest].
        eapply bind_Ok; [exact Hw|reflexivity].
      + rewrite app_nil_r, gets_app, fmap_app, Hg1, Hg2. done. }
  destruct (Hloop game_ids pd_DataFrame n) as (df & t & Hrun & Hdf & Hg); [done|].
  exists df,
    (EPrint [PStr (if teamplay then "Getting Games Earnings Team Data"
                   else "Getting Games Earnings Solo Data")] :: t).
  split_and!; [|done|done].
  unfold get_game_earnings, print.
  destruct teamplay; rewrite bind_emit by done; by rewrite Hrun.
Qed.

(** X9.  With a page limit of zero or less, no page is ever short:
    [get_game_earnings] on a list that is not empty never returns, whatever
    the server answers. *)
Theorem leaderboards_need_a_positive_limit (fuel : nat) (game_ids : list value)
    (teamplay : bool) (limit : Z) (verbose : bool) (n : nat) :
  limit <= 0 -> game_ids <> [] ->
  ~ exists df t, get_game_earnings fuel game_ids teamplay limit verbose n = (Ok df, t).
Proof.
  intros Hlimit Hids (df & t & Hrun).
  apply get_game_earnings_groups in Hrun as (groups & _ & _ & HF & _).
  destruct HF as [|id g ids groups' (_ & init & lst & _ & _ & Hshort) _]; [done|].
  unfold shape0 in Hshort. lia.
Qed.

(** X10.  With [verbose] set, as [main] sets it, [get_games_data] does not
    survive a lookup that brings no game name.  A run that returns had every
    lookup answered with a page that has a GameName column and a row.  And
    after lookups that went well, a lookup whose page has no GameName
    column, the empty frame of a failed request for one, ends the run with
    an [AttributeError] for GameName: the games found so far are lost and
    the identifiers that follow are not requested. *)
Theorem game_lookup_without_a_name_aborts :
  (forall game_ids n df t,
     get_games_data game_ids true n = (Ok df, t) ->
     Forall (fun x => "GameName" ∈ columns (page x) /\ rows (page x) <> [])
            (gets t)) /\
  (forall found game_id rest n df t page_df,
     get_games_data found true n = (Ok df, t) ->
     let x : get_event :=
       (games_request game_id,
        requests_get (n + length found)%nat (games_request game_id).1
                     (games_request game_id).2) in
     fetched x.2 = Val page_df -> "GameName" ∉ columns page_df ->
     exists t',
       get_games_data (found ++ game_id :: rest) true n
         = (Raise (AttributeError "GameName"), t') /\
       gets t' = gets t ++ [x]).
Proof.
  split.
  - intros game_ids n df t. unfold get_games_data, print.
    rewrite bind_emit by done.
    destruct (for_each _ _ _ _) as [o t'] eqn:Hrun. intros [= -> <-]. cbn [gets].
    eapply for_each_gets in Hrun; [exact Hrun|].
    intros id acc n' acc' t1. apply games_body_named.
  - intros found game_id rest n df t page_df Hfound x Hf Hname.
    pose proof (get_games_data_groups _ _ _ _ _ Hfound) as (groups & Hlen & Hgets & HF & _).
    assert (requests_made t = length found) as Hmade.
    { rewrite requests_made_gets, Hgets, (single_fetch_count _ _ _ HF). done. }
    revert Hfound. unfold get_games_data, print. rewrite !bind_emit by done.
    destruct (for_each found _ _ _) as [o t1] eqn:Hrun. intros [= -> <-].
    assert (requests_made t1 = length found) as Hmade1 by done.
    destruct (games_body_unnamed game_id df (n + length found)%nat page_df Hf Hname)
      as (t' & Hbody & Hg).
    eexists. split.
    + rewrite for_each_app, bind_run, Hrun, Hmade1. cbn [for_each].
      by rewrite bind_run, Hbody.
    + cbn [gets]. by rewrite gets_app, Hg.
Qed.

(** X11.  [get_tournament_earnings] faults only where a fetch does.  When
    every request it comes to make is fetched without an exception, a failed
    or empty answer included, it returns after exactly one request per
    identifier, for either value of [verbose]: its verbose print reads the
    TournamentId column the loop has just set.  And when the requests before
    the one for some identifier are fetched and that one raises, the run
    ends with that exception after that request. *)
Theorem tournament_results_fault_only_in_the_fetch (teamplay verbose : bool) (n : nat) :
  (forall tournament_ids,
     (forall k id, tournament_ids !! k = Some id ->
        exists df, fetched (requests_get (n + k)%nat
                              (tournament_earnings_request teamplay id).1
                              (tournament_earnings_request teamplay id).2) = Val df) ->
     exists df t,
       get_tournament_earnings tournament_ids teamplay verbose n = (Ok df, t) /\
       fst <$> gets t = tournament_earnings_request teamplay <$> tournament_ids) /\
  (forall fetched_ids tournament_id rest e,
     (forall k id, fetched_ids !! k = Some id ->
        exists df, fetched (requests_get (n + k)%nat
                              (tournament_earnings_request teamplay id).1
                              (tournament_earnings_request teamplay id).2) = Val df) ->
     fetched (requests_get (n + length fetched_ids)%nat
                (tournament_earnings_request teamplay tournament_id).1
                (tournament_earnings_request teamplay tournament_id).2) = Exc e ->
     exists t,
       get_tournament_earnings (fetched_ids ++ tournament_id :: rest) teamplay verbose n
         = (Raise e, t) /\
       fst <$> gets t
         = tournament_earnings_request teamplay <$> (fetched_ids ++ [tournament_id])).
Proof.
  split.
  - intros tournament_ids Hall. unfold get_tournament_earnings.
    by apply tournament_results_loop.
  - intros fetched_ids tournament_id rest e Hall Hexc.
    destruct (tournament_results_loop teamplay verbose fetched_ids pd_DataFrame n Hall)
      as (df & t1 & Hrun & Hg1).
    assert (requests_made t1 = length fetched_ids) as Hmade.
    { rewrite requests_made_gets, <-(length_fmap fst), Hg1. by rewrite length_fmap. }
    destruct (tournament_earnings_body_raise teamplay verbose tournament_id df
                (n + length fetched_ids)%nat e Hexc) as (t2 & Hb & Hg2).
    exists (t1 ++ t2). split.
    + unfold get_tournament_earnings.
      rewrite for_each_app, bind_run, Hrun, Hmade. cbn [for_each].
      by rewrite bind_run, Hb.
    + by rewrite gets_app, !fmap_app, Hg1, Hg2.
Qed.

(** X12.  The six files are not saved as one.  Whatever the tables,
    [save_data] writes the files of [saved] in order up to the first path it
    cannot write: when there is none it returns with all six written, and
    when there is one it raises [OSError] there, the files before it staying
    written and the files after it not being attempted. *)
Theorem save_data_stops_at_the_first_failure (tb : tables) (n : nat) :
  exists k : nat,
    writes (save_data tb n).2 = take k (saved tb) /\
    Forall (fun p => to_csv_allowed p.1 = true) (take k (saved tb)) /\
    match saved tb !! k with
    | Some p => to_csv_allowed p.1 = false /\ (save_data tb n).1 = Raise OSError
    | None => (save_data tb n).1 = Ok tt
    end.
Proof.
  unfold save_data, to_csv, saved. unfold_M.
  destruct (to_csv_allowed "data/tournaments.csv") eqn:H1; simpl;
    [|by exists 0%nat].
  destruct (to_csv_allowed "data/games.csv") eqn:H2; simpl;
    [|exists 1%nat; simpl; by repeat constructor].
  destruct (to_csv_allowed "data/solo_earnings.csv") eqn:H3; simpl;
    [|exists 2%nat; simpl; by repeat constructor].
  destruct (to_csv_allowed "data/team_earnings.csv") eqn:H4; simpl;
    [|exists 3%nat; simpl; by repeat constructor].
  destruct (to_csv_allowed "data/solo_tournament_earnings.csv") eqn:H5; simpl;
    [|exists 4%nat; simpl; by repeat constructor].
  destruct (to_csv_allowed "data/team_tournament_earnings.csv") eqn:H6; simpl;
    [|exists 5%nat; simpl; by repeat constructor].
  exists 6%nat. simpl. by repeat constructor.
Qed.

(** X13.  [main] needs a solo tournament.  When the extraction completes
    and no tournament has Teamplay equal to 0, the solo leaderboards are the
    frame [get_game_earnings] builds from no identifier, which has no
    column: dropping NameFirst and NameLast from it raises a [KeyError] for
    both labels, and [main] ends with it after all the requests, with no
    file written. *)
Theorem main_needs_a_solo_tournament (fuel : nat) (n : nat) (tb : tables)
    (t : list event) :
  extraction fuel n = (Ok tb, t) ->
  Forall (fun r => eq_int 0 (cell "Teamplay" r) = false) (rows (df_tournaments tb)) ->
  main fuel n = (Raise (KeyError ["NameFirst"; "NameLast"]), t) /\
  writes t = [].
Proof.
  intros Hext Hteam. split.
  - pose proof (extraction_Ok_inv fuel n tb t Hext)
      as (t1 & t2 & t3 & t4 & t5 & t6 & n2 & n3 & n4 & n5 & n6 & _ & _ & _ & Hsolo & _).
    unfold column_values in Hsolo at 1.
    rewrite rows_tournaments_with_none in Hsolo by done.
    assert (df_solo_earnings tb = pd_DataFrame) as Hempty.
    { revert Hsolo. unfold get_game_earnings, print. rewrite bind_emit by done.
      cbn. by intros [= <- _]. }
    unfold main. rewrite bind_run, Hext.
    assert (final_postprocessing tb (n + requests_made t)%nat
            = (Raise (KeyError ["NameFirst"; "NameLast"]), [])) as Hpost.
    { unfold final_postprocessing. rewrite Hempty. reflexivity. }
    rewrite bind_run, Hpost. by rewrite app_nil_r.
  - pose proof (writes_nothing_extraction fuel n) as Hw. by rewrite Hext in Hw.
Qed.

(** X14.  What a complete extraction requests follows from the tournaments
    it fetched.  The game lookups are the distinct GameIds of the
    tournaments, each once, in order of first appearance, so that the game
    of every tournament is looked up; the solo results are requested for the
    distinct TournamentIds of the tournaments with Teamplay equal to 0 and
    the team results for those with Teamplay equal to 1, each once; and the
    leaderboards are requested for the distinct GameIds of the same two
    selections, each at the offsets 0, 100, 200, ... of one or more pages. *)
Theorem extraction_requests_follow_the_tournaments (fuel : nat) (n : nat) (tb : tables)
    (t : list event) :
  extraction fuel n = (Ok tb, t) ->
  let df := df_tournaments tb in
  let selection (teamplay : bool) := tournaments_with (if teamplay then 1 else 0) df in
  requests_to (base_url +:+ game_by_id) t
    = (fun id => (games_request id).2) <$> unique (column_values df "GameId") /\
  NoDup (requests_to (base_url +:+ game_by_id) t) /\
  (forall r, r ∈ rows df ->
     (games_request (cell "GameId" r)).2 ∈ requests_to (base_url +:+ game_by_id) t) /\
  forall teamplay : bool,
    requests_to (tournament_earnings_url teamplay) t
      = (fun id => (tournament_earnings_request teamplay id).2)
          <$> unique (column_values (selection teamplay) "TournamentId") /\
    exists pages : list nat,
      length pages = length (unique (column_values (selection teamplay) "GameId")) /\
      Forall (fun c => (0 < c)%nat) pages /\
      requests_to (earnings_url teamplay) t
        = concat (zip_with
                    (fun id c => (fun k => (earnings_request teamplay 100 id k).2)
                                   <$> seq 0 c)
                    (unique (column_values (selection teamplay) "GameId")) pages).
Proof.
  intros Hext df selection.
  pose proof (extraction_Ok_inv fuel n tb t Hext)
    as (t1 & t2 & t3 & t4 & t5 & t6 & n2 & n3 & n4 & n5 & n6
        & Ht & Hr1 & Hr2 & Hr3 & Hr4 & Hr5 & Hr6).
  fold df in Hr1, Hr2, Hr3, Hr4, Hr5, Hr6.
  pose proof (located_get_tournament_data fuel query_min_date 100 verbose n) as H1.
  rewrite Hr1 in H1.
  pose proof (located_get_games_data (unique (column_values df "GameId")) verbose n2)
    as H2. rewrite Hr2 in H2.
  pose proof (located_get_game_earnings fuel
                (unique (column_values (tournaments_with 0 df) "GameId"))
                false 100 true n3) as H3.
  rewrite Hr3 in H3.
  pose proof (located_get_game_earnings fuel
                (unique (column_values (tournaments_with 1 df) "GameId"))
                true 100 true n4) as H4.
  rewrite Hr4 in H4.
  pose proof (located_get_tournament_earnings
                (unique (column_values (tournaments_with 0 df) "TournamentId"))
                false false n5) as H5.
  rewrite Hr5 in H5.
  pose proof (located_get_tournament_earnings
                (unique (column_values (tournaments_with 1 df) "TournamentId"))
                true false n6) as H6.
  rewrite Hr6 in H6.
  cbn [snd] in H1, H2, H3, H4, H5, H6.
  assert (forall url, requests_to url t
            = requests_to url t1 ++ requests_to url t2 ++ requests_to url t3
              ++ requests_to url t4 ++ requests_to url t5 ++ requests_to url t6)
    as Hsplit.
  { intros url. rewrite Ht, requests_to_app.
    change (requests_to url (EPrint [PStr "Getting Games Data"]
                             :: t2 ++ t3 ++ t4 ++ t5 ++ t6))
      with (requests_to url (t2 ++ t3 ++ t4 ++ t5 ++ t6)).
    by rewrite !requests_to_app. }
  apply get_games_data_groups in Hr2 as (g2 & _ & Hg2 & HF2 & _).
  assert (requests_to (base_url +:+ game_by_id) t
          = (fun id => (games_request id).2) <$> unique (column_values df "GameId"))
    as Hgames.
  { rewrite Hsplit.
    rewrite (requests_to_elsewhere _ _ t1 H1) by done.
    rewrite (requests_to_elsewhere _ _ t3 H3) by done.
    rewrite (requests_to_elsewhere _ _ t4 H4) by done.
    rewrite (requests_to_elsewhere _ _ t5 H5) by done.
    rewrite (requests_to_elsewhere _ _ t6 H6) by done.
    rewrite app_nil_r. cbn [app].
    rewrite (requests_to_here _ t2 H2), Hg2, (single_fetch_fst _ _ _ HF2).
    by rewrite <-list_fmap_compose. }
  split_and!.
  - exact Hgames.
  - rewrite Hgames. apply NoDup_fmap_2; [|apply NoDup_unique_from].
    by intros x y [=].
  - intros r Hr. rewrite Hgames. apply list_elem_of_fmap.
    exists (cell "GameId" r). split; [done|].
    apply elem_of_unique. unfold column_values. by apply list_elem_of_fmap_2.
  - intros teamplay. split.
    + rewrite Hsplit. destruct teamplay.
      * apply get_tournament_earnings_groups in Hr6 as (g & _ & Hg & HF & _).
        rewrite (requests_to_elsewhere _ _ t1 H1) by done.
        rewrite (requests_to_elsewhere _ _ t2 H2) by done.
        rewrite (requests_to_elsewhere _ _ t3 H3) by done.
        rewrite (requests_to_elsewhere _ _ t4 H4) by done.
        rewrite (requests_to_elsewhere _ _ t5 H5) by done.
        cbn [app].
        rewrite (requests_to_here _ t6 H6), Hg, (single_fetch_fst _ _ _ HF).
        by rewrite <-list_fmap_compose.
      * apply get_tournament_earnings_groups in Hr5 as (g & _ & Hg & HF & _).
        rewrite (requests_to_elsewhere _ _ t1 H1) by done.
        rewrite (requests_to_elsewhere _ _ t2 H2) by done.
        rewrite (requests_to_elsewhere _ _ t3 H3) by done.
        rewrite (requests_to_elsewhere _ _ t4 H4) by done.
        rewrite (requests_to_elsewhere _ _ t6 H6) by done.
        rewrite app_nil_r. cbn [app].
        rewrite (requests_to_here _ t5 H5), Hg, (single_fetch_fst _ _ _ HF).
        by rewrite <-list_fmap_compose.
    + rewrite Hsplit. destruct teamplay.
      * apply get_game_earnings_groups in Hr4 as (g & Hlen & Hg & HF & _).
        destruct (paged_fetch_fst _ _ _ _ HF) as [Hfst Hpos].
        exists (length <$> g). split_and!; [by rewrite length_fmap|done|].
        rewrite (requests_to_elsewhere _ _ t1 H1) by done.
        rewrite (requests_to_elsewhere _ _ t2 H2) by done.
        rewrite (requests_to_elsewhere _ _ t3 H3) by done.
        rewrite (requests_to_elsewhere _ _ t5 H5) by done.
        rewrite (requests_to_elsewhere _ _ t6 H6) by done.
        rewrite app_nil_r. cbn [app].
        rewrite (requests_to_here _ t4 H4), Hg, Hfst.
        apply fmap_concat_zip_with_seq.
      * apply get_game_earnings_groups in Hr3 as (g & Hlen & Hg & HF & _).
        destruct (paged_fetch_fst _ _ _ _ HF) as [Hfst Hpos].
        exists (length <$> g). split_and!; [by rewrite length_fmap|done|].
        rewrite (requests_to_elsewhere _ _ t1 H1) by done.
        rewrite (requests_to_elsewhere _ _ t2 H2) by done.
        rewrite (requests_to_elsewhere _ _ t4 H4) by done.
        rewrite (requests_to_elsewhere _ _ t5 H5) by done.
        rewrite (requests_to_elsewhere _ _ t6 H6) by done.
        rewrite app_nil_r. cbn [app].
        rewrite (requests_to_here _ t3 H3), Hg, Hfst.
        apply fmap_concat_zip_with_seq.
Qed.

End Further.

(** * The further properties on the canned worlds *)

(** X4 on a page of two tournaments. *)
Lemma process_tournaments_frame_witness :
  exists df',
    @process_tournaments scenario_world prize_page = Val df' /\
    columns df' = columns prize_page /\
    length (rows df') = 2%nat /\
    (fun r : row => r !! "StartDate") <$> rows df'
      = [Some (VDate (Date 2023 6 1)); Some (VDate (Date 2023 7 1))] /\
    (fun r : row => r !! "GameId") <$> rows df' = [Some (VInt 151); Some (VInt 151)].
Proof.
  let v := eval vm_compute in (@process_tournaments scenario_world prize_page) in
  match v with Val ?df0 => pose (df' := df0) end.
  assert (@process_tournaments scenario_world prize_page = Val df') as Hrun
    by (vm_compute; reflexivity).
  destruct (@process_tournaments_frame scenario_world prize_page df' Hrun)
    as (Hcol & Hlen & _).
  exists df'. split; [exact Hrun|]. split; [exact Hcol|]. split; [exact Hlen|].
  split; vm_compute; reflexivity.
Defined.

(** X5 on a full page, a short page and an empty body with page limit 2:
    the third request ends the run with the fault, and the three rows are
    lost. *)
Lemma tournaments_give_no_partial_result_witness :
  exists t,
    @get_tournament_data short_page_world 3 (Date 2023 1 1) 2 false 0%nat
      = (Raise (KeyError ["StartDate"]), t) /\
    gets t = @planned short_page_world 2 3 0 0.
Proof.
  destruct (@tournaments_give_no_partial_result short_page_world (Date 2023 1 1) 2
              false) as (_ & _ & Hfault).
  apply (Hfault 2%nat 3%nat 0%nat).
  - lia.
  - repeat constructor; eexists; vm_compute; reflexivity.
  - intros k Hk. assert (k = 1 \/ k = 2)%nat as [-> | ->] by lia.
    + eexists. split; [vm_compute; reflexivity|]. right.
      eexists. split; [vm_compute; reflexivity|vm_compute; reflexivity].
    + eexists. split; [vm_compute; reflexivity|]. left. by vm_compute.
  - eexists. split; [vm_compute; reflexivity|vm_compute; reflexivity].
Defined.

(** X6 on two pages of two tournaments with page limit 2: the four rows
    returned reach back to 2022-11-01. *)
Lemma returned_tournaments_reach_the_cutoff_witness :
  exists df t d,
    @get_tournament_data two_pages_world 3 (Date 2023 1 1) 2 false 0%nat = (Ok df, t) /\
    2 <= shape0 df /\
    date_leb d (Date 2023 1 1) = true /\
    (exists r, r ∈ rows df /\ cell "StartDate" r = VDate d) /\
    Forall (fun r => exists d', cell "StartDate" r = VDate d' /\ date_leb d d' = true)
           (rows df).
Proof.
  let v := eval vm_compute in
    (@get_tournament_data two_pages_world 3 (Date 2023 1 1) 2 false 0%nat) in
  match v with (Ok ?df0, ?t0) => pose (df := df0); pose (t := t0) end.
  assert (@get_tournament_data two_pages_world 3 (Date 2023 1 1) 2 false 0%nat
          = (Ok df, t)) as Hrun by (vm_compute; reflexivity).
  destruct (@returned_tournaments_reach_the_cutoff two_pages_world 3%nat
              (Date 2023 1 1) 2 false 0%nat df t Hrun)
    as (Hshape & d & Hle & Hrow & Hall).
  exists df, t, d. split; [exact Hrun|]. split; [exact Hshape|].
  split; [exact Hle|]. split; [exact Hrow|exact Hall].
Defined.


(** X8 on the server that is down, for the games 7 and 42. *)
Lemma leaderboards_on_outage_witness :
  exists df t,
    @get_game_earnings outage_world 2 [VInt 7; VInt 42] true 100 false 0%nat
      = (Ok df, t) /\
    rows df = [] /\
    fst <$> gets t
      = (fun id => @earnings_request outage_world true 100 id 0) <$> [VInt 7; VInt 42].
Proof.
  apply (@leaderboards_on_outage outage_world).
  - intros n' url params. eexists. split; [reflexivity|]. left. by vm_compute.
  - lia.
  - lia.
Defined.

(** X9 on the server that is down, with page limit 0: the leaderboard of
    game 7 is requested until the fuel is spent. *)
Lemma leaderboards_need_a_positive_limit_witness :
  (@get_game_earnings outage_world 5 [VInt 7] false 0 false 0%nat).1 = OutOfFuel /\
  ~ exists df t,
      @get_game_earnings outage_world 5 [VInt 7] false 0 false 0%nat = (Ok df, t).
Proof.
  split; [vm_compute; reflexivity|].
  apply (@leaderboards_need_a_positive_limit outage_world); [lia|done].
Defined.

(** X10 on the games 7, 42 and 43, where the lookup of 42 is answered with
    status 404: the run ends after two requests. *)
Lemma game_lookup_without_a_name_aborts_witness :
  exists t',
    @get_games_data lost_game_world [VInt 7; VInt 42; VInt 43] true 0%nat
      = (Raise (AttributeError "GameName"), t') /\
    length (gets t') = 2%nat.
Proof.
  destruct (@game_lookup_without_a_name_aborts lost_game_world) as [_ Hfault].
  let v := eval vm_compute in (@get_games_data lost_game_world [VInt 7] true 0%nat) in
  match v with (Ok ?df0, ?t0) => pose (df := df0); pose (t := t0) end.
  assert (@get_games_data lost_game_world [VInt 7] true 0%nat = (Ok df, t)) as Hrun
    by (vm_compute; reflexivity).
  destruct (Hfault [VInt 7] (VInt 42) [VInt 43] 0%nat df t pd_DataFrame Hrun)
    as (t' & Hraise & Hg).
  - vm_compute; reflexivity.
  - apply not_elem_of_nil.
  - exists t'. split; [exact Hraise|]. rewrite Hg. vm_compute; reflexivity.
Defined.

(** X11 on the server that is down, where the results of the tournaments 1
    and 2 are requested and the run returns; and on the server that answers
    once with status 500 and then not at all, where the second request ends
    the run. *)
Lemma tournament_results_fault_only_in_the_fetch_witness :
  (exists df t,
     @get_tournament_earnings outage_world [VInt 1; VInt 2] false true 0%nat
       = (Ok df, t) /\
     fst <$> gets t
       = @tournament_earnings_request outage_world false <$> [VInt 1; VInt 2]) /\
  (exists t,
     @get_tournament_earnings failing_world [VInt 1; VInt 2; VInt 3] true false 0%nat
       = (Raise RequestException, t) /\
     fst <$> gets t
       = @tournament_earnings_request failing_world true <$> [VInt 1; VInt 2]).
Proof.
  split.
  - destruct (@tournament_results_fault_only_in_the_fetch outage_world false true 0%nat)
      as [Hreturns _].
    apply Hreturns. intros k id _. eexists. vm_compute; reflexivity.
  - destruct (@tournament_results_fault_only_in_the_fetch failing_world true false 0%nat)
      as [_ Hraises].
    apply (Hraises [VInt 1] (VInt 2) [VInt 3] RequestException).
    + intros [|[|k]] id Hk; [|done..]. eexists. vm_compute; reflexivity.
    + vm_compute; reflexivity.
Defined.

(** X13 on the run over team tournaments only: the four requests are made
    and [main] ends with the fault. *)
Lemma main_needs_a_solo_tournament_witness :
  exists t,
    @main team_only_world 2 0%nat = (Raise (KeyError ["NameFirst"; "NameLast"]), t) /\
    writes t = [] /\
    length (gets t) = 4%nat.
Proof.
  pose (run := @extraction team_only_world 2 0%nat).
  pose (tb := match run.1 with Ok tb => tb | _ => some_tables end).
  assert (run = (Ok tb, run.2)) as Hext
    by (apply returned_value; vm_compute; reflexivity).
  destruct (@main_needs_a_solo_tournament team_only_world 2%nat 0%nat tb run.2 Hext)
    as [Hmain Hw].
  { apply (bool_decide_unpack _). vm_compute. exact I. }
  exists run.2. split; [exact Hmain|]. split; [exact Hw|vm_compute; reflexivity].
Defined.

(** X14 on the run over 100 solo tournaments of the game 151, all under the
    tournament identifier 1000: one game lookup, one request for solo
    results and none for team results. *)
Lemma extraction_requests_follow_the_tournaments_witness :
  exists tb t,
    @extraction pipeline_world 2 0%nat = (Ok tb, t) /\
    length (rows (df_tournaments tb)) = 100%nat /\
    requests_to (base_url +:+ game_by_id) t
      = [[("apikey", VStr "token"); ("gameid", VInt 151)]] /\
    requests_to (@tournament_earnings_url false) t
      = [[("apikey", VStr "token"); ("tournamentid", VInt 1000)]] /\
    requests_to (@tournament_earnings_url true) t = [].
Proof.
  pose (run := @extraction pipeline_world 2 0%nat).
  pose (tb := match run.1 with Ok tb => tb | _ => some_tables end).
  assert (run = (Ok tb, run.2)) as Hext
    by (apply returned_value; vm_compute; reflexivity).
  destruct (@extraction_requests_follow_the_tournaments pipeline_world 2%nat 0%nat
              tb run.2 Hext) as (Hgames & _ & _ & Hkinds).
  destruct (Hkinds false) as [Hsolo _]. destruct (Hkinds true) as [Hteam _].
  exists tb, run.2. split; [exact Hext|]. split; [vm_compute; reflexivity|].
  split; [rewrite Hgames; vm_compute; reflexivity|].
  split; [rewrite Hsolo; vm_compute; reflexivity|].
  rewrite Hteam. vm_compute; reflexivity.
Defined.
